(** * Adaptive interview: level tracker, answer scoring, proctoring penalty
      and final evaluation

    A shallow embedding of [interview_manager.py], [scoring_service.py] and
    [llm_runner.py].

    Conventions of the embedding.
    - Python [int] is [Z]; Python [str] is [string] (the text model is ASCII:
      on code points below 128 the character classes of [str.split],
      [str.strip], [str.lower] and of the [re] module are the ones written
      out below).
    - Python [float] arithmetic is modelled by exact rationals [Q]; binary64
      rounding error is outside the model.  [round(x, 1)] is rounding to the
      nearest tenth, ties to the even tenth.
    - Objects that are mutated are passed and returned explicitly.
    - Logging, time stamps, the JSON files written by [save_interview_data]
      and [save_scores], and the construction of the Gemini client in
      [LLMRunner.__init__] are not modelled. *)

From Stdlib Require Import ZArith QArith Qround Lqa Lia.
From Stdlib Require Import String Ascii List.
From stdpp Require Import base gmap strings list pretty.
Import ListNotations.

Local Open Scope string_scope.
Local Open Scope Z_scope.
Local Open Scope list_scope.

(** ** The level tracker of [InterviewManager] *)

Module Tracker.

(** The attributes of [InterviewManager] that [determine_next_level] and
    [_change_level] read or write, with the mirrored entries of
    [session_data]. *)
Record t : Type := mk {
  current_level : string;
  level_questions_asked : Z;
  consecutive_correct : Z;
  consecutive_incorrect : Z;
  level_progression : list string;
  sd_current_level : string;
  sd_level_progression : list string;
  sd_consecutive_correct : Z;
  sd_consecutive_incorrect : Z
}.

(** [__init__]: the level tracking part. *)
Definition init : t :=
  {| current_level := "easy";
     level_questions_asked := 0;
     consecutive_correct := 0;
     consecutive_incorrect := 0;
     level_progression := ["easy"];
     sd_current_level := "easy";
     sd_level_progression := ["easy"];
     sd_consecutive_correct := 0;
     sd_consecutive_incorrect := 0 |}.

Definition should_promote_level (st : t) : bool :=
  if String.eqb (current_level st) "hard" then false
  else 2 <=? consecutive_correct st.

Definition should_demote_level (st : t) : bool :=
  if String.eqb (current_level st) "easy" then false
  else 2 <=? consecutive_incorrect st.

(** [_change_level(new_level, reason)]; [reason] is only logged.  After the
    call [session_data["level_progression"]] is the list object
    [self.level_progression] itself. *)
Definition _change_level (new_level reason : string) (st : t) : t :=
  let progression := level_progression st ++ [new_level] in
  {| current_level := new_level;
     level_questions_asked := 0;
     consecutive_correct := consecutive_correct st;
     consecutive_incorrect := consecutive_incorrect st;
     level_progression := progression;
     sd_current_level := new_level;
     sd_level_progression := progression;
     sd_consecutive_correct := sd_consecutive_correct st;
     sd_consecutive_incorrect := sd_consecutive_incorrect st |}.

(** The first half of [determine_next_level]: the streak counters and the
    per-level question count. *)
Definition update_counts (technical_score : Z) (st : t) : t :=
  let is_correct := 60 <=? technical_score in
  {| current_level := current_level st;
     level_questions_asked := level_questions_asked st + 1;
     consecutive_correct :=
       if is_correct then consecutive_correct st + 1 else 0;
     consecutive_incorrect :=
       if is_correct then 0 else consecutive_incorrect st + 1;
     level_progression := level_progression st;
     sd_current_level := sd_current_level st;
     sd_level_progression := sd_level_progression st;
     sd_consecutive_correct := sd_consecutive_correct st;
     sd_consecutive_incorrect := sd_consecutive_incorrect st |}.

(** The write-back of the current values into [session_data]. *)
Definition sync_session (st : t) : t :=
  {| current_level := current_level st;
     level_questions_asked := level_questions_asked st;
     consecutive_correct := consecutive_correct st;
     consecutive_incorrect := consecutive_incorrect st;
     level_progression := level_progression st;
     sd_current_level := current_level st;
     sd_level_progression := sd_level_progression st;
     sd_consecutive_correct := consecutive_correct st;
     sd_consecutive_incorrect := consecutive_incorrect st |}.

(** [determine_next_level(technical_score)]: the returned level and the
    tracker after the call. *)
Definition determine_next_level (technical_score : Z) (st : t) : string * t :=
  let st1 := update_counts technical_score st in
  let st2 :=
    if should_promote_level st1 then
      let new_level :=
        if String.eqb (current_level st1) "easy" then "medium" else "hard" in
      _change_level new_level "promotion" st1
    else if should_demote_level st1 then
      let new_level :=
        if String.eqb (current_level st1) "medium" then "easy" else "medium" in
      _change_level new_level "demotion" st1
    else st1 in
  let st3 := sync_session st2 in
  (current_level st3, st3).

(** The tracker after one call. *)
Definition step (st : t) (technical_score : Z) : t :=
  snd (determine_next_level technical_score st).

(** The trackers after each call of a sequence of calls, oldest first. *)
Fixpoint trace (st : t) (scores : list Z) : list t :=
  match scores with
  | [] => []
  | s :: rest => step st s :: trace (step st s) rest
  end.

(** Trackers that a session can be in: the initial one, and any obtained
    from it by calls of [determine_next_level]. *)
Inductive reachable : t -> Prop :=
| reachable_init : reachable init
| reachable_step st s : reachable st -> reachable (step st s).

(** Position of a level in the order easy < medium < hard. *)
Definition rank (level : string) : option Z :=
  if String.eqb level "easy" then Some 0
  else if String.eqb level "medium" then Some 1
  else if String.eqb level "hard" then Some 2
  else None.

Definition is_level (level : string) : Prop :=
  level = "easy" \/ level = "medium" \/ level = "hard".

(** One adjacent step up, resp. down. *)
Definition promoted (old new : string) : Prop :=
  (old = "easy" /\ new = "medium") \/ (old = "medium" /\ new = "hard").

Definition demoted (old new : string) : Prop :=
  (old = "medium" /\ new = "easy") \/ (old = "hard" /\ new = "medium").

(** Both streak counters never go below 0. *)
Definition counters_nonneg (st : t) : Prop :=
  0 <= consecutive_correct st /\ 0 <= consecutive_incorrect st.

(** At most one streak is running. *)
Definition streaks_exclusive (st : t) : Prop :=
  Z.min (consecutive_correct st) (consecutive_incorrect st) = 0
  /\ counters_nonneg st.

End Tracker.

(** ** Python string operations used by the program (ASCII text) *)

Module Text.

Definition code (c : ascii) : Z := Z.of_N (N_of_ascii c).

(** [len(s)] *)
Definition len (s : string) : Z := Z.of_nat (String.length s).

(** A string is true in a condition when it is not empty. *)
Definition truthy (s : string) : bool :=
  match s with EmptyString => false | String _ _ => true end.

(** [c.isspace()]: tab, line feed, vertical tab, form feed, carriage return,
    the four separators 28..31, and the blank. *)
Definition is_space (c : ascii) : bool :=
  let n := code c in
  ((9 <=? n) && (n <=? 13)) || ((28 <=? n) && (n <=? 31)) || (n =? 32).

(** The class [\d] of the [re] module. *)
Definition is_digit (c : ascii) : bool :=
  let n := code c in (48 <=? n) && (n <=? 57).

Definition is_upper (c : ascii) : bool :=
  let n := code c in (65 <=? n) && (n <=? 90).

Definition is_lower (c : ascii) : bool :=
  let n := code c in (97 <=? n) && (n <=? 122).

(** The class [\w] of the [re] module: letters, digits and the underscore. *)
Definition is_word (c : ascii) : bool :=
  is_upper c || is_lower c || is_digit c || (code c =? 95).

Definition lower_char (c : ascii) : ascii :=
  if is_upper c then ascii_of_N (N_of_ascii c + 32) else c.

Definition upper_char (c : ascii) : ascii :=
  if is_lower c then ascii_of_N (N_of_ascii c - 32) else c.

Fixpoint map_chars (f : ascii -> ascii) (s : string) : string :=
  match s with
  | EmptyString => EmptyString
  | String c rest => String (f c) (map_chars f rest)
  end.

(** [s.lower()] and [s.upper()] *)
Definition lower (s : string) : string := map_chars lower_char s.
Definition upper (s : string) : string := map_chars upper_char s.

Fixpoint all_chars (p : ascii -> bool) (s : string) : bool :=
  match s with
  | EmptyString => true
  | String c rest => p c && all_chars p rest
  end.

(** [s.lstrip()], [s.rstrip()], [s.strip()] *)
Fixpoint lstrip (s : string) : string :=
  match s with
  | EmptyString => EmptyString
  | String c rest => if is_space c then lstrip rest else s
  end.

Fixpoint rstrip (s : string) : string :=
  match s with
  | EmptyString => EmptyString
  | String c rest =>
      match rstrip rest with
      | EmptyString => if is_space c then EmptyString else String c EmptyString
      | kept => String c kept
      end
  end.

Definition strip (s : string) : string := rstrip (lstrip s).

(** [s.split()]: the maximal runs of characters that are not white space.
    [cur] is the run being read, [None] between runs. *)
Fixpoint split_ws_go (cur : option string) (s : string) : list string :=
  match s with
  | EmptyString => match cur with Some w => [w] | None => [] end
  | String c rest =>
      if is_space c then
        match cur with
        | Some w => w :: split_ws_go None rest
        | None => split_ws_go None rest
        end
      else
        split_ws_go
          (Some (match cur with Some w => w | None => EmptyString end
                 +:+ String c EmptyString)) rest
  end.

Definition split_ws (s : string) : list string := split_ws_go None s.

(** [s.startswith(p)] *)
Fixpoint startswith (p s : string) : bool :=
  match p, s with
  | EmptyString, _ => true
  | String a p', String b s' => Ascii.eqb a b && startswith p' s'
  | String _ _, EmptyString => false
  end.

(** [sub in s] *)
Fixpoint contains (sub s : string) : bool :=
  startswith sub s ||
  match s with
  | EmptyString => false
  | String _ rest => contains sub rest
  end.

(** [s.split(sep)] for a non-empty [sep]: cut at each occurrence of [sep],
    leftmost first, occurrences not overlapping.  [skip] counts the
    characters of a separator still to pass, [cur] is the piece being read. *)
Fixpoint split_go (sep : string) (skip : nat) (cur : string) (s : string)
  : list string :=
  match s with
  | EmptyString => [cur]
  | String c rest =>
      match skip with
      | S k => split_go sep k cur rest
      | O =>
          if startswith sep s
          then cur :: split_go sep (String.length sep - 1) EmptyString rest
          else split_go sep 0 (cur +:+ String c EmptyString) rest
      end
  end.

Definition split (sep s : string) : list string := split_go sep 0 EmptyString s.

(** [s.replace(old, new)] for a non-empty [old]. *)
Fixpoint replace_go (old new : string) (skip : nat) (s : string) : string :=
  match s with
  | EmptyString => EmptyString
  | String c rest =>
      match skip with
      | S k => replace_go old new k rest
      | O =>
          if startswith old s
          then new +:+ replace_go old new (String.length old - 1) rest
          else String c (replace_go old new 0 rest)
      end
  end.

Definition replace (old new s : string) : string := replace_go old new 0 s.

(** [sep.join(parts)] *)
Fixpoint join (sep : string) (parts : list string) : string :=
  match parts with
  | [] => EmptyString
  | [p] => p
  | p :: rest => p +:+ sep +:+ join sep rest
  end.

(** [int(s)] on a string of decimal digits. *)
Definition digit_value (c : ascii) : Z := code c - 48.

Fixpoint int_go (acc : Z) (s : string) : Z :=
  match s with
  | EmptyString => acc
  | String c rest => int_go (10 * acc + digit_value c) rest
  end.

Definition int (s : string) : Z := int_go 0 s.

(** *** [re.findall(r"\b\d{1,3}\b", s)]

    [\b] holds between two positions when exactly one side is a word
    character; outside the string counts as a non-word character. *)
Definition opt_is_word (c : option ascii) : bool :=
  match c with Some a => is_word a | None => false end.

Definition word_boundary (before after : option ascii) : bool :=
  xorb (opt_is_word before) (opt_is_word after).

Definition head_char (s : string) : option ascii := String.get 0 s.

Fixpoint last_char (s : string) : option ascii :=
  match s with
  | EmptyString => None
  | String c EmptyString => Some c
  | String _ rest => last_char rest
  end.

Fixpoint take (n : nat) (s : string) : string :=
  match n, s with
  | S k, String c rest => String c (take k rest)
  | _, _ => EmptyString
  end.

Fixpoint drop (n : nat) (s : string) : string :=
  match n, s with
  | S k, String _ rest => drop k rest
  | _, _ => s
  end.

(** [\d{n}\b] at the start of [s]. *)
Definition digits_then_boundary (n : nat) (s : string) : option string :=
  let tok := take n s in
  if (String.length tok =? n)%nat && all_chars is_digit tok
     && word_boundary (last_char tok) (head_char (drop n s))
  then Some tok else None.

(** The pattern at the start of [s], the character before [s] being [prev]:
    [\b], then as many digits as possible (three, else two, else one) such
    that [\b] follows. *)
Definition match_here (prev : option ascii) (s : string) : option string :=
  if word_boundary prev (head_char s) then
    match digits_then_boundary 3 s with
    | Some tok => Some tok
    | None =>
        match digits_then_boundary 2 s with
        | Some tok => Some tok
        | None => digits_then_boundary 1 s
        end
    end
  else None.

(** The scan of [findall]: at each position try the pattern; after a match
    go on behind it ([skip] characters of the match are still to pass). *)
Fixpoint findall_go (prev : option ascii) (skip : nat) (s : string)
  : list string :=
  match s with
  | EmptyString => []
  | String c rest =>
      match skip with
      | S k => findall_go (Some c) k rest
      | O =>
          match match_here prev s with
          | Some tok =>
              tok :: findall_go (Some c) (String.length tok - 1) rest
          | None => findall_go (Some c) 0 rest
          end
      end
  end.

Definition findall_score (s : string) : list string := findall_go None 0 s.

End Text.

(** ** Results of calls that may raise *)

(** What a Python call does: it returns a value or raises an exception (the
    kind of exception is never inspected by the program). *)
Inductive outcome (A : Type) : Type :=
| Returned (a : A)
| Raised.

Arguments Returned {A} a.
Arguments Raised {A}.

(** ** [LLMRunner] *)

Module LLMRunner.

(** What one call of [self.model.generate_content(prompt)] does: it gives a
    response whose [text] is [t] ([None] when the response has no [text]
    attribute), or it raises. *)
Inductive reply : Type :=
| Reply (text : option string)
| Fails.

(** The external model: its reply to the call number [n] (counted from 0
    over the life of the process) with a given prompt. *)
Definition model : Type := nat -> string -> reply.

(** The outside world as [generate_text] changes it: the number of calls made
    to the model and the seconds spent in [time.sleep]. *)
Record world : Type := mk_world { calls : nat; slept : Z }.

Definition tick (w : world) : world :=
  {| calls := S (calls w); slept := slept w |}.

Definition sleep (seconds : Z) (w : world) : world :=
  {| calls := calls w; slept := slept w + seconds |}.

Definition fallback_text : string := "Please continue with your answer.".

(** The [for attempt in range(max_retries)] loop of [generate_text], over the
    attempts still to make.  [None] is Python's [None], the value of a call
    whose loop ends without a [return]. *)
Fixpoint generate_text_loop (m : model) (prompt : string) (max_retries : Z)
    (attempts : list Z) (w : world) : option string * world :=
  match attempts with
  | [] => (None, w)
  | attempt :: rest =>
      match m (calls w) prompt with
      | Reply (Some text) =>
          if Text.truthy text then (Some (Text.strip text), tick w)
          else (Some fallback_text, tick w)
      | Reply None => (Some fallback_text, tick w)
      | Fails =>
          if attempt <? max_retries - 1
          then generate_text_loop m prompt max_retries rest (sleep 2 (tick w))
          else (Some fallback_text, tick w)
      end
  end.

(** [range(n)] *)
Definition range (n : Z) : list Z := map Z.of_nat (seq 0 (Z.to_nat n)).

Definition generate_text (m : model) (prompt : string) (max_retries : Z)
    (w : world) : option string * world :=
  generate_text_loop m prompt max_retries (range max_retries) w.

(** [ask(prompt)]: [generate_text] with the default [max_retries=3]. *)
Definition ask (m : model) (prompt : string) (w : world)
  : option string * world :=
  generate_text m prompt 3 w.

End LLMRunner.

(** ** [config.py]: the prompts per job role *)

Module Config.

Record role_prompts : Type := mk_prompts {
  opening : string;
  context : option string;
  level_context : gmap string string
}.

Definition levels (easy medium hard : string) : gmap string string :=
  <["easy" := easy]> (<["medium" := medium]> (<["hard" := hard]> ∅)).

Definition data_scientist : role_prompts :=
  {| opening := "Welcome! I'm your AI interviewer for the Data Scientist position. Let's start with a brief introduction. Could you please introduce yourself and tell me about your background in data science?";
     context := Some "Data Scientist interview focusing on analytical skills and experience.";
     level_context := levels
       "Ask basic data science questions about statistics, simple ML concepts, and data manipulation."
       "Ask intermediate questions about model evaluation, feature engineering, and practical data analysis."
       "Ask advanced questions about complex ML algorithms, deep learning, and strategic data insights." |}.

Definition software_engineer : role_prompts :=
  {| opening := "Hello! I'm your AI interviewer for the Software Engineer role. To begin, could you please introduce yourself and share your experience with software development?";
     context := Some "Software Engineer interview focusing on technical skills and experience.";
     level_context := levels
       "Ask basic software engineering questions about programming fundamentals, simple algorithms, and general experience."
       "Ask intermediate questions about system design, data structures, and real-world problem solving."
       "Ask advanced questions about complex algorithms, architecture, scalability, and challenging technical scenarios." |}.

Definition product_manager : role_prompts :=
  {| opening := "Welcome! I'm your AI interviewer for the Product Manager position. Let's start with you introducing yourself and your product experience.";
     context := Some "Product Manager interview focusing on product strategy and experience.";
     level_context := levels
       "Ask basic product management questions about user research, basic strategy, and team collaboration."
       "Ask intermediate questions about product lifecycle, metrics, and stakeholder management."
       "Ask advanced questions about product vision, complex decision-making, and strategic leadership." |}.

Definition default_prompts : role_prompts :=
  {| opening := "Welcome! I'm your AI interviewer. Please introduce yourself and tell me about your professional background.";
     context := Some "Professional job interview.";
     level_context := levels
       "Ask basic professional questions about experience, skills, and general knowledge."
       "Ask intermediate questions about problem-solving, decision-making, and practical experience."
       "Ask advanced questions about strategic thinking, leadership, and complex professional scenarios." |}.

Definition JOB_ROLE_PROMPTS : gmap string role_prompts :=
  <["data_scientist" := data_scientist]>
  (<["software_engineer" := software_engineer]>
  (<["product_manager" := product_manager]>
  (<["default" := default_prompts]> ∅))).

End Config.

(** ** Proctoring statistics and the penalty *)

Module Proctoring.

(** The value stored under ["penalty_details"] of a statistics dict: a dict
    with the keys ["penalties_applied"] and ["total_penalty"]. *)
Record note : Type := mk_note {
  penalties_applied : list string;
  total_penalty : Z
}.

(** A proctoring statistics dict: its integer-valued entries by key, and the
    entry ["penalty_details"] when the key is present. *)
Record stats : Type := mk_stats {
  counts : gmap string Z;
  penalty_details : option note
}.

(** [d.get(key, 0)] *)
Definition get (d : stats) (key : string) : Z := default 0 (counts d !! key).

(** A dict is true in a condition when it has at least one key. *)
Definition truthy (d : stats) : bool :=
  negb (bool_decide (counts d = ∅)) ||
  match penalty_details d with Some _ => true | None => false end.

Definition item (label : string) (count : Z) (unit_label : string) (p : Z)
  : string :=
  label +:+ pretty count +:+ unit_label +:+ " (-" +:+ pretty p +:+ " points)".

(** The body that [InterviewManager._calculate_proctoring_penalty] and
    [ScoringService.calculate_proctoring_penalty] have in common, line for
    line: everything up to the total before the last cap. *)
Definition penalty_body (d : stats) : Z * list string :=
  let penalty := 0 in
  let applied := [] in
  let tab_switches := get d "tab_switch_count" in
  let '(penalty, applied) :=
    if 0 <? tab_switches then
      let tab_penalty := Z.min (tab_switches * 2) 20 in
      (penalty + tab_penalty,
       applied ++ [item "Tab switches: " tab_switches "" tab_penalty])
    else (penalty, applied) in
  let face_penalty := 0 in
  let multiple_faces := get d "multiple_faces" in
  let '(face_penalty, applied) :=
    if 0 <? multiple_faces then
      let multiple_penalty := 15 * multiple_faces in
      (face_penalty + multiple_penalty,
       applied ++ [item "Multiple people detected: " multiple_faces " times"
                     multiple_penalty])
    else (face_penalty, applied) in
  let face_coverings := get d "face_coverings" in
  let '(face_penalty, applied) :=
    if 0 <? face_coverings then
      let face_cover_penalty := Z.min (face_coverings * 5) 25 in
      (face_penalty + face_cover_penalty,
       applied ++ [item "Face covered: " face_coverings " times"
                     face_cover_penalty])
    else (face_penalty, applied) in
  let eye_coverings := get d "eye_coverings" in
  let '(face_penalty, applied) :=
    if 0 <? eye_coverings then
      let eye_cover_penalty := Z.min (eye_coverings * 5) 25 in
      (face_penalty + eye_cover_penalty,
       applied ++ [item "Eyes covered: " eye_coverings " times"
                     eye_cover_penalty])
    else (face_penalty, applied) in
  let no_face_count := get d "no_face_count" in
  let '(face_penalty, applied) :=
    if 0 <? no_face_count then
      let no_face_penalty := Z.min (no_face_count * 2) 15 in
      (face_penalty + no_face_penalty,
       applied ++ [item "No face detected: " no_face_count " times"
                     no_face_penalty])
    else (face_penalty, applied) in
  let penalty := penalty + Z.min face_penalty 50 in
  let total_alerts := get d "total_alerts" in
  let '(penalty, applied) :=
    if 0 <? total_alerts then
      let alert_penalty := Z.min (total_alerts * 1) 10 in
      (penalty + alert_penalty,
       applied ++ [item "Total alerts: " total_alerts "" alert_penalty])
    else (penalty, applied) in
  (penalty, applied).

(** The six counts of a statistics dict as the caller in [main.py] builds
    it. *)
Definition of_counts (tab_switch_count multiple_faces face_coverings
    eye_coverings no_face_count total_alerts : Z) : stats :=
  {| counts :=
       <["tab_switch_count" := tab_switch_count]>
       (<["multiple_faces" := multiple_faces]>
       (<["face_coverings" := face_coverings]>
       (<["eye_coverings" := eye_coverings]>
       (<["no_face_count" := no_face_count]>
       (<["total_alerts" := total_alerts]> ∅)))));
     penalty_details := None |}.

(** Every count that is present is at least 0. *)
Definition nonneg (d : stats) : Prop :=
  forall key n, counts d !! key = Some n -> 0 <= n.

(** What a count contributes: nothing unless it is positive. *)
Definition when_pos (count p : Z) : Z := if 0 <? count then p else 0.

End Proctoring.

(** ** Rounding and averages of the final evaluations *)

Module Num.

Local Open Scope Q_scope.

(** The integer nearest to [x], a tie going to the even one. *)
Definition round_half_even (x : Q) : Z :=
  let f := Qfloor x in
  match Qcompare (x - inject_Z f) (1 # 2) with
  | Lt => f
  | Gt => (f + 1)%Z
  | Eq => if Z.even f then f else (f + 1)%Z
  end.

(** [round(x, 1)] *)
Definition round1 (x : Q) : Q := inject_Z (round_half_even (x * 10)) / 10.

(** [sum(l)] *)
Definition sum (l : list Z) : Z := fold_left Z.add l 0%Z.

(** [sum(l) / len(l)] for a non-empty [l]. *)
Definition mean (l : list Z) : Q :=
  inject_Z (sum l) / inject_Z (Z.of_nat (length l)).

(** [max(0, x)] *)
Definition max0 (x : Q) : Q := if Qlt_le_dec 0 x then x else 0.

End Num.

(** ** [InterviewManager] *)

Module InterviewManager.

Definition nl : string := String (ascii_of_nat 10) EmptyString.

(** The f-string [evaluation_prompt] of [evaluate_answer_quality]. *)
Definition evaluation_prompt (job_role question answer : string) : string :=
  Text.join nl
    [ "";
      "        As an expert interviewer for " +:+ job_role +:+ ", evaluate this answer on a scale of 0-100:";
      "        ";
      "        QUESTION: " +:+ question;
      "        ANSWER: " +:+ answer;
      "        ";
      "        Scoring guidelines:";
      "        - 90-100: Excellent - Comprehensive, accurate, detailed";
      "        - 80-89: Very Good - Accurate with good detail";
      "        - 70-79: Good - Mostly correct, some gaps";
      "        - 60-69: Satisfactory - Basic understanding";
      "        - 50-59: Below Average - Partial understanding";
      "        - 40-49: Poor - Major gaps";
      "        - 0-39: Very Poor - Incorrect or irrelevant";
      "        ";
      "        Focus on: ";
      "        1. Technical accuracy (40%)";
      "        2. Depth of explanation (30%)";
      "        3. Relevance to question (20%)";
      "        4. Clarity and structure (10%)";
      "        ";
      "        Return ONLY the number, no text.";
      "        Example: 75";
      "        " ].

(** The f-string [prompt] of [analyze_answer_and_generate_question]. *)
Definition analysis_prompt (job_role current_level context level_context conversation_summary : string) : string :=
  Text.join nl
    [ "You are conducting a " +:+ job_role +:+ " interview at " +:+ current_level +:+ " level.";
      "";
      "JOB ROLE CONTEXT: " +:+ context;
      "LEVEL CONTEXT: " +:+ level_context;
      "";
      "RECENT CONVERSATION:";
      conversation_summary;
      "";
      "INSTRUCTIONS:";
      "1. First, briefly analyze the candidate's answer (2-3 sentences)";
      "   - What did they do well?";
      "   - What could be improved?";
      "   - How relevant is it to " +:+ job_role +:+ "?";
      "";
      "2. Then, generate a follow-up " +:+ (Text.upper current_level) +:+ " level question";
      "   - Based on their previous answer";
      "   - Related to " +:+ job_role +:+ " role";
      "   - Progress the interview naturally";
      "   - Challenge them appropriately for their level";
      "";
      "FORMAT YOUR RESPONSE EXACTLY AS:";
      "ANALYSIS: [Your analysis here]";
      "QUESTION: [Your next question here]" ].

(** The f-string [prompt] of [get_next_question_without_answer]. *)
Definition skip_prompt (job_role current_level current_question last_answer_text : string) : string :=
  Text.join nl
    [ "You are conducting a " +:+ job_role +:+ " interview at " +:+ current_level +:+ " level.";
      "";
      "PREVIOUS QUESTION: " +:+ current_question;
      "CANDIDATE'S RESPONSE: " +:+ last_answer_text;
      "";
      "INSTRUCTIONS:";
      "Generate a follow-up " +:+ (Text.upper current_level) +:+ " level question for a " +:+ job_role +:+ " interview.";
      "The question should:";
      "1. Be appropriate for " +:+ current_level +:+ " level";
      "2. Be related to " +:+ job_role;
      "3. Progress the interview naturally";
      "4. Not require knowledge of the previous answer";
      "";
      "IMPORTANT: Return ONLY the question, no analysis, no extra text.";
      "QUESTION:" ].

(** The table [fallback_questions] of [_generate_fallback_question]. *)
Definition fallback_questions (job_role : string) : gmap string (list string) :=
  <["easy" :=
      [ "Could you tell me more about your experience with " +:+ Text.lower job_role +:+ "?";
        "What interests you most about being a " +:+ job_role +:+ "?";
        "Can you describe a basic project related to " +:+ Text.lower job_role +:+ " that you've worked on?" ]]>
  (<["medium" :=
      [ "How would you approach a typical challenge in " +:+ Text.lower job_role +:+ "?";
        "What are the key skills needed for a " +:+ job_role +:+ " role?";
        "Can you explain a technical concept relevant to " +:+ Text.lower job_role +:+ "?" ]]>
  (<["hard" :=
      [ "How would you handle a complex situation in " +:+ Text.lower job_role +:+ "?";
        "What advanced techniques would you use in " +:+ Text.lower job_role +:+ "?";
        "Can you discuss a strategic approach to " +:+ Text.lower job_role +:+ " problems?" ]]> ∅)).

(** The keywords of the second scoring tier. *)
Definition keywords : list string :=
  ["because"; "example"; "method"; "technique"; "approach"].

(** The table [level_weights] of [calculate_final_evaluation]. *)
Definition level_weights : gmap string Z :=
  <["easy" := 30]> (<["medium" := 70]> (<["hard" := 100]> ∅)).

(** One entry of [session_data["candidate_answers"]] (without its time
    stamp). *)
Record qa_record : Type := mk_qa {
  qa_question : string;
  qa_answer : string;
  qa_analysis : string;
  qa_next_question : string;
  qa_level : string;
  qa_technical_score : Z;
  qa_level_questions_asked : Z;
  qa_consecutive_correct : Z;
  qa_consecutive_incorrect : Z
}.

(** The attributes of an [InterviewManager] and the entries of its
    [session_data] that the modelled methods use.  [conversation_history]
    holds (speaker, text). *)
Record t : Type := mk {
  job_role : string;
  candidate_name : string;
  prompts : Config.role_prompts;
  tracker : Tracker.t;
  conversation_context : list string;
  last_answer : string;
  last_question : string;
  questions_asked : list string;
  candidate_answers : list qa_record;
  current_question_index : Z;
  answer_analysis : list string;
  conversation_history : list (string * string);
  technical_scores : list Z
}.

Definition current_level (st : t) : string := Tracker.current_level (tracker st).

(** [__init__(job_role, candidate_name)] *)
Definition init (job_role candidate_name : string) : t :=
  let job_key := Text.replace " " "_" (Text.lower job_role) in
  {| job_role := job_role;
     candidate_name := candidate_name;
     prompts := default Config.default_prompts (Config.JOB_ROLE_PROMPTS !! job_key);
     tracker := Tracker.init;
     conversation_context := [];
     last_answer := "";
     last_question := "";
     questions_asked := [];
     candidate_answers := [];
     current_question_index := 0;
     answer_analysis := [];
     conversation_history := [];
     technical_scores := [] |}.

Definition set_tracker (tr : Tracker.t) (st : t) : t :=
  {| job_role := job_role st; candidate_name := candidate_name st;
     prompts := prompts st; tracker := tr;
     conversation_context := conversation_context st;
     last_answer := last_answer st; last_question := last_question st;
     questions_asked := questions_asked st;
     candidate_answers := candidate_answers st;
     current_question_index := current_question_index st;
     answer_analysis := answer_analysis st;
     conversation_history := conversation_history st;
     technical_scores := technical_scores st |}.

Definition set_context (ctx : list string) (st : t) : t :=
  {| job_role := job_role st; candidate_name := candidate_name st;
     prompts := prompts st; tracker := tracker st;
     conversation_context := ctx;
     last_answer := last_answer st; last_question := last_question st;
     questions_asked := questions_asked st;
     candidate_answers := candidate_answers st;
     current_question_index := current_question_index st;
     answer_analysis := answer_analysis st;
     conversation_history := conversation_history st;
     technical_scores := technical_scores st |}.

Definition set_last (answer question : string) (st : t) : t :=
  {| job_role := job_role st; candidate_name := candidate_name st;
     prompts := prompts st; tracker := tracker st;
     conversation_context := conversation_context st;
     last_answer := answer; last_question := question;
     questions_asked := questions_asked st;
     candidate_answers := candidate_answers st;
     current_question_index := current_question_index st;
     answer_analysis := answer_analysis st;
     conversation_history := conversation_history st;
     technical_scores := technical_scores st |}.

Definition add_score (score : Z) (st : t) : t :=
  {| job_role := job_role st; candidate_name := candidate_name st;
     prompts := prompts st; tracker := tracker st;
     conversation_context := conversation_context st;
     last_answer := last_answer st; last_question := last_question st;
     questions_asked := questions_asked st;
     candidate_answers := candidate_answers st;
     current_question_index := current_question_index st;
     answer_analysis := answer_analysis st;
     conversation_history := conversation_history st;
     technical_scores := technical_scores st ++ [score] |}.

(** The session bookkeeping at the end of a turn: a question asked, the
    index advanced, and entries of the history. *)
Definition add_question (next_question : string)
    (history : list (string * string)) (st : t) : t :=
  {| job_role := job_role st; candidate_name := candidate_name st;
     prompts := prompts st; tracker := tracker st;
     conversation_context := conversation_context st;
     last_answer := last_answer st; last_question := last_question st;
     questions_asked := questions_asked st ++ [next_question];
     candidate_answers := candidate_answers st;
     current_question_index := current_question_index st + 1;
     answer_analysis := answer_analysis st;
     conversation_history := conversation_history st ++ history;
     technical_scores := technical_scores st |}.

Definition add_answer (record : qa_record) (st : t) : t :=
  {| job_role := job_role st; candidate_name := candidate_name st;
     prompts := prompts st; tracker := tracker st;
     conversation_context := conversation_context st;
     last_answer := last_answer st; last_question := last_question st;
     questions_asked := questions_asked st;
     candidate_answers := candidate_answers st ++ [record];
     current_question_index := current_question_index st;
     answer_analysis := answer_analysis st ++ [qa_analysis record];
     conversation_history := conversation_history st;
     technical_scores := technical_scores st |}.

(** [l[-n:]] *)
Definition last_n {A : Type} (n : nat) (l : list A) : list A :=
  skipn (length l - n)%nat l.

(** The dict [penalty_details] of a final evaluation.  The last three
    entries are present only when a penalty was computed. *)
Record penalty_report : Type := mk_report {
  pr_base_score : Q;
  pr_penalties_applied : list string;
  pr_total_penalty : Z;
  pr_proctoring_penalty : option Q;
  pr_final_score_after_penalties : option Q;
  pr_proctoring_stats : option Proctoring.stats
}.

(** The dict returned by [calculate_final_evaluation] (without its time
    stamp). *)
Record final_evaluation : Type := mk_eval {
  final_level : string;
  level_score : Z;
  technical_score : Q;
  base_score : Q;
  overall_score : Q;
  fe_level_progression : list string;
  total_questions : Z;
  questions_answered : Z;
  performance_summary : string;
  penalty_details : penalty_report
}.

(** [_calculate_proctoring_penalty(proctoring_stats)]: the penalty, and the
    dict after the call (its ["penalty_details"] is written only when the
    key is already there). *)
Definition _calculate_proctoring_penalty (d : Proctoring.stats)
  : Z * Proctoring.stats :=
  let '(penalty, penalties_applied) := Proctoring.penalty_body d in
  let final_penalty := Z.min penalty 70 in
  let d' :=
    match Proctoring.penalty_details d with
    | Some _ =>
        {| Proctoring.counts := Proctoring.counts d;
           Proctoring.penalty_details :=
             Some {| Proctoring.penalties_applied := penalties_applied;
                     Proctoring.total_penalty := final_penalty |} |}
    | None => d
    end in
  (final_penalty, d').

Definition _generate_performance_summary (st : t) : string :=
  if String.eqb (current_level st) "hard" then
    "Excellent performance - reached the highest level demonstrating advanced knowledge."
  else if String.eqb (current_level st) "medium" then
    "Good performance - solid understanding of intermediate concepts."
  else
    "Basic performance - demonstrated foundational knowledge with room for growth.".

(** [calculate_final_evaluation(proctoring_stats)]: the evaluation, and the
    statistics dict after the call. *)
Definition calculate_final_evaluation (proctoring_stats : option Proctoring.stats)
    (st : t) : final_evaluation * option Proctoring.stats :=
  let level_score := default 30 (level_weights !! current_level st) in
  let technical_score :=
    match technical_scores st with
    | [] => inject_Z 50
    | _ :: _ => Num.mean (technical_scores st)
    end in
  let base_score :=
    (inject_Z level_score * (6 # 10) + technical_score * (4 # 10))%Q in
  let report (penalty : option (Z * Q * Proctoring.stats)) :=
    {| pr_base_score := Num.round1 base_score;
       pr_penalties_applied := [];
       pr_total_penalty := 0;
       pr_proctoring_penalty :=
         match penalty with
         | Some (p, _, _) => Some (inject_Z p)
         | None => None
         end;
       pr_final_score_after_penalties :=
         match penalty with
         | Some (_, final, _) => Some (Num.round1 final)
         | None => None
         end;
       pr_proctoring_stats :=
         match penalty with
         | Some (_, _, d) => Some d
         | None => None
         end |} in
  let result (final_score : Q) (penalty : option (Z * Q * Proctoring.stats)) :=
    {| final_level := current_level st;
       level_score := level_score;
       technical_score := Num.round1 technical_score;
       base_score := Num.round1 base_score;
       overall_score := Num.round1 final_score;
       fe_level_progression := Tracker.level_progression (tracker st);
       total_questions := Z.of_nat (length (questions_asked st));
       questions_answered := Z.of_nat (length (candidate_answers st));
       performance_summary := _generate_performance_summary st;
       penalty_details := report penalty |} in
  match proctoring_stats with
  | Some d =>
      if Proctoring.truthy d then
        let '(proctoring_penalty, d') := _calculate_proctoring_penalty d in
        let final_score :=
          Num.max0 (base_score - inject_Z proctoring_penalty)%Q in
        (result final_score (Some (proctoring_penalty, final_score, d')),
         Some d')
      else (result base_score None, Some d)
  | None => (result base_score None, None)
  end.

Section Methods.

(** The collaborators of an [InterviewManager]: [self.llm.ask], which given
    a prompt returns a string or [None] or raises, and the generator behind
    [random.choice], which yields an index.  [W] is the state of the outside
    world that both may change. *)
Context {W : Type}.
Variable llm_ask : string -> W -> outcome (option string) * W.
Variable draw : W -> nat * W.

(** [random.choice(questions)] for a non-empty list. *)
Definition random_choice (questions : list string) (w : W) : string * W :=
  let '(i, w') := draw w in
  (nth (i mod length questions)%nat questions "", w').

Definition _generate_fallback_question (st : t) (w : W) : string * W :=
  let table := fallback_questions (job_role st) in
  let questions :=
    default (default [] (table !! "easy")) (table !! current_level st) in
  random_choice questions w.

Definition get_opening_question (st : t) : string * t :=
  let opening := Config.opening (prompts st) in
  let st1 :=
    {| job_role := job_role st; candidate_name := candidate_name st;
       prompts := prompts st; tracker := tracker st;
       conversation_context :=
         conversation_context st ++ ["Interviewer: " +:+ opening];
       last_answer := last_answer st; last_question := opening;
       questions_asked := questions_asked st ++ [opening];
       candidate_answers := candidate_answers st;
       current_question_index := 1;
       answer_analysis := answer_analysis st;
       conversation_history :=
         conversation_history st ++ [("AI Interviewer", opening)];
       technical_scores := technical_scores st |} in
  (opening, st1).

(** [evaluate_answer_quality(answer, question)].  The [except] branch is
    taken when [ask] raises and when it returns [None] (whose [strip]
    raises). *)
Definition evaluate_answer_quality (answer question : string) (st : t) (w : W)
  : Z * W :=
  let prompt := evaluation_prompt (job_role st) question answer in
  match llm_ask prompt w with
  | (Returned (Some response), w1) =>
      let response := Text.strip response in
      match Text.findall_score response with
      | first :: _ =>
          let score := Text.int first in
          let score := Z.max 0 (Z.min 100 score) in
          (score, w1)
      | [] =>
          if (20 <? Z.of_nat (length (Text.split_ws answer)))
             && existsb (fun keyword => Text.contains keyword (Text.lower answer))
                  keywords
          then (65, w1) else (45, w1)
      end
  | (_, w1) => if 50 <? Text.len answer then (55, w1) else (40, w1)
  end.

(** The end of the [try] block of [analyze_answer_and_generate_question]:
    the next question joins the conversation context. *)
Definition analysis_done (analysis next_question : string) (st : t) (w : W)
  : outcome (string * string) * t * W :=
  (Returned (analysis, next_question),
   set_context (conversation_context st ++ ["Interviewer: " +:+ next_question]) st,
   w).

(** [analyze_answer_and_generate_question(question, answer)].  The lookup of
    the level context is outside the [try]: a level without an entry raises
    out of the method. *)
Definition analyze_answer_and_generate_question (question answer : string)
    (st : t) (w : W) : outcome (string * string) * t * W :=
  let st := set_context (conversation_context st ++ ["Candidate: " +:+ answer]) st in
  let st := set_last answer question st in
  let conversation_summary := Text.join nl (last_n 4 (conversation_context st)) in
  match Config.level_context (prompts st) !! current_level st with
  | None => (Raised, st, w)
  | Some level_context =>
      let prompt :=
        analysis_prompt (job_role st) (current_level st)
          (default "Professional interview" (Config.context (prompts st)))
          level_context conversation_summary in
      let failed (w1 : W) :=
        let '(q, w2) := _generate_fallback_question st w1 in
        (Returned ("Analysis not available.", q), st, w2) in
      match llm_ask prompt w with
      | (Returned (Some response), w1) =>
          if Text.contains "ANALYSIS:" response
             && Text.contains "QUESTION:" response then
            match Text.split "QUESTION:" response with
            | part0 :: part1 :: _ =>
                analysis_done (Text.strip (Text.replace "ANALYSIS:" "" part0))
                  (Text.strip part1) st w1
            | _ => failed w1
            end
          else
            let lines :=
              List.filter Text.truthy
                (map Text.strip (Text.split nl response)) in
            match lines with
            | line0 :: line1 :: _ => analysis_done line0 line1 st w1
            | _ =>
                let '(q, w2) := _generate_fallback_question st w1 in
                analysis_done "Answer received. Continuing interview." q st w2
            end
      | (_, w1) => failed w1
      end
  end.

(** [process_answer(question, answer)] *)
Definition process_answer (question answer : string) (st : t) (w : W)
  : outcome (qa_record * string) * t * W :=
  let '(technical_score, w) := evaluate_answer_quality answer question st w in
  let st := add_score technical_score st in
  let '(next_level, tr) := Tracker.determine_next_level technical_score (tracker st) in
  let st := set_tracker tr st in
  match analyze_answer_and_generate_question question answer st w with
  | (Returned (analysis, next_question), st, w) =>
      let record :=
        {| qa_question := question;
           qa_answer := answer;
           qa_analysis := analysis;
           qa_next_question := next_question;
           qa_level := next_level;
           qa_technical_score := technical_score;
           qa_level_questions_asked := Tracker.level_questions_asked (tracker st);
           qa_consecutive_correct := Tracker.consecutive_correct (tracker st);
           qa_consecutive_incorrect := Tracker.consecutive_incorrect (tracker st) |} in
      let st := add_answer record st in
      let st :=
        add_question next_question
          [("Candidate", answer); ("AI Interviewer", next_question)] st in
      (Returned (record, next_question), st, w)
  | (Raised, st, w) => (Raised, st, w)
  end.

(** [get_next_question_without_answer(current_question)] *)
Definition get_next_question_without_answer (current_question : string)
    (st : t) (w : W) : outcome string * t * W :=
  let last_answer_text :=
    if Text.truthy (last_answer st) then last_answer st
    else "The candidate did not provide a clear answer." in
  match Config.level_context (prompts st) !! current_level st with
  | None => (Raised, st, w)
  | Some level_context =>
      let prompt :=
        skip_prompt (job_role st) (current_level st) current_question
          last_answer_text in
      match llm_ask prompt w with
      | (Returned (Some response), w1) =>
          let next_question := Text.strip response in
          let next_question :=
            if Text.contains "QUESTION:" next_question
            then Text.strip (List.last (Text.split "QUESTION:" next_question) "")
            else next_question in
          let '(next_question, w2) :=
            if (Text.len next_question <? 10) || (500 <? Text.len next_question)
            then _generate_fallback_question st w1
            else (next_question, w1) in
          let st := add_question next_question
                      [("AI Interviewer", next_question)] st in
          let st :=
            set_context
              (conversation_context st ++
               ["Candidate: [Skipped or unclear answer]";
                "Interviewer: " +:+ next_question]) st in
          (Returned next_question, st, w2)
      | (_, w1) =>
          let '(q, w2) := _generate_fallback_question st w1 in
          (Returned q, st, w2)
      end
  end.

(** The sessions that the public methods produce from a new
    [InterviewManager]. *)
Inductive reachable : t -> Prop :=
| reach_init job_role candidate_name : reachable (init job_role candidate_name)
| reach_opening st : reachable st -> reachable (snd (get_opening_question st))
| reach_answer st question answer w :
    reachable st ->
    reachable (snd (fst (process_answer question answer st w)))
| reach_skip st current_question w :
    reachable st ->
    reachable (snd (fst (get_next_question_without_answer current_question st w))).

End Methods.

(** What question generation leaves alone. *)
Definition same_scores (st st' : t) : Prop :=
  tracker st' = tracker st
  /\ technical_scores st' = technical_scores st
  /\ job_role st' = job_role st
  /\ prompts st' = prompts st.

(** In every reachable session the tracker is reachable and every recorded
    technical score is between 0 and 100. *)
Definition session_ok (st : t) : Prop :=
  Tracker.reachable (tracker st)
  /\ Forall (fun s => 0 <= s <= 100) (technical_scores st).

End InterviewManager.

(** ** [ScoringService] *)

Module ScoringService.

(** One entry of [scoring_data["questions"]] (without its time stamp). *)
Record question_data : Type := mk_question {
  question_number : Z;
  question : string;
  answer : string;
  technical_score : Z;
  level : string;
  analysis : string
}.

(** The dict [penalty_details] of a final evaluation; the last three entries
    are present only when a penalty was computed. *)
Record penalty_report : Type := mk_report {
  pr_base_score : Q;
  pr_penalties_applied : list string;
  pr_total_penalty : Z;
  pr_proctoring_penalty : option Q;
  pr_final_score_after_penalties : option Q;
  pr_proctoring_stats : option Proctoring.stats
}.

(** The remaining entries of the dict that [calculate_final_evaluation]
    returns for a ledger with questions. *)
Record breakdown : Type := mk_breakdown {
  level_progression : list string;
  question_breakdown : list (Z * Z * string);
  strengths : list string;
  areas_for_improvement : list string
}.

(** The dict returned by [calculate_final_evaluation].  [penalty_details] is
    [None] for the empty dict of the early return, and [details] is [None]
    when its keys are absent (the early return again). *)
Record final_eval : Type := mk_eval {
  overall_score : Q;
  technical_avg : Q;
  final_level : string;
  total_questions : Z;
  penalty_details : option penalty_report;
  details : option breakdown
}.

(** [scoring_data]; [proctoring_penalties] holds (statistics, penalty). *)
Record t : Type := mk {
  questions : list question_data;
  scores_technical : list Z;
  scores_overall : list Q;
  sd_level_progression : list string;
  proctoring_penalties : list (Proctoring.stats * Z);
  final_evaluation : option final_eval
}.

(** [initialize_scoring()] *)
Definition init : t :=
  {| questions := [];
     scores_technical := [];
     scores_overall := [];
     sd_level_progression := [];
     proctoring_penalties := [];
     final_evaluation := None |}.

(** [calculate_current_average()] *)
Definition calculate_current_average (st : t) : Q :=
  match scores_technical st with
  | [] => 0%Q
  | _ :: _ => Num.mean (scores_technical st)
  end.

(** [add_question_score(question, answer, technical_score, level, analysis)] *)
Definition add_question_score (question answer : string) (technical_score : Z)
    (level analysis : string) (st : t) : question_data * t :=
  let data :=
    {| question_number := Z.of_nat (length (questions st)) + 1;
       question := question;
       answer := answer;
       technical_score := technical_score;
       level := level;
       analysis := analysis |} in
  let st1 :=
    {| questions := questions st ++ [data];
       scores_technical := scores_technical st ++ [technical_score];
       scores_overall := scores_overall st;
       sd_level_progression := sd_level_progression st ++ [level];
       proctoring_penalties := proctoring_penalties st;
       final_evaluation := final_evaluation st |} in
  let current_avg := calculate_current_average st1 in
  (data,
   {| questions := questions st1;
      scores_technical := scores_technical st1;
      scores_overall := scores_overall st1 ++ [current_avg];
      sd_level_progression := sd_level_progression st1;
      proctoring_penalties := proctoring_penalties st1;
      final_evaluation := final_evaluation st1 |}).

(** [calculate_proctoring_penalty(proctoring_data)]: the penalty, and the
    dict after the call (its ["penalty_details"] is always written). *)
Definition calculate_proctoring_penalty (d : Proctoring.stats)
  : Z * Proctoring.stats :=
  let '(penalty, penalties_applied) := Proctoring.penalty_body d in
  (Z.min penalty 70,
   {| Proctoring.counts := Proctoring.counts d;
      Proctoring.penalty_details :=
        Some {| Proctoring.penalties_applied := penalties_applied;
                Proctoring.total_penalty := Z.min penalty 70 |} |}).

(** [min(l)] and [max(l)] of a non-empty list. *)
Definition list_min (l : list Z) : Z :=
  match l with [] => 0 | x :: rest => fold_left Z.min rest x end.

Definition list_max (l : list Z) : Z :=
  match l with [] => 0 | x :: rest => fold_left Z.max rest x end.

(** [l or [fallback]] *)
Definition or_default (l : list string) (fallback : string) : list string :=
  match l with [] => [fallback] | _ :: _ => l end.

Definition identify_strengths (st : t) : list string :=
  let strengths := [] in
  let high_scores :=
    List.filter (fun q => 80 <=? technical_score q) (questions st) in
  let strengths :=
    if 3 <=? Z.of_nat (length high_scores)
    then strengths ++ ["Strong technical knowledge in core areas"]
    else strengths in
  let strengths :=
    if existsb (String.eqb "hard") (sd_level_progression st)
    then strengths ++ ["Capable of handling advanced concepts"]
    else strengths in
  let scores := scores_technical st in
  let strengths :=
    if (3 <=? Z.of_nat (length scores))
       && (list_max scores - list_min scores <=? 20)
    then strengths ++ ["Consistent performance across questions"]
    else strengths in
  or_default strengths "Demonstrates basic understanding".

Definition identify_weaknesses (st : t) : list string :=
  let weaknesses := [] in
  let low_scores :=
    List.filter (fun q => technical_score q <? 60) (questions st) in
  let weaknesses :=
    match low_scores with
    | _ :: _ => weaknesses ++ ["Needs improvement in technical depth"]
    | [] => weaknesses
    end in
  let weaknesses :=
    if 2 <=? Z.of_nat (length (sd_level_progression st)) then
      let last_two := InterviewManager.last_n 2 (sd_level_progression st) in
      if bool_decide (last_two = ["easy"; "easy"])
      then weaknesses ++ ["Could benefit from practicing intermediate concepts"]
      else weaknesses
    else weaknesses in
  or_default weaknesses "Continue building experience".

(** The table [level_weights] of [calculate_final_evaluation]. *)
Definition level_weights : gmap string Q :=
  <["easy" := 3 # 10]> (<["medium" := 6 # 10]> (<["hard" := 1 # 1]> ∅)).

(** [calculate_final_evaluation(final_level, proctoring_stats)]: the
    evaluation, the ledger after the call and the statistics dict after the
    call. *)
Definition calculate_final_evaluation (final_level : string)
    (proctoring_stats : option Proctoring.stats) (st : t)
  : final_eval * t * option Proctoring.stats :=
  match questions st with
  | [] =>
      ({| overall_score := 0;
          technical_avg := 0;
          final_level := final_level;
          total_questions := 0;
          penalty_details := None;
          details := None |},
       st, proctoring_stats)
  | _ :: _ =>
      let level_weight := default (3 # 10) (level_weights !! final_level) in
      let technical_avg := calculate_current_average st in
      let base_score :=
        (technical_avg * (7 # 10) + level_weight * 100 * (3 # 10))%Q in
      let finish (final_score : Q)
          (penalty : option (Z * Proctoring.stats)) (st1 : t) :=
        let final_eval :=
          {| overall_score := Num.round1 final_score;
             technical_avg := Num.round1 technical_avg;
             final_level := final_level;
             total_questions := Z.of_nat (length (questions st1));
             penalty_details :=
               Some {| pr_base_score := Num.round1 base_score;
                       pr_penalties_applied := [];
                       pr_total_penalty := 0;
                       pr_proctoring_penalty :=
                         match penalty with
                         | Some (p, _) => Some (inject_Z p)
                         | None => None
                         end;
                       pr_final_score_after_penalties :=
                         match penalty with
                         | Some _ => Some (Num.round1 final_score)
                         | None => None
                         end;
                       pr_proctoring_stats :=
                         match penalty with
                         | Some (_, d) => Some d
                         | None => None
                         end |};
             details :=
               Some {| level_progression := sd_level_progression st1;
                       question_breakdown :=
                         map (fun q => (question_number q, technical_score q, level q))
                           (questions st1);
                       strengths := identify_strengths st1;
                       areas_for_improvement := identify_weaknesses st1 |} |} in
        (final_eval,
         {| questions := questions st1;
            scores_technical := scores_technical st1;
            scores_overall := scores_overall st1;
            sd_level_progression := sd_level_progression st1;
            proctoring_penalties := proctoring_penalties st1;
            final_evaluation := Some final_eval |}) in
      match proctoring_stats with
      | Some d =>
          if Proctoring.truthy d then
            let '(proctoring_penalty, d') := calculate_proctoring_penalty d in
            let final_score :=
              Num.max0 (base_score - inject_Z proctoring_penalty)%Q in
            let st1 :=
              {| questions := questions st;
                 scores_technical := scores_technical st;
                 scores_overall := scores_overall st;
                 sd_level_progression := sd_level_progression st;
                 proctoring_penalties :=
                   proctoring_penalties st ++ [(d', proctoring_penalty)];
                 final_evaluation := final_evaluation st |} in
            (finish final_score (Some (proctoring_penalty, d')) st1, Some d')
          else (finish base_score None st, Some d)
      | None => (finish base_score None st, None)
      end
  end.

(** The ledgers that [add_question_score] and [calculate_final_evaluation]
    produce from a new [ScoringService]. *)
Inductive reachable : t -> Prop :=
| reach_init : reachable init
| reach_add st question answer technical_score level analysis :
    reachable st ->
    reachable (snd (add_question_score question answer technical_score level
                      analysis st))
| reach_final st final_level proctoring_stats :
    reachable st ->
    reachable (snd (fst (calculate_final_evaluation final_level
                           proctoring_stats st))).

End ScoringService.

(** ** The end of an interview: [end_interview] and its feedback *)

Module ManagerEnd.

Import InterviewManager.

(** The entries of [session_data] that [end_interview] writes (without the
    end time). *)
Record closing : Type := mk_closing {
  status : string;
  stored_stats : option Proctoring.stats;
  stored_evaluation : final_evaluation
}.

Section Feedback.

(** [str(x)] as an f-string writes a score. *)
Variable show : Q -> string.

(** The list [proctoring_feedback] of [_generate_final_feedback]. *)
Definition proctoring_feedback (d : Proctoring.stats) : list string :=
  let notes := [] in
  let tab_switches := Proctoring.get d "tab_switch_count" in
  let notes :=
    if 0 <? tab_switches
    then notes ++ ["Tab switches: " +:+ pretty tab_switches]
    else notes in
  let notes :=
    if 0 <? Proctoring.get d "multiple_faces"
    then notes ++ ["Multiple people detected"] else notes in
  let notes :=
    if 0 <? Proctoring.get d "face_coverings"
    then notes ++ ["Face covering detected"] else notes in
  let notes :=
    if 0 <? Proctoring.get d "eye_coverings"
    then notes ++ ["Eye covering detected"] else notes in
  let notes :=
    if 5 <? Proctoring.get d "no_face_count"
    then notes ++ ["Frequent face disappearance"] else notes in
  notes.

(** [_generate_final_feedback(final_evaluation, proctoring_stats)] *)
Definition _generate_final_feedback (evaluation : final_evaluation)
    (proctoring_stats : option Proctoring.stats) (st : t) : string :=
  let base_feedback :=
    if String.eqb (current_level st) "hard"
    then "Excellent! You reached HARD level."
    else if String.eqb (current_level st) "medium"
    then "Good! You reached MEDIUM level."
    else "Thank you! You reached EASY level." in
  let base_feedback :=
    base_feedback +:+ " Your final score is "
    +:+ show (overall_score evaluation) +:+ "%." in
  let penalty := pr_total_penalty (penalty_details evaluation) in
  let base_feedback :=
    if 0 <? penalty then
      let base_score := pr_base_score (penalty_details evaluation) in
      base_feedback +:+ " (Base score: " +:+ show base_score
      +:+ "%, Penalties: -" +:+ pretty penalty +:+ " points)"
    else base_feedback in
  match proctoring_stats with
  | Some d =>
      if Proctoring.truthy d then
        match proctoring_feedback d with
        | [] => base_feedback
        | notes =>
            base_feedback +:+ " Proctoring notes: "
            +:+ Text.join ", " notes +:+ "."
        end
      else base_feedback
  | None => base_feedback
  end.

(** [end_interview(proctoring_stats)]: the feedback, what [session_data]
    holds afterwards, and the statistics dict after the call.  [before] is
    the dict that [session_data["proctoring_stats"]] held. *)
Definition end_interview (proctoring_stats : option Proctoring.stats)
    (before : option Proctoring.stats) (st : t)
  : string * closing * option Proctoring.stats :=
  let '(evaluation, stats') := calculate_final_evaluation proctoring_stats st in
  let stored :=
    match proctoring_stats with
    | Some d => if Proctoring.truthy d then stats' else before
    | None => before
    end in
  let feedback := _generate_final_feedback evaluation stats' st in
  (feedback,
   {| status := "completed";
      stored_stats := stored;
      stored_evaluation := evaluation |},
   stats').

End Feedback.

End ManagerEnd.

(** ** [ScoringService.get_scores_summary] *)

Module ServiceSummary.

Import ScoringService.

Record summary : Type := mk_summary {
  total_questions : Z;
  average_score : Q;
  current_level : string;
  level_history : list string;
  recent_scores : list Z
}.

Definition get_scores_summary (st : t) : summary :=
  {| total_questions := Z.of_nat (length (questions st));
     average_score := calculate_current_average st;
     current_level :=
       match sd_level_progression st with
       | [] => "easy"
       | _ :: _ => List.last (sd_level_progression st) ""
       end;
     level_history := sd_level_progression st;
     recent_scores :=
       if 5 <? Z.of_nat (length (scores_technical st))
       then InterviewManager.last_n 5 (scores_technical st)
       else scores_technical st |}.

End ServiceSummary.

(** ** [main.py]: the proctoring counters of a session *)

Module Session.

(** The alert texts of [FaceProctor.check_rules]. *)
Definition MULTIPLE_PEOPLE : string := "MULTIPLE PEOPLE DETECTED".
Definition FACE_COVERED : string := "FACE COVERED".
Definition EYES_COVERED : string := "EYES COVERED".
Definition NO_FACE : string := "NO FACE DETECTED".

(** The attributes of a [ReliableInterviewSession] that its proctoring
    reads or writes.  [proctoring_stats] holds the integer entries of the
    dict (its time stamp ["last_face_time"] is left out). *)
Record t : Type := mk {
  proctoring_stats : gmap string Z;
  proctoring_alerts : list string;
  tab_switch_count : Z;
  face_detected : bool
}.

(** [__init__]: the proctoring part. *)
Definition init : t :=
  {| proctoring_stats :=
       <["tab_switch_count" := 0]>
       (<["multiple_faces" := 0]>
       (<["face_coverings" := 0]>
       (<["eye_coverings" := 0]>
       (<["no_face_count" := 0]>
       (<["total_alerts" := 0]> ∅)))));
     proctoring_alerts := [];
     tab_switch_count := 0;
     face_detected := true |}.

Definition set_stats (m : gmap string Z) (s : t) : t :=
  {| proctoring_stats := m;
     proctoring_alerts := proctoring_alerts s;
     tab_switch_count := tab_switch_count s;
     face_detected := face_detected s |}.

(** [self.proctoring_stats[key] += n]: raises when the key is missing. *)
Definition add_to (key : string) (n : Z) (s : t) : outcome unit * t :=
  match proctoring_stats s !! key with
  | Some old => (Returned tt, set_stats (<[key := old + n]> (proctoring_stats s)) s)
  | None => (Raised, s)
  end.

(** Run [next] unless [first] has raised. *)
Definition and_then (first next : t -> outcome unit * t) (s : t)
  : outcome unit * t :=
  match first s with
  | (Returned _, s') => next s'
  | (Raised, s') => (Raised, s')
  end.

(** [if token in alerts: self.proctoring_stats[key] += 1] *)
Definition count_alert (token key : string) (alerts : list string) (s : t)
  : outcome unit * t :=
  if existsb (String.eqb token) alerts then add_to key 1 s
  else (Returned tt, s).

(** [update_proctoring_stats(alerts)] *)
Definition update_proctoring_stats (alerts : list string) (s : t)
  : outcome unit * t :=
  and_then (count_alert MULTIPLE_PEOPLE "multiple_faces" alerts)
  (and_then (count_alert FACE_COVERED "face_coverings" alerts)
  (and_then (count_alert EYES_COVERED "eye_coverings" alerts)
  (and_then (count_alert NO_FACE "no_face_count" alerts)
  (fun s =>
     match alerts with
     | [] => (Returned tt, s)
     | _ :: _ =>
         and_then (add_to "total_alerts" (Z.of_nat (length alerts)))
           (fun s =>
              (Returned tt,
               {| proctoring_stats := proctoring_stats s;
                  proctoring_alerts := alerts;
                  tab_switch_count := tab_switch_count s;
                  face_detected := face_detected s |})) s
     end)))) s.

(** The branch of [monitor_stream] for a ["tab_switch"] message: the
    session after it and the penalty that the warning announces. *)
Definition tab_switch (s : t) : Z * t :=
  let count := tab_switch_count s + 1 in
  (Z.min (count * 2) 20,
   {| proctoring_stats := <["tab_switch_count" := count]> (proctoring_stats s);
      proctoring_alerts := proctoring_alerts s;
      tab_switch_count := count;
      face_detected := face_detected s |}).

(** The dict that [end_interview] and the two end points build for the
    penalty. *)
Definition collect_stats (s : t) : Proctoring.stats :=
  let get key := default 0 (proctoring_stats s !! key) in
  Proctoring.of_counts (tab_switch_count s) (get "multiple_faces")
    (get "face_coverings") (get "eye_coverings") (get "no_face_count")
    (get "total_alerts").

(** The branch of [video_stream] for a ["video_frame"] message, given what
    [detect_face_proctoring] returned for the frame. *)
Definition video_frame (detected : bool) (alerts : list string) (s : t)
  : outcome unit * t :=
  update_proctoring_stats alerts
    {| proctoring_stats := proctoring_stats s;
       proctoring_alerts := proctoring_alerts s;
       tab_switch_count := tab_switch_count s;
       face_detected := detected |}.

(** [estimated_penalty] of the end point [get_proctoring_stats]. *)
Definition estimated_penalty (s : t) : Z :=
  let get key := default 0 (proctoring_stats s !! key) in
  let penalty_estimate := 0 in
  let penalty_estimate := penalty_estimate + Z.min (tab_switch_count s * 2) 20 in
  let penalty_estimate :=
    penalty_estimate + Z.min (get "multiple_faces" * 15) 30 in
  let penalty_estimate :=
    penalty_estimate + Z.min (get "face_coverings" * 5) 25 in
  let penalty_estimate :=
    penalty_estimate + Z.min (get "eye_coverings" * 5) 25 in
  let penalty_estimate :=
    penalty_estimate + Z.min (get "no_face_count" * 2) 15 in
  let penalty_estimate :=
    penalty_estimate + Z.min (get "total_alerts" * 1) 10 in
  Z.min penalty_estimate 70.

End Session.

(** ** [main.py]: [FaceProctor.check_rules] and [detect_face_proctoring] *)

Module FaceProctor.

Section Vision.

(** The frames, the face landmarks of the face mesh, and what the covering
    check remembers between frames (the brightness of the last face). *)
Variables (frame landmarks memory : Type).

(** The state of a [FaceProctor]; times are seconds. *)
Record t : Type := mk {
  alerts : list string;
  face_present : bool;
  last_face_time : Q;
  calibration_complete : bool;
  calibration_frames : Z;
  face_cover_counter : Z;
  eye_cover_counter : Z;
  prev_face_brightness : memory
}.

(** What the libraries report for one frame: the number of faces that the
    face detector finds, the faces of the face mesh, and the clock. *)
Record view : Type := mk_view {
  the_frame : frame;
  detections : nat;
  multi_face_landmarks : list landmarks;
  now : Q
}.

(** [check_face_eye_covering_improved(frame, landmarks)], the part of the
    proctor that works on pixels. *)
Variable check_face_eye_covering_improved : frame -> landmarks -> t -> t.

(** [__init__] at time [now0]; [no_memory] is [None]. *)
Definition init (no_memory : memory) (now0 : Q) : t :=
  {| alerts := [];
     face_present := false;
     last_face_time := now0;
     calibration_complete := false;
     calibration_frames := 0;
     face_cover_counter := 0;
     eye_cover_counter := 0;
     prev_face_brightness := no_memory |}.

Definition add_alert (text : string) (p : t) : t :=
  {| alerts := alerts p ++ [text];
     face_present := face_present p;
     last_face_time := last_face_time p;
     calibration_complete := calibration_complete p;
     calibration_frames := calibration_frames p;
     face_cover_counter := face_cover_counter p;
     eye_cover_counter := eye_cover_counter p;
     prev_face_brightness := prev_face_brightness p |}.

(** The loop over the faces of the mesh; it returns from inside while the
    calibration is not complete. *)
Fixpoint check_faces (f : frame) (faces : list landmarks) (p : t)
  : list string * t :=
  match faces with
  | [] => (alerts p, p)
  | face :: rest =>
      if negb (calibration_complete p) then
        let frames := calibration_frames p + 1 in
        let p :=
          {| alerts := alerts p;
             face_present := face_present p;
             last_face_time := last_face_time p;
             calibration_complete := 30 <=? frames;
             calibration_frames := frames;
             face_cover_counter := face_cover_counter p;
             eye_cover_counter := eye_cover_counter p;
             prev_face_brightness := prev_face_brightness p |} in
        (alerts p, p)
      else check_faces f rest (check_face_eye_covering_improved f face p)
  end.

(** [check_rules(frame)], when the calls into the libraries return. *)
Definition check_rules (v : view) (p : t) : list string * t :=
  let p :=
    {| alerts := [];
       face_present := face_present p;
       last_face_time := last_face_time p;
       calibration_complete := calibration_complete p;
       calibration_frames := calibration_frames p;
       face_cover_counter := face_cover_counter p;
       eye_cover_counter := eye_cover_counter p;
       prev_face_brightness := prev_face_brightness p |} in
  let p :=
    match detections v with
    | O =>
        {| alerts := alerts p;
           face_present := false;
           last_face_time := last_face_time p;
           calibration_complete := calibration_complete p;
           calibration_frames := calibration_frames p;
           face_cover_counter := face_cover_counter p;
           eye_cover_counter := eye_cover_counter p;
           prev_face_brightness := prev_face_brightness p |}
    | S _ =>
        let p :=
          if (1 <? detections v)%nat
          then add_alert Session.MULTIPLE_PEOPLE p else p in
        {| alerts := alerts p;
           face_present := true;
           last_face_time := now v;
           calibration_complete := calibration_complete p;
           calibration_frames := calibration_frames p;
           face_cover_counter := face_cover_counter p;
           eye_cover_counter := eye_cover_counter p;
           prev_face_brightness := prev_face_brightness p |}
    end in
  if negb (face_present p) then
    let p :=
      if Qlt_le_dec 3 (now v - last_face_time p)
      then add_alert Session.NO_FACE p else p in
    let p :=
      {| alerts := alerts p;
         face_present := face_present p;
         last_face_time := last_face_time p;
         calibration_complete := calibration_complete p;
         calibration_frames := calibration_frames p;
         face_cover_counter := 0;
         eye_cover_counter := 0;
         prev_face_brightness := prev_face_brightness p |} in
    (alerts p, p)
  else check_faces (the_frame v) (multi_face_landmarks v) p.

(** [detect_face_proctoring(frame_data)]: whether a face is present, and the
    alerts.  [seen] is [None] when the frame cannot be decoded or a library
    call raises; [now0] is the clock when the new proctor is made. *)
Definition detect_face_proctoring (no_memory : memory) (now0 : Q)
    (seen : option view) : bool * list string :=
  match seen with
  | None => (false, [])
  | Some v =>
      let '(found, p) := check_rules v (init no_memory now0) in
      (face_present p, found)
  end.

End Vision.

Arguments alerts {memory}.
Arguments face_present {memory}.
Arguments last_face_time {memory}.
Arguments calibration_complete {memory}.
Arguments calibration_frames {memory}.
Arguments face_cover_counter {memory}.
Arguments eye_cover_counter {memory}.
Arguments prev_face_brightness {memory}.
Arguments mk_view {frame landmarks}.
Arguments the_frame {frame landmarks}.
Arguments detections {frame landmarks}.
Arguments multi_face_landmarks {frame landmarks}.
Arguments now {frame landmarks}.
Arguments init {memory}.
Arguments add_alert {memory}.
Arguments check_faces {frame landmarks memory}.
Arguments check_rules {frame landmarks memory}.
Arguments detect_face_proctoring {frame landmarks memory}.

End FaceProctor.

(** ** [main.py]: the two web sockets of a session *)

Module Streams.

Section Streams.

Variables (frame landmarks memory : Type).
Variable check_face_eye_covering_improved :
  frame -> landmarks -> FaceProctor.t memory -> FaceProctor.t memory.
Variable no_memory : memory.

(** The messages that change a session: ["tab_switch"] on the monitor
    socket, and ["video_frame"] on the video socket, with the clock when
    its proctor is made and what the libraries report for the frame. *)
Inductive message : Type :=
| tab_switch_message
| video_frame_message (now0 : Q)
    (seen : option (FaceProctor.view frame landmarks)).

(** What one pass of the loop of [monitor_stream] or [video_stream] does to
    the session. *)
Definition receive (m : message) (s : Session.t) : outcome unit * Session.t :=
  match m with
  | tab_switch_message => (Returned tt, snd (Session.tab_switch s))
  | video_frame_message now0 seen =>
      let '(detected, alerts) :=
        FaceProctor.detect_face_proctoring check_face_eye_covering_improved
          no_memory now0 seen in
      Session.video_frame detected alerts s
  end.

(** The sessions that the two sockets produce from a new one. *)
Inductive reachable : Session.t -> Prop :=
| reach_init : reachable Session.init
| reach_receive s m : reachable s -> reachable (snd (receive m s)).

End Streams.

Arguments tab_switch_message {frame landmarks}.
Arguments video_frame_message {frame landmarks}.
Arguments receive {frame landmarks memory}.
Arguments reachable {frame landmarks memory}.
Arguments reach_init {frame landmarks memory}.
Arguments reach_receive {frame landmarks memory}.

End Streams.
(** * Specifications *)

(** ** What a score token of a response is *)

Module TokenSpec.

Import Text.

(** A score token: one to three digits with no word character right before
    and none right after. *)
Definition is_token (before : option ascii) (tok : string)
    (after : option ascii) : Prop :=
  (1 <= String.length tok <= 3)%nat
  /\ all_chars is_digit tok = true
  /\ opt_is_word before = false
  /\ opt_is_word after = false.

(** The character before the position that follows [pre], when [prev] is the
    character before [pre]. *)
Definition before (prev : option ascii) (pre : string) : option ascii :=
  match last_char pre with
  | Some c => Some c
  | None => prev
  end.

(** [tok] stands in [s] as a token between [pre] and [post]; [prev] is the
    character before [s]. *)
Definition token_in (prev : option ascii) (s pre tok post : string) : Prop :=
  s = pre +:+ tok +:+ post
  /\ is_token (before prev pre) tok (head_char post).

(** [tok] is the first token of [s]: no token starts further left. *)
Definition first_token_in (prev : option ascii) (s tok : string) : Prop :=
  exists pre post,
    token_in prev s pre tok post
    /\ forall pre' tok' post',
         token_in prev s pre' tok' post' ->
         (String.length pre <= String.length pre')%nat.

Definition no_token_in (prev : option ascii) (s : string) : Prop :=
  forall pre tok post, ~ token_in prev s pre tok post.


End TokenSpec.

(** ** The fallback tiers of answer scoring *)

Module AnswerScoreSpec.






End AnswerScoreSpec.

(** ** Rounded values *)

Module NumSpec.

Local Open Scope Q_scope.

(** [v] is [x] rounded to one decimal place: a whole number of tenths at
    most half a tenth away from [x]. *)
Definition rounded1 (x v : Q) : Prop :=
  (exists k : Z, v == inject_Z k / 10)
  /\ - (1 # 20) <= v - x <= 1 # 20.

End NumSpec.

(** ** The two blends of the final score *)

Module FinalSpec.

Local Open Scope Q_scope.

(** The level scores of the interview manager. *)
Definition level_table : list (string * Z) :=
  [("easy", 30%Z); ("medium", 70%Z); ("hard", 100%Z)].

(** The mean of the recorded scores, 50 when there is none. *)
Definition technical_average (scores : list Z) : Q :=
  match scores with
  | [] => 50
  | _ :: _ => Num.mean scores
  end.

(** 60% level, 40% technical. *)
Definition blend_60_40 (level_score : Z) (technical_avg : Q) : Q :=
  inject_Z level_score * (6 # 10) + technical_avg * (4 # 10).

(** The level weights of the scoring service, 0.3 for any other name. *)
Definition service_weight (level : string) : Q :=
  if String.eqb level "easy" then 3 # 10
  else if String.eqb level "medium" then 6 # 10
  else if String.eqb level "hard" then 1
  else 3 # 10.

(** 70% technical, 30% level. *)
Definition blend_70_30 (technical_avg weight : Q) : Q :=
  technical_avg * (7 # 10) + weight * 100 * (3 # 10).

(** [max(0, base - penalty)] *)
Definition after_penalty (base : Q) (penalty : Z) : Q :=
  Num.max0 (base - inject_Z penalty).

End FinalSpec.

(** ** An interview manager with its [LLMRunner] *)

Module Deployed.

Import InterviewManager.

(** The world of a running manager: the world of its [LLMRunner] and the
    number of random draws made. *)
Record world : Type := mk_world { llm : LLMRunner.world; draws : nat }.

(** [self.llm.ask] when [self.llm] is an [LLMRunner] in front of the model
    [m]. *)
Definition llm_ask (m : LLMRunner.model) (prompt : string) (w : world)
  : outcome (option string) * world :=
  let '(r, lw) := LLMRunner.ask m prompt (llm w) in
  (Returned r, {| llm := lw; draws := draws w |}).

(** The random generator with the stream of indices [rng]. *)
Definition draw (rng : nat -> nat) (w : world) : nat * world :=
  (rng (draws w), {| llm := llm w; draws := S (draws w) |}).

Definition start : world :=
  {| llm := {| LLMRunner.calls := 0; LLMRunner.slept := 0 |}; draws := 0 |}.

(** A model that raises on every call. *)
Definition always_fails : LLMRunner.model := fun _ _ => LLMRunner.Fails.

(** All the fallback questions of a job role. *)
Definition pool (job_role : string) : list string :=
  let table := fallback_questions job_role in
  default [] (table !! "easy") ++ default [] (table !! "medium")
  ++ default [] (table !! "hard").

Definition in_pool (job_role question : string) : bool :=
  existsb (String.eqb question) (pool job_role).

(** A session that has asked its opening question. *)
Definition opened : t :=
  snd (get_opening_question (init "Software Engineer" "Ada")).

(** The fallback questions that [_generate_fallback_question] chooses
    from. *)
Definition level_questions (st : t) : list string :=
  let table := fallback_questions (job_role st) in
  default (default [] (table !! "easy")) (table !! current_level st).

End Deployed.

(** ** Sample sessions *)

Module Examples.

Import InterviewManager.

(** A collaborator that answers every prompt with the same text, for a world
    without state. *)
Definition fixed_reply (text : string) (prompt : string) (w : unit)
  : outcome (option string) * unit := (Returned (Some text), w).

Definition no_draw (w : unit) : nat * unit := (0%nat, w).

(** A session with one answer scored 75. *)
Definition session_75 : t :=
  snd (fst (process_answer (fixed_reply "75") no_draw
              "Tell me about a project." "I built a parser."
              (snd (get_opening_question (init "Software Engineer" "Ada")))
              tt)).

(** One more answer scored 75. *)
Definition answer_75 (st : t) : t :=
  snd (fst (process_answer (fixed_reply "75") no_draw
              "Tell me about a project." "I built a parser." st tt)).

(** A session with nine answers, each scored 75. *)
Definition session_9x75 : t :=
  Nat.iter 9 answer_75
    (snd (get_opening_question (init "software_engineer" "Ada"))).

(** A ledger with one answer scored 75 at level easy. *)
Definition ledger_75 : ScoringService.t :=
  snd (ScoringService.add_question_score "Tell me about a project." "I built a parser."
         75 "easy" "" ScoringService.init).

End Examples.

(** ** Shapes of tracker states *)

Module TrackerShape.

Import Tracker.

(** How long a streak can be at a level: a streak of two has left easy
    (resp. hard) behind, a streak of three has arrived at hard (resp.
    easy). *)
Definition streak_fits_level (st : t) : Prop :=
  (2 <= consecutive_correct st -> current_level st <> "easy")
  /\ (3 <= consecutive_correct st -> current_level st = "hard")
  /\ (2 <= consecutive_incorrect st -> current_level st <> "hard")
  /\ (3 <= consecutive_incorrect st -> current_level st = "easy").

(** Two neighbours of a progression are one step apart. *)
Definition adjacent (a b : string) : Prop := promoted a b \/ demoted a b.

Fixpoint chain (levels : list string) : Prop :=
  match levels with
  | a :: (b :: _) as rest => adjacent a b /\ chain rest
  | _ => True
  end.

(** The progression starts at easy, ends at the current level and moves one
    step at a time. *)
Definition progression_ok (st : t) : Prop :=
  hd_error (level_progression st) = Some "easy"
  /\ List.last (level_progression st) "" = current_level st
  /\ chain (level_progression st).

(** [session_data] shows the tracker as it is. *)
Definition mirrored (st : t) : Prop :=
  sd_current_level st = current_level st
  /\ sd_consecutive_correct st = consecutive_correct st
  /\ sd_consecutive_incorrect st = consecutive_incorrect st
  /\ sd_level_progression st = level_progression st.

End TrackerShape.

(** ** Runs of the retry loop *)

Module RetrySpec.

Import LLMRunner.

(** How a run of [generate_text] ended: on attempt [k] the model gave a text
    that is not empty, gave an empty or no text, or raised for the last time
    allowed. *)
Definition decided_by (m : model) (prompt : string) (max_retries : Z)
    (call : nat) (k : nat) (s : string) : Prop :=
  (exists text, m call prompt = Reply (Some text)
                /\ Text.truthy text = true /\ s = Text.strip text)
  \/ ((m call prompt = Reply None \/ m call prompt = Reply (Some ""))
      /\ s = fallback_text)
  \/ (m call prompt = Fails /\ Z.of_nat k = max_retries - 1
      /\ s = fallback_text).

(** A model that raises once and then answers. *)
Definition second_try : model :=
  fun call _ =>
    match call with
    | O => Fails
    | _ => Reply (Some "  Next question?  ")
    end.

(** A model that answers with blanks. *)
Definition blank_model : model := fun _ _ => Reply (Some "   ").

End RetrySpec.

(** ** Shapes of sessions *)

Module SessionShape.

Import InterviewManager.

(** What question generation leaves alone in the session records. *)
Definition same_records (st st' : t) : Prop :=
  questions_asked st' = questions_asked st
  /\ candidate_answers st' = candidate_answers st
  /\ current_question_index st' = current_question_index st
  /\ answer_analysis st' = answer_analysis st
  /\ conversation_history st' = conversation_history st.

(** The prompts of the session have a context for each of the three
    levels. *)
Definition prompts_ok (st : t) : Prop :=
  forall level, Tracker.is_level level ->
    is_Some (Config.level_context (prompts st) !! level).

(** The records of a session fit together: one score per answer, in the
    order of the answers; no more answers than questions; the question index
    within the questions asked. *)
Definition records_ok (st : t) : Prop :=
  map qa_technical_score (candidate_answers st) = technical_scores st
  /\ map qa_analysis (candidate_answers st) = answer_analysis st
  /\ (length (candidate_answers st) <= length (questions_asked st))%nat
  /\ 0 <= current_question_index st
     <= Z.of_nat (length (questions_asked st)).

End SessionShape.

(** ** Comparing statistics dicts *)

Module StatsSpec.

Import Proctoring.

(** The keys that the penalty reads. *)
Definition penalty_keys : list string :=
  ["tab_switch_count"; "multiple_faces"; "face_coverings"; "eye_coverings";
   "no_face_count"; "total_alerts"].

(** [d'] counts at least as much as [d] under each key of the penalty. *)
Definition counts_le (d d' : stats) : Prop :=
  Forall (fun key => get d key <= get d' key) penalty_keys.

(** [d] and [d'] count the same under each key of the penalty. *)
Definition counts_agree (d d' : stats) : Prop :=
  Forall (fun key => get d key = get d' key) penalty_keys.

(** No key of the penalty has a positive count. *)
Definition no_violation (d : stats) : Prop :=
  Forall (fun key => get d key <= 0) penalty_keys.

End StatsSpec.

(** ** The feedback without a word on penalties *)

Module FeedbackSpec.

Import InterviewManager.

(** The sentence on the level reached and the score. *)
Definition score_sentence (show : Q -> string) (level : string) (score : Q)
  : string :=
  (if String.eqb level "hard" then "Excellent! You reached HARD level."
   else if String.eqb level "medium" then "Good! You reached MEDIUM level."
   else "Thank you! You reached EASY level.")
  +:+ " Your final score is " +:+ show score +:+ "%.".

(** The sentence on the proctoring notes, empty when there is none. *)
Definition notes_sentence (proctoring_stats : option Proctoring.stats)
  : string :=
  match proctoring_stats with
  | Some d =>
      if Proctoring.truthy d then
        match ManagerEnd.proctoring_feedback d with
        | [] => ""
        | notes => " Proctoring notes: " +:+ Text.join ", " notes +:+ "."
        end
      else ""
  | None => ""
  end.

End FeedbackSpec.

(** ** Running means *)

Module LedgerSpec.

(** The means of the first score, the first two scores, and so on. *)
Definition running_means (scores : list Z) : list Q :=
  map (fun k => Num.mean (firstn k scores)) (seq 1 (length scores)).

(** The numbers 1, 2, ..., n. *)
Definition numbers (n : nat) : list Z := map Z.of_nat (seq 1 n).

(** The lists of a ledger fit together. *)
Definition ledger_ok (st : ScoringService.t) : Prop :=
  map ScoringService.technical_score (ScoringService.questions st)
    = ScoringService.scores_technical st
  /\ map ScoringService.level (ScoringService.questions st)
     = ScoringService.sd_level_progression st
  /\ map ScoringService.question_number (ScoringService.questions st)
     = numbers (length (ScoringService.questions st))
  /\ ScoringService.scores_overall st
     = running_means (ScoringService.scores_technical st).

End LedgerSpec.

(** ** The statistics of a session *)

Module SessionSpec.

(** [self.proctoring_stats.get(key, 0)] *)
Definition get (s : Session.t) (key : string) : Z :=
  default 0 (Session.proctoring_stats s !! key).

(** The shape of the statistics: the six counts are present, the tab count
    is the attribute of the session, nothing is counted for coverings, and
    the total is the sum of the two other alert counts. *)
Definition stats_ok (s : Session.t) : Prop :=
  exists multiple_faces no_face_count : Z,
    0 <= Session.tab_switch_count s
    /\ 0 <= multiple_faces /\ 0 <= no_face_count
    /\ Session.proctoring_stats s !! "tab_switch_count"
       = Some (Session.tab_switch_count s)
    /\ Session.proctoring_stats s !! "multiple_faces" = Some multiple_faces
    /\ Session.proctoring_stats s !! "face_coverings" = Some 0
    /\ Session.proctoring_stats s !! "eye_coverings" = Some 0
    /\ Session.proctoring_stats s !! "no_face_count" = Some no_face_count
    /\ Session.proctoring_stats s !! "total_alerts"
       = Some (multiple_faces + no_face_count).

(** The alerts that a frame can give. *)
Definition frame_alerts (detections : nat) (late : bool) : list string :=
  match detections with
  | O => if late then [Session.NO_FACE] else []
  | S O => []
  | S (S _) => [Session.MULTIPLE_PEOPLE]
  end.

End SessionSpec.
(** * Properties *)

(** ** The level tracker *)

Module TrackerFacts.

Import Tracker.

(** Case analysis on a level name against the three literals. *)
Ltac level_cases l :=
  destruct (String.eqb_spec l "easy") as [->|?];
  [ | destruct (String.eqb_spec l "medium") as [->|?];
      [ | destruct (String.eqb_spec l "hard") as [->|?] ] ].

(** Decide the comparisons of names in the goal: by a hypothesis, or by
    computation when both names are literals. *)
Ltac eqb_step :=
  match goal with
  | |- context [String.eqb ?a ?a] => rewrite (String.eqb_refl a)
  | H : ?a <> ?b |- context [String.eqb ?a ?b] =>
      rewrite (proj2 (String.eqb_neq a b) H)
  | H : ?b <> ?a |- context [String.eqb ?a ?b] =>
      rewrite (String.eqb_sym a b), (proj2 (String.eqb_neq b a) H)
  | |- context [String.eqb ?a ?b] =>
      let v := eval vm_compute in (String.eqb a b) in
      match v with
      | true => change (String.eqb a b) with true
      | false => change (String.eqb a b) with false
      end
  end.

(** Run a call of [determine_next_level] whose level and pass/fail are
    known, splitting on the streak tests. *)
Ltac run_step :=
  repeat first
    [ eqb_step
    | progress cbn [snd fst sync_session _change_level update_counts
                    current_level level_questions_asked consecutive_correct
                    consecutive_incorrect level_progression sd_current_level
                    sd_level_progression sd_consecutive_correct
                    sd_consecutive_incorrect]
    | match goal with
      | |- context [if (2 <=? ?x) then _ else _] => destruct (2 <=? x) eqn:?
      end ].

(** The level is always one of the three names. *)
Lemma step_is_level st s :
  is_level (current_level st) -> is_level (current_level (step st s)).
Proof.
  destruct st as [l q cc ci lp sl sp sc si].
  unfold is_level, step, determine_next_level, should_promote_level,
    should_demote_level, update_counts.
  cbn [snd current_level consecutive_correct consecutive_incorrect].
  intros [-> | [-> | ->]]; cbn [String.eqb Ascii.eqb Bool.eqb];
    repeat match goal with
           | |- context [if (2 <=? ?x) then _ else _] => destruct (2 <=? x)
           end; cbn; auto.
Qed.

Lemma reachable_is_level st : reachable st -> is_level (current_level st).
Proof.
  induction 1 as [|st s _ IH].
  - left; reflexivity.
  - apply step_is_level, IH.
Qed.

Lemma step_counters st s :
  consecutive_correct (step st s)
    = (if 60 <=? s then consecutive_correct st + 1 else 0)
  /\ consecutive_incorrect (step st s)
    = (if 60 <=? s then 0 else consecutive_incorrect st + 1).
Proof.
  unfold step, determine_next_level.
  destruct (should_promote_level _); [|destruct (should_demote_level _)];
    split; reflexivity.
Qed.

Lemma step_streaks_exclusive st s :
  counters_nonneg st -> streaks_exclusive (step st s).
Proof.
  intros [Hc Hi]. unfold streaks_exclusive, counters_nonneg.
  destruct (step_counters st s) as [-> ->].
  destruct (60 <=? s); lia.
Qed.

Lemma trace_streaks_exclusive scores : forall st,
  counters_nonneg st -> Forall streaks_exclusive (trace st scores).
Proof.
  induction scores as [|s rest IH]; intros st Hst; cbn [trace].
  - constructor.
  - pose proof (step_streaks_exclusive st s Hst) as Hstep.
    constructor; [exact Hstep|].
    apply IH. exact (proj2 Hstep).
Qed.

(** The progression list after one call. *)
Lemma step_progression st s :
  level_progression (step st s)
  = if String.eqb (current_level (step st s)) (current_level st)
    then level_progression st
    else level_progression st ++ [current_level (step st s)].
Proof.
  destruct st as [l q cc ci lp sl sp sc si].
  unfold step, determine_next_level, should_promote_level, should_demote_level.
  destruct (60 <=? s) eqn:Hs; unfold update_counts; rewrite ?Hs;
    level_cases l; run_step; first [reflexivity | discriminate].
Qed.

End TrackerFacts.

Module TrackerTheorems.

Import Tracker TrackerFacts.

(** Turn the recorded outcomes of the streak tests into inequalities. *)
Ltac leb_facts :=
  repeat match goal with
         | H : (_ <=? _) = true |- _ => apply Z.leb_le in H
         | H : (_ <=? _) = false |- _ => apply Z.leb_gt in H
         end.

(** C1. For every score [s] and every reachable tracker, one call of
    [determine_next_level s] returns the new current level and: sets the
    streak counters ([s >= 60]: correct incremented, incorrect 0; else the
    mirror image); promotes one adjacent step (easy to medium, medium to
    hard) iff the level is not hard and the updated correct streak is at
    least 2; otherwise demotes one adjacent step (medium to easy, hard to
    medium) iff the level is not easy and the updated incorrect streak is at
    least 2; in every case the level is promoted one step, demoted one step
    or left as it was, so its rank moves by one at most. *)
Theorem determine_next_level_transition (st : t) (s : Z) :
  reachable st ->
  let cc := if 60 <=? s then consecutive_correct st + 1 else 0 in
  let ci := if 60 <=? s then 0 else consecutive_incorrect st + 1 in
  let old := current_level st in
  let st' := snd (determine_next_level s st) in
  let new := current_level st' in
  fst (determine_next_level s st) = new
  /\ consecutive_correct st' = cc
  /\ consecutive_incorrect st' = ci
  /\ (promoted old new <-> old <> "hard" /\ 2 <= cc)
  /\ (demoted old new <->
      ~ (old <> "hard" /\ 2 <= cc) /\ old <> "easy" /\ 2 <= ci)
  /\ (promoted old new \/ demoted old new \/ new = old)
  /\ (exists r r', rank old = Some r /\ rank new = Some r'
                   /\ Z.abs (r' - r) <= 1).
Proof.
  intros Hreach. apply reachable_is_level in Hreach.
  destruct st as [l q cc0 ci0 lp sl sp sc si].
  unfold is_level in Hreach. cbn [current_level] in Hreach.
  cbv zeta.
  unfold determine_next_level, should_promote_level, should_demote_level,
    promoted, demoted.
  destruct (60 <=? s) eqn:Hs; unfold update_counts; rewrite ?Hs;
    destruct Hreach as [-> | [-> | ->]]; run_step; leb_facts;
    repeat match goal with
           | |- _ /\ _ => split
           | |- _ <-> _ => split
           | |- ~ _ => intros ?
           end;
    try reflexivity; intros;
    repeat match goal with
           | H : _ /\ _ |- _ => destruct H
           | H : _ \/ _ |- _ => destruct H
           end;
    try discriminate; try lia; try congruence; auto 6.
  all: try (exfalso;
            match goal with
            | H : ~ _ |- _ => apply H; split; [discriminate | lia]
            end).
  all: try (split; [intros [? ?]; lia | split; [discriminate | lia]]).
  all: eexists _, _; split; [reflexivity|]; split; [reflexivity|];
    vm_compute; discriminate.
Qed.

(** The transition at the initial tracker with a passing score. *)
Lemma determine_next_level_transition_witness :
  reachable init /\
  fst (determine_next_level 75 init)
    = current_level (snd (determine_next_level 75 init)).
Proof.
  split; [constructor|].
  exact (proj1 (determine_next_level_transition init 75 reachable_init)).
Defined.

(** C2. From the initial tracker, after every call of a sequence of calls
    of [determine_next_level] the smaller streak counter is 0 and neither
    counter is negative. *)
Theorem streaks_exclusive_after_every_call (scores : list Z) :
  Forall (fun st =>
            Z.min (consecutive_correct st) (consecutive_incorrect st) = 0
            /\ 0 <= consecutive_correct st
            /\ 0 <= consecutive_incorrect st)
         (trace init scores).
Proof.
  apply (trace_streaks_exclusive scores init).
  split; cbn; lia.
Qed.

(** C7. [_change_level] leaves both streak counters as they are and appends
    the new level to the progression; the progression starts as [easy] and
    a call of [determine_next_level] appends to it exactly when the level
    changes; and right after a promotion (a demotion) one more passing
    (failing) score changes the level again. *)
Theorem change_level_keeps_streaks :
  (forall new_level reason st,
      consecutive_correct (_change_level new_level reason st)
        = consecutive_correct st
      /\ consecutive_incorrect (_change_level new_level reason st)
        = consecutive_incorrect st
      /\ current_level (_change_level new_level reason st) = new_level
      /\ level_progression (_change_level new_level reason st)
        = level_progression st ++ [new_level])
  /\ level_progression init = ["easy"]
  /\ (forall st s,
        level_progression (step st s)
        = if String.eqb (current_level (step st s)) (current_level st)
          then level_progression st
          else level_progression st ++ [current_level (step st s)])
  /\ (exists st s1 s2,
        reachable st /\ 60 <= s2
        /\ promoted (current_level st) (current_level (step st s1))
        /\ promoted (current_level (step st s1))
                    (current_level (step (step st s1) s2)))
  /\ (exists st s1 s2,
        reachable st /\ s2 < 60
        /\ demoted (current_level st) (current_level (step st s1))
        /\ demoted (current_level (step st s1))
                   (current_level (step (step st s1) s2))).
Proof.
  split; [intros; repeat split|].
  split; [reflexivity|].
  split; [exact step_progression|].
  split.
  - exists (step init 60), 60, 60.
    split; [repeat constructor|].
    split; [lia|].
    split; [left | right]; split; reflexivity.
  - exists (step (step (step (step init 60) 60) 60) 0), 0, 0.
    split; [repeat constructor|].
    split; [lia|].
    split; [right | left]; split; reflexivity.
Qed.

End TrackerTheorems.

(** ** The proctoring penalty *)

Module PenaltyFacts.

Import Proctoring.

Lemma get_nonneg d key : nonneg d -> 0 <= get d key.
Proof.
  intros Hd. unfold get.
  destruct (counts d !! key) as [n|] eqn:Hkey; cbn; [eauto | lia].
Qed.

(** The total before the last cap, as one expression. *)
Lemma penalty_body_total d :
  fst (penalty_body d)
  = when_pos (get d "tab_switch_count")
      (Z.min (get d "tab_switch_count" * 2) 20)
    + Z.min (when_pos (get d "multiple_faces") (15 * get d "multiple_faces")
             + when_pos (get d "face_coverings")
                 (Z.min (get d "face_coverings" * 5) 25)
             + when_pos (get d "eye_coverings")
                 (Z.min (get d "eye_coverings" * 5) 25)
             + when_pos (get d "no_face_count")
                 (Z.min (get d "no_face_count" * 2) 15)) 50
    + when_pos (get d "total_alerts") (Z.min (get d "total_alerts" * 1) 10).
Proof.
  unfold penalty_body, when_pos.
  generalize (get d "tab_switch_count") (get d "multiple_faces")
    (get d "face_coverings") (get d "eye_coverings") (get d "no_face_count")
    (get d "total_alerts").
  intros a b c e f g.
  destruct (0 <? a), (0 <? b), (0 <? c), (0 <? e), (0 <? f), (0 <? g);
    cbn [fst]; rewrite ?Z.add_0_l, ?Z.add_0_r; reflexivity.
Qed.

Lemma when_pos_capped count p cap :
  0 <= p -> 0 <= cap -> 0 <= when_pos count (Z.min (count * p) cap) <= cap.
Proof.
  intros Hp Hcap. unfold when_pos.
  destruct (0 <? count) eqn:Hc; [apply Z.ltb_lt in Hc | lia].
  assert (0 <= count * p) by nia. lia.
Qed.

Lemma when_pos_nonneg count p : 0 <= p -> 0 <= when_pos count (p * count).
Proof.
  intros Hp. unfold when_pos.
  destruct (0 <? count) eqn:Hc; [apply Z.ltb_lt in Hc; nia | lia].
Qed.

Lemma when_pos_id count p : 0 <= count -> when_pos count (p * count) = p * count.
Proof.
  intros Hc. unfold when_pos.
  destruct (0 <? count) eqn:H0; [reflexivity|].
  apply Z.ltb_ge in H0. replace count with 0 by lia. lia.
Qed.

Lemma when_pos_min count p cap :
  0 <= count -> 0 <= cap ->
  when_pos count (Z.min (count * p) cap) = Z.min (p * count) cap.
Proof.
  intros Hc Hcap. unfold when_pos.
  destruct (0 <? count) eqn:H0.
  - f_equal. ring.
  - apply Z.ltb_ge in H0. replace count with 0 by lia. lia.
Qed.

Lemma penalty_body_bounds d : 0 <= fst (penalty_body d) <= 80.
Proof.
  rewrite penalty_body_total.
  pose proof (when_pos_capped (get d "tab_switch_count") 2 20).
  pose proof (when_pos_capped (get d "total_alerts") 1 10).
  pose proof (when_pos_capped (get d "face_coverings") 5 25).
  pose proof (when_pos_capped (get d "eye_coverings") 5 25).
  pose proof (when_pos_capped (get d "no_face_count") 2 15).
  pose proof (when_pos_nonneg (get d "multiple_faces") 15).
  lia.
Qed.

Lemma manager_penalty_fst d :
  fst (InterviewManager._calculate_proctoring_penalty d)
  = Z.min (fst (penalty_body d)) 70.
Proof.
  unfold InterviewManager._calculate_proctoring_penalty.
  destruct (penalty_body d) as [p items]. reflexivity.
Qed.

Lemma service_penalty_fst d :
  fst (ScoringService.calculate_proctoring_penalty d)
  = Z.min (fst (penalty_body d)) 70.
Proof.
  unfold ScoringService.calculate_proctoring_penalty.
  destruct (penalty_body d) as [p items]. reflexivity.
Qed.

Lemma manager_penalty_bounds d :
  0 <= fst (InterviewManager._calculate_proctoring_penalty d) <= 70.
Proof.
  rewrite manager_penalty_fst. pose proof (penalty_body_bounds d). lia.
Qed.

Lemma service_penalty_bounds d :
  0 <= fst (ScoringService.calculate_proctoring_penalty d) <= 70.
Proof.
  rewrite service_penalty_fst. pose proof (penalty_body_bounds d). lia.
Qed.

(** C3. For non-negative counts both penalty methods return
    [min(2*tabs, 20) + min(15*faces + min(5*face covers, 25)
    + min(5*eye covers, 25) + min(2*no face, 15), 50) + min(alerts, 10)]
    capped at 70, a value between 0 and 70; 15 tab switches alone give 20;
    one extra face, 10 face covers, 10 eye covers and 20 frames without a
    face give a face subtotal of 50 although the capped items add up to
    80. *)
Theorem proctoring_penalty_formula (d : stats) :
  nonneg d ->
  let tab_switches := get d "tab_switch_count" in
  let multiple_faces := get d "multiple_faces" in
  let face_coverings := get d "face_coverings" in
  let eye_coverings := get d "eye_coverings" in
  let no_face_count := get d "no_face_count" in
  let total_alerts := get d "total_alerts" in
  let expected :=
    Z.min (Z.min (2 * tab_switches) 20
           + Z.min (15 * multiple_faces
                    + Z.min (5 * face_coverings) 25
                    + Z.min (5 * eye_coverings) 25
                    + Z.min (2 * no_face_count) 15) 50
           + Z.min (1 * total_alerts) 10) 70 in
  fst (InterviewManager._calculate_proctoring_penalty d) = expected
  /\ fst (ScoringService.calculate_proctoring_penalty d) = expected
  /\ 0 <= expected <= 70
  /\ fst (InterviewManager._calculate_proctoring_penalty
            (of_counts 15 0 0 0 0 0)) = 20
  /\ fst (ScoringService.calculate_proctoring_penalty
            (of_counts 15 0 0 0 0 0)) = 20
  /\ fst (InterviewManager._calculate_proctoring_penalty
            (of_counts 0 1 10 10 20 0)) = 50
  /\ fst (ScoringService.calculate_proctoring_penalty
            (of_counts 0 1 10 10 20 0)) = 50
  /\ 15 * 1 + Z.min (5 * 10) 25 + Z.min (5 * 10) 25 + Z.min (2 * 20) 15 = 80.
Proof.
  intros Hd. cbv zeta.
  rewrite manager_penalty_fst, service_penalty_fst, penalty_body_total.
  rewrite !when_pos_min, when_pos_id by (try apply get_nonneg; auto; lia).
  pose proof (get_nonneg d "tab_switch_count" Hd).
  pose proof (get_nonneg d "multiple_faces" Hd).
  pose proof (get_nonneg d "face_coverings" Hd).
  pose proof (get_nonneg d "eye_coverings" Hd).
  pose proof (get_nonneg d "no_face_count" Hd).
  pose proof (get_nonneg d "total_alerts" Hd).
  split; [reflexivity|].
  split; [reflexivity|].
  split; [lia|].
  repeat split; vm_compute; reflexivity.
Qed.

Lemma of_counts_nonneg a b c e f g :
  0 <= a -> 0 <= b -> 0 <= c -> 0 <= e -> 0 <= f -> 0 <= g ->
  nonneg (of_counts a b c e f g).
Proof.
  intros Ha Hb Hc He Hf Hg key n. unfold of_counts. cbn [counts].
  rewrite !lookup_insert, lookup_empty.
  repeat case_decide; intros [= <-]; assumption.
Qed.

(** The formula at three tab switches, two covered faces and one alert. *)
Lemma proctoring_penalty_formula_witness :
  nonneg (of_counts 3 0 2 0 0 1)
  /\ fst (InterviewManager._calculate_proctoring_penalty (of_counts 3 0 2 0 0 1))
     = 17.
Proof.
  assert (Hd : nonneg (of_counts 3 0 2 0 0 1))
    by (apply of_counts_nonneg; lia).
  split; [exact Hd|].
  rewrite (proj1 (proctoring_penalty_formula (of_counts 3 0 2 0 0 1) Hd)).
  vm_compute. reflexivity.
Defined.

End PenaltyFacts.

(** ** The score token of a response *)

Module TokenFacts.

Import Text TokenSpec.

Lemma append_cons c (s t : string) : String c s +:+ t = String c (s +:+ t).
Proof. reflexivity. Qed.

Lemma append_nil_l (t : string) : "" +:+ t = t.
Proof. reflexivity. Qed.

Lemma append_nil_r (s : string) : s +:+ "" = s.
Proof.
  induction s as [|c s IH]; [reflexivity|].
  now rewrite append_cons, IH.
Qed.


Lemma is_digit_is_word c : is_digit c = true -> is_word c = true.
Proof.
  unfold is_word. intros ->. now rewrite !orb_true_r.
Qed.

Lemma last_char_cons c (s : string) :
  last_char (String c s) = Some (default c (last_char s)).
Proof.
  revert c; induction s as [|d s IH]; intros c; [reflexivity|].
  change (last_char (String c (String d s))) with (last_char (String d s)).
  rewrite IH. cbn. destruct (last_char s); reflexivity.
Qed.


(** The last character of a non-empty string of digits is a word
    character. *)
Lemma last_digit_is_word (tok : string) :
  tok <> "" -> all_chars is_digit tok = true ->
  opt_is_word (last_char tok) = true.
Proof.
  induction tok as [|c tok IH]; [congruence|].
  intros _ Hall. cbn [all_chars] in Hall.
  apply andb_true_iff in Hall as [Hc Htok].
  rewrite last_char_cons.
  destruct tok as [|d tok'].
  - cbn. now apply is_digit_is_word.
  - specialize (IH ltac:(discriminate) Htok).
    destruct (last_char (String d tok')) as [x|]; cbn in *; [exact IH | discriminate].
Qed.


Lemma head_digit_is_word (tok post : string) :
  tok <> "" -> all_chars is_digit tok = true ->
  opt_is_word (head_char (tok +:+ post)) = true.
Proof.
  destruct tok as [|c tok]; [congruence|].
  intros _ Hall. rewrite append_cons. cbn in *.
  apply andb_true_iff in Hall as [Hc _].
  now apply is_digit_is_word.
Qed.


Lemma take_app_length (tok post : string) :
  take (String.length tok) (tok +:+ post) = tok.
Proof.
  induction tok as [|c tok IH]; [destruct post; reflexivity|].
  rewrite append_cons. cbn [String.length take]. now rewrite IH.
Qed.

Lemma drop_app_length (tok post : string) :
  drop (String.length tok) (tok +:+ post) = post.
Proof.
  induction tok as [|c tok IH]; [destruct post; reflexivity|].
  rewrite append_cons. cbn [String.length drop]. exact IH.
Qed.

Lemma not_word_not_digit (c : option ascii) :
  opt_is_word c = false ->
  match c with Some x => is_digit x = false | None => True end.
Proof.
  destruct c as [x|]; [|trivial]. cbn. intros Hw.
  destruct (is_digit x) eqn:Hd; [|reflexivity].
  apply is_digit_is_word in Hd. congruence.
Qed.

(** More digits than the token has cannot be read: the token ends at a
    non-word character or at the end of the string. *)
Lemma digits_past_token n (tok post : string) :
  (String.length tok < n)%nat ->
  opt_is_word (head_char post) = false ->
  (String.length (take n (tok +:+ post)) =? n)%nat
  && all_chars is_digit (take n (tok +:+ post)) = false.
Proof.
  revert n. induction tok as [|c tok IH]; intros n Hn Hpost.
  - rewrite append_nil_l. destruct n as [|n]; [cbn in Hn; lia|].
    destruct post as [|x post]; [reflexivity|].
    apply not_word_not_digit in Hpost. cbn in Hpost.
    cbn [take all_chars]. rewrite Hpost. cbn [andb]. apply andb_false_r.
  - destruct n as [|n]; [cbn in Hn; lia|].
    cbn [String.length] in Hn.
    rewrite append_cons. cbn [take String.length all_chars].
    specialize (IH n ltac:(lia) Hpost).
    change (S (String.length (take n (tok +:+ post))) =? S n)%nat
      with (String.length (take n (tok +:+ post)) =? n)%nat.
    destruct (String.length (take n (tok +:+ post)) =? n)%nat; [|reflexivity].
    cbn [andb] in *. rewrite IH. apply andb_false_r.
Qed.

Lemma digits_then_boundary_past n (tok post : string) :
  (String.length tok < n)%nat ->
  opt_is_word (head_char post) = false ->
  digits_then_boundary n (tok +:+ post) = None.
Proof.
  intros Hn Hpost. unfold digits_then_boundary.
  now rewrite (digits_past_token n tok post Hn Hpost).
Qed.

Lemma digits_then_boundary_exact (tok post : string) :
  tok <> "" -> all_chars is_digit tok = true ->
  opt_is_word (head_char post) = false ->
  digits_then_boundary (String.length tok) (tok +:+ post) = Some tok.
Proof.
  intros Hne Hall Hpost. unfold digits_then_boundary.
  rewrite take_app_length, drop_app_length, Nat.eqb_refl, Hall.
  unfold word_boundary. rewrite (last_digit_is_word tok Hne Hall), Hpost.
  reflexivity.
Qed.

(** A token at the start of the string is what the pattern matches. *)
Lemma match_here_complete prev s tok post :
  token_in prev s "" tok post -> match_here prev s = Some tok.
Proof.
  intros [Hs (Hlen & Hall & Hprev & Hpost)].
  rewrite append_nil_l in Hs. subst s.
  unfold before in Hprev. cbn [last_char] in Hprev.
  assert (Hne : tok <> "") by (intros ->; cbn in Hlen; lia).
  unfold match_here, word_boundary.
  rewrite (head_digit_is_word tok post Hne Hall), Hprev. cbn [xorb].
  pose proof (digits_then_boundary_exact tok post Hne Hall Hpost) as Hexact.
  assert (String.length tok = 1 \/ String.length tok = 2
          \/ String.length tok = 3)%nat as [H1 | [H2 | H3]] by lia.
  - rewrite !digits_then_boundary_past by (auto; lia).
    now rewrite H1 in Hexact.
  - rewrite digits_then_boundary_past by (auto; lia).
    now rewrite H2 in Hexact; rewrite Hexact.
  - now rewrite H3 in Hexact; rewrite Hexact.
Qed.







Lemma append_same_length (pre pre' x y : string) :
  String.length pre = String.length pre' ->
  pre +:+ x = pre' +:+ y -> pre = pre' /\ x = y.
Proof.
  revert pre'. induction pre as [|c pre IH]; intros [|d pre'] Hlen Heq;
    try discriminate Hlen.
  - now rewrite !append_nil_l in Heq.
  - rewrite !append_cons in Heq. injection Heq as -> Heq.
    injection Hlen as Hlen.
    destruct (IH pre' Hlen Heq) as [-> ->]. auto.
Qed.

Lemma token_in_here prev s pre tok post :
  token_in prev s pre tok post ->
  token_in (before prev pre) (tok +:+ post) "" tok post.
Proof.
  intros [_ Htok]. split; [reflexivity|]. exact Htok.
Qed.

(** There is one first token at most. *)
Lemma first_token_in_unique prev s tok tok' :
  first_token_in prev s tok -> first_token_in prev s tok' -> tok = tok'.
Proof.
  intros (pre & post & Htok & Hmin) (pre' & post' & Htok' & Hmin').
  pose proof (Hmin _ _ _ Htok') as H1.
  pose proof (Hmin' _ _ _ Htok) as H2.
  assert (Hlen : String.length pre = String.length pre') by lia.
  pose proof (proj1 Htok) as Hs. rewrite (proj1 Htok') in Hs.
  destruct (append_same_length _ _ _ _ (eq_sym Hlen) Hs) as [-> Hrest].
  apply token_in_here, match_here_complete in Htok.
  apply token_in_here, match_here_complete in Htok'.
  rewrite Hrest in Htok'. congruence.
Qed.

Lemma first_token_not_none prev s tok :
  first_token_in prev s tok -> ~ no_token_in prev s.
Proof.
  intros (pre & post & Htok & _) Hnone. exact (Hnone _ _ _ Htok).
Qed.

End TokenFacts.

(** ** Answer scoring *)

Module AnswerScoreFacts.

Import InterviewManager TokenSpec TokenFacts AnswerScoreSpec.


Section WithCollaborator.

Context {W : Type}.
Variable llm_ask : string -> W -> outcome (option string) * W.

(** Every score is between 0 and 100. *)
Lemma evaluate_answer_quality_range answer question st w :
  0 <= fst (evaluate_answer_quality llm_ask answer question st w) <= 100.
Proof.
  unfold evaluate_answer_quality.
  destruct (llm_ask _ w) as [[[response|]|] w1]; cbn [fst].
  - destruct (Text.findall_score (Text.strip response)); cbn [fst].
    + destruct (_ && _); cbn; lia.
    + lia.
  - destruct (50 <? Text.len answer); cbn; lia.
  - destruct (50 <? Text.len answer); cbn; lia.
Qed.


End WithCollaborator.

End AnswerScoreFacts.

(** ** [LLMRunner.generate_text] *)

Module LLMRunnerFacts.

Import LLMRunner.




(** One turn of the loop on an attempt that raises. *)
Lemma generate_text_loop_fails m prompt max_retries attempt rest w :
  m (calls w) prompt = Fails ->
  generate_text_loop m prompt max_retries (attempt :: rest) w
  = if attempt <? max_retries - 1
    then generate_text_loop m prompt max_retries rest (sleep 2 (tick w))
    else (Some fallback_text, tick w).
Proof. intros H. cbn [generate_text_loop]. now rewrite H. Qed.

(** When every attempt raises, [ask] gives up after the third one and
    returns the fixed text. *)
Lemma ask_exhausted m prompt w :
  m (calls w) prompt = Fails ->
  m (S (calls w)) prompt = Fails ->
  m (S (S (calls w))) prompt = Fails ->
  ask m prompt w
  = (Some fallback_text,
     {| calls := S (S (S (calls w))); slept := slept w + 2 + 2 |}).
Proof.
  intros H0 H1 H2. unfold ask, generate_text.
  change (range 3) with [0; 1; 2].
  rewrite generate_text_loop_fails by exact H0.
  change (0 <? 3 - 1) with true. cbv iota.
  rewrite generate_text_loop_fails by exact H1.
  change (1 <? 3 - 1) with true. cbv iota.
  rewrite generate_text_loop_fails by exact H2.
  reflexivity.
Qed.

(** An empty or missing text on the first answer gives the fixed text at
    once. *)
Lemma ask_empty m prompt w :
  m (calls w) prompt = Reply None \/ m (calls w) prompt = Reply (Some "") ->
  ask m prompt w = (Some fallback_text, tick w).
Proof.
  intros [H | H]; unfold ask, generate_text;
    change (range 3) with [0; 1; 2]; cbn [generate_text_loop];
    rewrite H; reflexivity.
Qed.

End LLMRunnerFacts.

(** ** Rounding to one decimal place and means *)

Module NumFacts.

Import Num NumSpec.

Local Open Scope Q_scope.

Lemma round_half_even_close (y : Q) :
  - (1 # 2) <= inject_Z (round_half_even y) - y <= 1 # 2.
Proof.
  unfold round_half_even.
  pose proof (Qfloor_le y) as Hlo.
  pose proof (Qlt_floor y) as Hhi.
  rewrite inject_Z_plus in Hhi.
  change (inject_Z 1) with 1 in Hhi.
  destruct (Qcompare_spec (y - inject_Z (Qfloor y)) (1 # 2)) as [He | Hl | Hg].
  - destruct (Z.even (Qfloor y)).
    + lra.
    + rewrite inject_Z_plus. change (inject_Z 1) with 1. lra.
  - lra.
  - rewrite inject_Z_plus. change (inject_Z 1) with 1. lra.
Qed.

(** Rounding stays between whole bounds. *)
Lemma round_half_even_between (y : Q) (a b : Z) :
  inject_Z a <= y -> y <= inject_Z b ->
  (a <= round_half_even y <= b)%Z.
Proof.
  intros Ha Hb.
  pose proof (round_half_even_close y) as [Hlo Hhi].
  split.
  - assert (inject_Z (a - 1) < inject_Z (round_half_even y)) as H.
    { unfold Z.sub. rewrite inject_Z_plus, inject_Z_opp.
      change (inject_Z 1) with 1. lra. }
    rewrite <- Zlt_Qlt in H. lia.
  - assert (inject_Z (round_half_even y) < inject_Z (b + 1)) as H.
    { rewrite inject_Z_plus. change (inject_Z 1) with 1. lra. }
    rewrite <- Zlt_Qlt in H. lia.
Qed.

Lemma round1_between (x : Q) (a b : Z) :
  inject_Z a <= x -> x <= inject_Z b ->
  inject_Z a <= round1 x /\ round1 x <= inject_Z b.
Proof.
  intros Ha Hb. unfold round1.
  destruct (round_half_even_between (x * 10) (a * 10) (b * 10)) as [Hlo Hhi].
  - rewrite inject_Z_mult. change (inject_Z 10) with 10. lra.
  - rewrite inject_Z_mult. change (inject_Z 10) with 10. lra.
  - rewrite Zle_Qle, inject_Z_mult in Hlo, Hhi.
    change (inject_Z 10) with 10 in Hlo, Hhi.
    split.
    + apply Qle_shift_div_l; [reflexivity | exact Hlo].
    + apply Qle_shift_div_r; [reflexivity | exact Hhi].
Qed.

(** [round1] rounds to one decimal place. *)
Lemma round1_rounded (x : Q) : rounded1 x (round1 x).
Proof.
  split.
  - exists (round_half_even (x * 10)). reflexivity.
  - pose proof (round_half_even_close (x * 10)) as [Hlo Hhi].
    unfold round1.
    set (k := inject_Z (round_half_even (x * 10))) in *.
    assert (k / 10 == k * (1 # 10)) as -> by (field).
    lra.
Qed.


Lemma max0_nonneg (x : Q) : 0 <= max0 x.
Proof. unfold max0. destruct (Qlt_le_dec 0 x); lra. Qed.

Lemma max0_le (x b : Q) : 0 <= b -> x <= b -> max0 x <= b.
Proof. unfold max0. destruct (Qlt_le_dec 0 x); lra. Qed.


(** Sums and means of scores between 0 and 100. *)
Lemma fold_add_bounds (l : list Z) : forall acc : Z,
  Forall (fun s => 0 <= s <= 100)%Z l ->
  (acc <= fold_left Z.add l acc <= acc + 100 * Z.of_nat (length l))%Z.
Proof.
  induction l as [|s l IH]; intros acc Hl; cbn [fold_left length].
  - lia.
  - inversion Hl as [|? ? Hs Hrest]; subst.
    specialize (IH (acc + s)%Z Hrest). lia.
Qed.

Lemma mean_bounds (l : list Z) :
  l <> [] -> Forall (fun s => 0 <= s <= 100)%Z l ->
  0 <= mean l <= 100.
Proof.
  intros Hne Hl. unfold mean, sum.
  pose proof (fold_add_bounds l 0%Z Hl) as [Hlo Hhi].
  assert (Hlen : (0 < Z.of_nat (length l))%Z) by (destruct l; [congruence | cbn; lia]).
  assert (0 < inject_Z (Z.of_nat (length l))) as Hpos
    by (change 0 with (inject_Z 0); now rewrite <- Zlt_Qlt).
  split.
  - apply Qle_shift_div_l; [exact Hpos|].
    rewrite Qmult_0_l. change 0 with (inject_Z 0). now rewrite <- Zle_Qle.
  - apply Qle_shift_div_r; [exact Hpos|].
    change 100 with (inject_Z 100). rewrite <- inject_Z_mult, <- Zle_Qle. lia.
Qed.

End NumFacts.

(** ** Sessions of the interview manager *)

Module ManagerFacts.

Import InterviewManager.

(** Split on every [match] and [let '(_, _)] of the goal. *)
Ltac split_matches :=
  repeat match goal with
         | |- context [match ?x with _ => _ end] => destruct x eqn:?
         end.

Section WithCollaborators.

Context {W : Type}.
Variable llm_ask : string -> W -> outcome (option string) * W.
Variable draw : W -> nat * W.

Lemma analyze_same_scores question answer st w :
  same_scores st
    (snd (fst (analyze_answer_and_generate_question llm_ask draw question
                 answer st w))).
Proof.
  unfold analyze_answer_and_generate_question, analysis_done, same_scores.
  split_matches; cbn; auto.
Qed.

Lemma skip_same_scores current_question st w :
  same_scores st
    (snd (fst (get_next_question_without_answer llm_ask draw current_question
                 st w))).
Proof.
  unfold get_next_question_without_answer, same_scores.
  split_matches; cbn; auto.
Qed.

Lemma process_answer_scores question answer st w :
  let st' := snd (fst (process_answer llm_ask draw question answer st w)) in
  let score := fst (evaluate_answer_quality llm_ask answer question st w) in
  tracker st' = Tracker.step (tracker st) score
  /\ technical_scores st' = technical_scores st ++ [score]
  /\ job_role st' = job_role st
  /\ prompts st' = prompts st.
Proof.
  cbv zeta. unfold process_answer.
  destruct (evaluate_answer_quality llm_ask answer question st w)
    as [score w1] eqn:Hscore.
  cbn [fst].
  destruct (Tracker.determine_next_level score (tracker (add_score score st)))
    as [next_level tr] eqn:Hlevel.
  pose proof (analyze_same_scores question answer
                (set_tracker tr (add_score score st)) w1) as Hsame.
  destruct (analyze_answer_and_generate_question llm_ask draw question answer
              (set_tracker tr (add_score score st)) w1)
    as [[[[analysis next_question]|] st2] w2];
    cbn [fst snd] in *; destruct Hsame as (Ht & Hs & Hj & Hp);
    cbn [tracker technical_scores job_role prompts add_answer add_question
         set_tracker add_score] in *;
    rewrite ?Ht, ?Hs, ?Hj, ?Hp;
    unfold Tracker.step; cbn [tracker add_score] in Hlevel;
    rewrite Hlevel; auto.
Qed.

Lemma reachable_session_ok st : reachable llm_ask draw st -> session_ok st.
Proof.
  induction 1 as [job candidate | st _ [IHt IHs]
                 | st question answer w _ [IHt IHs]
                 | st current_question w _ [IHt IHs]].
  - split; [constructor | constructor].
  - split; [exact IHt | exact IHs].
  - destruct (process_answer_scores question answer st w)
      as (Ht & Hs & _). cbv zeta in Ht, Hs.
    split.
    + rewrite Ht. now constructor.
    + rewrite Hs. apply Forall_app. split; [exact IHs|].
      constructor; [|constructor].
      apply AnswerScoreFacts.evaluate_answer_quality_range.
  - destruct (skip_same_scores current_question st w) as (Ht & Hs & _).
    split; [rewrite Ht; exact IHt | rewrite Hs; exact IHs].
Qed.

End WithCollaborators.

End ManagerFacts.

(** ** The final evaluation of the interview manager *)

Module FinalFacts.

Import InterviewManager FinalSpec Num NumSpec NumFacts.

Local Open Scope Q_scope.

Lemma level_score_cases (level : string) :
  let score := default 30%Z (level_weights !! level) in
  (level = "easy" /\ score = 30%Z) \/ (level = "medium" /\ score = 70%Z)
  \/ (level = "hard" /\ score = 100%Z)
  \/ (~ Tracker.is_level level /\ score = 30%Z).
Proof.
  cbv zeta. unfold level_weights, Tracker.is_level.
  rewrite !lookup_insert, lookup_empty.
  repeat case_decide; subst; cbn; intuition congruence.
Qed.

Lemma level_score_in_table (level : string) :
  Tracker.is_level level ->
  In (level, default 30%Z (level_weights !! level)) level_table.
Proof.
  intros [-> | [-> | ->]]; cbn; auto.
Qed.

Lemma technical_average_bounds (scores : list Z) :
  Forall (fun s => 0 <= s <= 100)%Z scores ->
  0 <= technical_average scores <= 100.
Proof.
  intros Hs. destruct scores as [|s rest]; cbn [technical_average].
  - lra.
  - apply mean_bounds; [discriminate | exact Hs].
Qed.

Lemma blend_60_40_bounds (level_score : Z) (avg : Q) :
  (30 <= level_score <= 100)%Z -> 0 <= avg <= 100 ->
  18 <= blend_60_40 level_score avg <= 100.
Proof.
  intros [Hlo Hhi] Havg. unfold blend_60_40.
  rewrite Zle_Qle in Hlo, Hhi.
  change (inject_Z 30) with 30 in Hlo. change (inject_Z 100) with 100 in Hhi.
  lra.
Qed.


(** The fields of the evaluation, one equation each. *)
Lemma final_evaluation_fields (stats : option Proctoring.stats) (st : t) :
  let r := fst (calculate_final_evaluation stats st) in
  let avg := technical_average (technical_scores st) in
  let base := blend_60_40 (level_score r) avg in
  final_level r = current_level st
  /\ level_score r = default 30%Z (level_weights !! current_level st)
  /\ technical_score r = round1 avg
  /\ base_score r = round1 base
  /\ overall_score r
     = round1 (match stats with
               | Some d =>
                   if Proctoring.truthy d
                   then after_penalty base
                          (fst (_calculate_proctoring_penalty d))
                   else base
               | None => base
               end).
Proof.
  cbv zeta. unfold calculate_final_evaluation, technical_average, blend_60_40,
    after_penalty.
  destruct stats as [d|]; [destruct (Proctoring.truthy d)|];
    [destruct (_calculate_proctoring_penalty d) as [p d']| |];
    cbn [fst final_level level_score technical_score base_score overall_score];
    destruct (technical_scores st); repeat split; reflexivity.
Qed.

End FinalFacts.

Module FinalTheorems.

Import InterviewManager FinalSpec Num NumSpec NumFacts FinalFacts ManagerFacts
  Examples.

Local Open Scope Q_scope.

Section WithCollaborators.

Context {W : Type}.
Variable llm_ask : string -> W -> outcome (option string) * W.
Variable draw : W -> nat * W.

Lemma reachable_base_bounds st :
  reachable llm_ask draw st ->
  let level_score := default 30%Z (level_weights !! current_level st) in
  In (current_level st, level_score) level_table
  /\ 0 <= technical_average (technical_scores st) <= 100
  /\ 18 <= blend_60_40 level_score (technical_average (technical_scores st))
     <= 100.
Proof.
  intros Hreach. apply reachable_session_ok in Hreach as [Htr Hscores].
  apply TrackerFacts.reachable_is_level in Htr. cbv zeta.
  pose proof (technical_average_bounds _ Hscores) as Havg.
  split; [now apply level_score_in_table|].
  split; [exact Havg|].
  apply blend_60_40_bounds; [|exact Havg].
  unfold current_level.
  destruct Htr as [-> | [-> | ->]]; vm_compute; split; discriminate.
Qed.


(** C6. In a reachable session every recorded technical score is between 0
    and 100, and the overall score that [calculate_final_evaluation] reports
    is between 0 and 100, whatever statistics are passed. *)
Theorem overall_score_bounds (stats : option Proctoring.stats) (st : t) :
  reachable llm_ask draw st ->
  Forall (fun s => 0 <= s <= 100)%Z (technical_scores st)
  /\ 0 <= overall_score (fst (calculate_final_evaluation stats st))
  /\ overall_score (fst (calculate_final_evaluation stats st)) <= 100.
Proof.
  intros Hreach.
  split; [exact (proj2 (reachable_session_ok llm_ask draw st Hreach))|].
  destruct (final_evaluation_fields stats st) as (_ & Hls & _ & _ & Ho).
  cbv zeta in Hls, Ho.
  destruct (reachable_base_bounds st Hreach) as (_ & _ & Hbase).
  cbv zeta in Hbase. rewrite Ho, Hls.
  change 0 with (inject_Z 0). change 100 with (inject_Z 100).
  apply round1_between;
    change (inject_Z 0) with 0; change (inject_Z 100) with 100.
  - destruct stats as [d|]; [destruct (Proctoring.truthy d)|]; try lra.
    apply max0_nonneg.
  - destruct stats as [d|]; [destruct (Proctoring.truthy d)|]; try lra.
    apply max0_le; [lra|].
    pose proof (PenaltyFacts.manager_penalty_bounds d) as [Hp _].
    rewrite Zle_Qle in Hp. change (inject_Z 0) with 0 in Hp. lra.
Qed.

End WithCollaborators.

Lemma session_75_reachable : reachable (fixed_reply "75") no_draw session_75.
Proof. unfold session_75. repeat constructor. Qed.


Lemma overall_score_bounds_witness :
  reachable (fixed_reply "75") no_draw session_75
  /\ 0 <= overall_score
            (fst (calculate_final_evaluation
                    (Some (Proctoring.of_counts 2 0 0 0 0 0)) session_75))
  /\ overall_score
       (fst (calculate_final_evaluation
               (Some (Proctoring.of_counts 2 0 0 0 0 0)) session_75)) <= 100.
Proof.
  split; [exact session_75_reachable|].
  exact (proj2 (overall_score_bounds (fixed_reply "75") no_draw
                  (Some (Proctoring.of_counts 2 0 0 0 0 0)) session_75
                  session_75_reachable)).
Defined.

End FinalTheorems.

(** ** The scoring service *)

Module ServiceFacts.

Import ScoringService FinalSpec Num NumSpec NumFacts.

Local Open Scope Q_scope.

Lemma level_weight_spec (final_level : string) :
  default (3 # 10) (level_weights !! final_level) = service_weight final_level.
Proof.
  unfold level_weights, service_weight.
  rewrite !lookup_insert, lookup_empty.
  repeat case_decide; subst; try reflexivity;
    repeat match goal with
           | H : ?a <> ?b |- context [String.eqb ?b ?a] =>
               rewrite (String.eqb_sym b a), (proj2 (String.eqb_neq a b) H)
           end; reflexivity.
Qed.

(** The fields of the evaluation of a ledger with questions. *)
Lemma service_evaluation_fields (final_level : string)
    (stats : option Proctoring.stats) (st : t) :
  questions st <> [] ->
  let r := fst (fst (calculate_final_evaluation final_level stats st)) in
  let avg := calculate_current_average st in
  let base := blend_70_30 avg (service_weight final_level) in
  technical_avg r = round1 avg
  /\ overall_score r
     = round1 (match stats with
               | Some d =>
                   if Proctoring.truthy d
                   then after_penalty base
                          (fst (calculate_proctoring_penalty d))
                   else base
               | None => base
               end)
  /\ ScoringService.final_level r = final_level
  /\ total_questions r = Z.of_nat (length (questions st)).
Proof.
  intros Hq. cbv zeta.
  unfold calculate_final_evaluation, blend_70_30, after_penalty.
  rewrite level_weight_spec.
  destruct (questions st) as [|q rest] eqn:Hqs; [congruence|].
  destruct stats as [d|]; [destruct (Proctoring.truthy d)|];
    [destruct (calculate_proctoring_penalty d) as [p d']| |];
    cbn [fst snd technical_avg overall_score ScoringService.final_level
         total_questions questions];
    rewrite ?Hqs; repeat split; reflexivity.
Qed.





End ServiceFacts.

Module ServiceTheorems.

Import ScoringService FinalSpec Num NumSpec NumFacts ServiceFacts Examples.

Local Open Scope Q_scope.



(** C10. With no question in the ledger
    [ScoringService.calculate_final_evaluation] returns overall score 0,
    technical average 0, the given final level, no questions and empty
    penalty details, and changes neither the ledger nor the statistics dict,
    whatever level and statistics are passed; the interview manager with no
    recorded score reports the technical score 50 and a base score of at
    least 38. *)
Theorem empty_ledger_evaluation (final_level : string)
    (stats : option Proctoring.stats) (st : t) (manager : InterviewManager.t) :
  questions st = [] ->
  InterviewManager.technical_scores manager = [] ->
  calculate_final_evaluation final_level stats st
  = ({| overall_score := 0;
        technical_avg := 0;
        ScoringService.final_level := final_level;
        total_questions := 0;
        penalty_details := None;
        details := None |}, st, stats)
  /\ InterviewManager.technical_score
       (fst (InterviewManager.calculate_final_evaluation stats manager))
     == 50
  /\ 38 <= InterviewManager.base_score
             (fst (InterviewManager.calculate_final_evaluation stats manager)).
Proof.
  intros Hq Hm. split.
  - unfold calculate_final_evaluation. rewrite Hq. reflexivity.
  - destruct (FinalFacts.final_evaluation_fields stats manager)
      as (_ & Hls & Ht & Hb & _).
    cbv zeta in Hls, Ht, Hb. rewrite Ht, Hb, Hls, Hm.
    cbn [technical_average]. split; [vm_compute; reflexivity|].
    change 38 with (inject_Z 38).
    refine (proj1 (round1_between _ 38 80 _ _));
      change (inject_Z 38) with 38; change (inject_Z 80) with 80;
      unfold blend_60_40;
      destruct (FinalFacts.level_score_cases
                  (InterviewManager.current_level manager))
        as [[_ ->] | [[_ ->] | [[_ ->] | [_ ->]]]];
      vm_compute; discriminate.
Qed.

(** The empty ledger and a new interview manager. *)
Lemma empty_ledger_evaluation_witness :
  questions init = []
  /\ InterviewManager.technical_scores (InterviewManager.init "Data Scientist" "Ada") = []
  /\ fst (fst (calculate_final_evaluation "hard"
                 (Some (Proctoring.of_counts 9 9 9 9 9 9)) init))
     = {| overall_score := 0;
          technical_avg := 0;
          ScoringService.final_level := "hard";
          total_questions := 0;
          penalty_details := None;
          details := None |}.
Proof.
  split; [reflexivity|]. split; [reflexivity|].
  exact (f_equal (fun x => fst (fst x))
           (proj1 (empty_ledger_evaluation "hard"
                     (Some (Proctoring.of_counts 9 9 9 9 9 9)) init
                     (InterviewManager.init "Data Scientist" "Ada")
                     eq_refl eq_refl))).
Defined.

End ServiceTheorems.

(** ** The interview manager on top of [LLMRunner] *)

Module DeployedFacts.

Import InterviewManager Deployed.


Lemma llm_ask_exhausted m prompt w :
  (forall n, m n prompt = LLMRunner.Fails) ->
  fst (llm_ask m prompt w) = Returned (Some LLMRunner.fallback_text).
Proof.
  intros Hm. unfold llm_ask.
  rewrite LLMRunnerFacts.ask_exhausted by apply Hm. reflexivity.
Qed.

(** When the model raises on every attempt,
    [get_next_question_without_answer] hands the fixed text of [LLMRunner]
    on as the next question. *)
Lemma skip_on_exhaustion m rng current_question st w level_context :
  Config.level_context (prompts st) !! current_level st = Some level_context ->
  (forall n prompt, m n prompt = LLMRunner.Fails) ->
  fst (fst (get_next_question_without_answer (llm_ask m) (draw rng)
              current_question st w))
  = Returned LLMRunner.fallback_text.
Proof.
  intros Hlevel Hm. unfold get_next_question_without_answer.
  rewrite Hlevel.
  pose proof (llm_ask_exhausted m
                (skip_prompt (job_role st) (current_level st) current_question
                   (if Text.truthy (last_answer st) then last_answer st
                    else "The candidate did not provide a clear answer."))
                w (fun n => Hm n _)) as Hask.
  cbv zeta.
  destruct (llm_ask m _ w) as [r w1]. cbn [fst] in Hask. subst r.
  change (Text.strip LLMRunner.fallback_text) with LLMRunner.fallback_text.
  change (Text.contains "QUESTION:" LLMRunner.fallback_text) with false.
  cbv iota.
  change (Text.len LLMRunner.fallback_text) with 33.
  reflexivity.
Qed.

Lemma level_questions_length st : length (level_questions st) = 3%nat.
Proof.
  unfold level_questions, fallback_questions.
  rewrite !lookup_insert, ?lookup_empty.
  repeat case_decide; first [reflexivity | congruence].
Qed.

(** A fallback question is one of the questions of the current level. *)
Lemma fallback_question_of_level {W : Type} (draw : W -> nat * W) st w :
  In (fst (_generate_fallback_question draw st w)) (level_questions st).
Proof.
  unfold _generate_fallback_question, random_choice.
  fold (level_questions st).
  destruct (draw w) as [i w']. cbn [fst].
  apply nth_In. rewrite level_questions_length.
  apply Nat.mod_upper_bound. discriminate.
Qed.

(** When the model raises on every attempt,
    [analyze_answer_and_generate_question] asks a fallback question of the
    current level. *)
Lemma analyze_on_exhaustion m rng question answer st w level_context :
  Config.level_context (prompts st) !! current_level st = Some level_context ->
  (forall n prompt, m n prompt = LLMRunner.Fails) ->
  exists next_question,
    fst (fst (analyze_answer_and_generate_question (llm_ask m) (draw rng)
                question answer st w))
    = Returned ("Answer received. Continuing interview.", next_question)
    /\ In next_question (level_questions st).
Proof.
  intros Hlevel Hm. unfold analyze_answer_and_generate_question.
  cbv zeta. unfold current_level in *.
  cbn [prompts set_last set_context tracker]. rewrite Hlevel.
  match goal with
  | |- context [llm_ask m ?p w] =>
      pose proof (llm_ask_exhausted m p w (fun n => Hm n _)) as Hask;
      destruct (llm_ask m p w) as [r w1]
  end.
  cbn [fst] in Hask. subst r.
  change (Text.contains "ANALYSIS:" LLMRunner.fallback_text) with false.
  cbn [andb].
  change (List.filter Text.truthy
            (map Text.strip (Text.split nl LLMRunner.fallback_text)))
    with [LLMRunner.fallback_text].
  cbv iota.
  match goal with
  | |- context [_generate_fallback_question (draw rng) ?st1 w1] =>
      pose proof (fallback_question_of_level (draw rng) st1 w1) as Hin;
      destruct (_generate_fallback_question (draw rng) st1 w1) as [q w2]
  end.
  exists q. split; [reflexivity|]. exact Hin.
Qed.

(** The fixed text of [LLMRunner] is no fallback question, whatever the job
    role and the level. *)
Lemma fallback_text_not_a_question st :
  ~ In LLMRunner.fallback_text (level_questions st).
Proof.
  unfold level_questions, fallback_questions.
  rewrite !lookup_insert, ?lookup_empty.
  repeat case_decide; try congruence; cbn [default In];
    intros Hin; repeat destruct Hin as [Hin | Hin]; try contradiction;
    apply (f_equal Text.head_char) in Hin; vm_compute in Hin;
    discriminate Hin.
Qed.

(** C9. The retry loop of [LLMRunner.generate_text] lets no failure of the
    model through: when every attempt raises, [ask] returns its fixed text
    after three calls.  In a session that has asked its opening question
    [analyze_answer_and_generate_question] then asks a fallback question of
    the level, but [get_next_question_without_answer] returns the fixed text
    itself as the next question, and that text is none of the fallback
    questions. *)
Theorem skipped_turn_returns_fixed_text :
  (forall prompt w,
      LLMRunner.ask always_fails prompt w
      = (Some LLMRunner.fallback_text,
         {| LLMRunner.calls := S (S (S (LLMRunner.calls w)));
            LLMRunner.slept := LLMRunner.slept w + 2 + 2 |}))
  /\ fst (fst (get_next_question_without_answer (llm_ask always_fails)
                 (draw (fun _ => 0%nat)) "Tell me about a project." opened
                 start))
     = Returned LLMRunner.fallback_text
  /\ in_pool "Software Engineer" LLMRunner.fallback_text = false
  /\ (exists next_question,
        fst (fst (analyze_answer_and_generate_question (llm_ask always_fails)
                    (draw (fun _ => 0%nat)) "Tell me about a project."
                    "I built a parser." opened start))
        = Returned ("Answer received. Continuing interview.", next_question)
        /\ in_pool "Software Engineer" next_question = true).
Proof.
  split; [intros; now apply LLMRunnerFacts.ask_exhausted|].
  split; [vm_compute; reflexivity|].
  split; [vm_compute; reflexivity|].
  eexists. split; vm_compute; reflexivity.
Qed.

End DeployedFacts.

(** ** Runs of the embedding on sample inputs *)

Module Checks.

Import Examples.

Local Open Scope Q_scope.

Example findall_fraction :
  Text.findall_score "Score: 85/100" = ["85"; "100"].
Proof. reflexivity. Qed.

Example findall_needs_boundaries :
  Text.findall_score "1234 12a a12 7" = ["7"].
Proof. reflexivity. Qed.

Example findall_sign_and_point :
  Text.findall_score "-5 12.5 1000 999" = ["5"; "12"; "5"; "999"].
Proof. reflexivity. Qed.

Example split_on_question :
  Text.split "QUESTION:" "ANALYSIS: x QUESTION: a QUESTION: b"
  = ["ANALYSIS: x "; " a "; " b"].
Proof. reflexivity. Qed.

Example split_words : Text.split_ws "  a b   cc " = ["a"; "b"; "cc"].
Proof. reflexivity. Qed.

Example strip_blank : Text.strip "   " = "".
Proof. reflexivity. Qed.

Example replace_all :
  Text.replace "ANALYSIS:" "" "ANALYSIS: x ANALYSIS:y" = " x y".
Proof. reflexivity. Qed.

Example round1_ties_to_even :
  Num.round1 (1 # 4) == 2 # 10 /\ Num.round1 (3 # 4) == 8 # 10.
Proof. repeat split; vm_compute; reflexivity. Qed.

Example score_over_100_is_cut :
  fst (InterviewManager.evaluate_answer_quality (fixed_reply "I give 250.")
         "an answer" "a question" session_75 tt) = 100%Z.
Proof. vm_compute. reflexivity. Qed.

Example four_digits_are_no_score :
  fst (InterviewManager.evaluate_answer_quality (fixed_reply "1000")
         "an answer" "a question" session_75 tt) = 45%Z.
Proof. vm_compute. reflexivity. Qed.

Example penalty_line_items :
  snd (Proctoring.penalty_body (Proctoring.of_counts 15 1 0 0 20 0))
  = ["Tab switches: 15 (-20 points)";
     "Multiple people detected: 1 times (-15 points)";
     "No face detected: 20 times (-15 points)"].
Proof. vm_compute. reflexivity. Qed.

(** Nine answers scored 75 for [software_engineer]: the level ends at hard,
    and without proctoring events the overall score is 90. *)
Example nine_answers_of_75 :
  let r :=
    fst (InterviewManager.calculate_final_evaluation
           (Some (Proctoring.of_counts 0 0 0 0 0 0)) session_9x75) in
  InterviewManager.final_level r = "hard"
  /\ InterviewManager.fe_level_progression r = ["easy"; "medium"; "hard"]
  /\ InterviewManager.level_score r = 100%Z
  /\ InterviewManager.technical_score r == 75
  /\ InterviewManager.base_score r == 90
  /\ InterviewManager.overall_score r == 90
  /\ InterviewManager.questions_answered r = 9%Z
  /\ InterviewManager.total_questions r = 10%Z.
Proof. vm_compute. repeat split; reflexivity. Qed.

End Checks.

(** * Further properties *)

(** ** Streaks, levels and the progression *)

Module TrackerMore.

Import Tracker TrackerFacts TrackerShape.

Lemma step_streak_fits_level st s :
  is_level (current_level st) -> streak_fits_level st ->
  streak_fits_level (step st s).
Proof.
  destruct st as [l q cc ci lp sl sp sc si].
  unfold streak_fits_level, is_level, step, determine_next_level,
    should_promote_level, should_demote_level.
  cbn [current_level consecutive_correct consecutive_incorrect].
  intros Hl (H2c & H3c & H2i & H3i).
  destruct (60 <=? s) eqn:Hs; unfold update_counts; rewrite ?Hs;
    destruct Hl as [-> | [-> | ->]]; run_step;
    repeat match goal with
           | H : (_ <=? _) = true |- _ => apply Z.leb_le in H
           | H : (_ <=? _) = false |- _ => apply Z.leb_gt in H
           end;
    repeat split; intros; try discriminate; try reflexivity; try lia;
    exfalso;
    first [ apply H2c; [lia | reflexivity]
          | apply H2i; [lia | reflexivity]
          | (assert ("easy" = "hard") by (apply H3c; lia); discriminate)
          | (assert ("medium" = "hard") by (apply H3c; lia); discriminate)
          | (assert ("hard" = "easy") by (apply H3i; lia); discriminate)
          | (assert ("medium" = "easy") by (apply H3i; lia); discriminate) ].
Qed.

Lemma reachable_streak_fits_level st :
  reachable st -> streak_fits_level st.
Proof.
  induction 1 as [|st s Hreach IH].
  - unfold streak_fits_level. cbn. repeat split; intros; lia.
  - apply step_streak_fits_level; [now apply reachable_is_level | exact IH].
Qed.

Lemma reachable_counters_nonneg st : reachable st -> counters_nonneg st.
Proof.
  induction 1 as [|st s Hreach IH].
  - split; cbn; lia.
  - exact (proj2 (step_streaks_exclusive st s IH)).
Qed.

(** X1. In every reachable tracker a correct streak of two or more is not at
    easy and one of three or more is at hard; an incorrect streak of two or
    more is not at hard and one of three or more is at easy. *)
Theorem streak_bounds_level (st : t) :
  reachable st ->
  (2 <= consecutive_correct st -> current_level st <> "easy")
  /\ (3 <= consecutive_correct st -> current_level st = "hard")
  /\ (2 <= consecutive_incorrect st -> current_level st <> "hard")
  /\ (3 <= consecutive_incorrect st -> current_level st = "easy").
Proof. exact (reachable_streak_fits_level st). Qed.

(** After two passing scores the tracker is not at easy any more. *)
Lemma streak_bounds_level_witness :
  reachable (step (step init 60) 90)
  /\ current_level (step (step init 60) 90) <> "easy".
Proof.
  assert (Hr : reachable (step (step init 60) 90)) by (repeat constructor).
  split; [exact Hr|].
  apply (proj1 (streak_bounds_level _ Hr)). vm_compute. discriminate.
Defined.

(** X2. From any reachable tracker three passing scores in a row end at
    hard, and three failing scores in a row end at easy. *)
Theorem three_in_a_row (st : t) (s1 s2 s3 : Z) :
  reachable st ->
  (60 <= s1 -> 60 <= s2 -> 60 <= s3 ->
   current_level (step (step (step st s1) s2) s3) = "hard")
  /\ (s1 < 60 -> s2 < 60 -> s3 < 60 ->
      current_level (step (step (step st s1) s2) s3) = "easy").
Proof.
  intros Hreach.
  pose proof (reachable_counters_nonneg st Hreach) as [Hc Hi].
  assert (Hr3 : reachable (step (step (step st s1) s2) s3))
    by (repeat constructor; exact Hreach).
  destruct (reachable_streak_fits_level _ Hr3) as (_ & H3c & _ & H3i).
  destruct (step_counters (step (step st s1) s2) s3) as [E3c E3i].
  destruct (step_counters (step st s1) s2) as [E2c E2i].
  destruct (step_counters st s1) as [E1c E1i].
  split; intros H1 H2 H3.
  - apply H3c. rewrite E3c, E2c, E1c.
    rewrite !(proj2 (Z.leb_le 60 _)) by assumption. lia.
  - apply H3i. rewrite E3i, E2i, E1i.
    rewrite !(proj2 (Z.leb_gt 60 _)) by assumption. lia.
Qed.

Lemma three_in_a_row_witness :
  reachable init
  /\ current_level (step (step (step init 61) 75) 100) = "hard".
Proof.
  split; [constructor|].
  apply (proj1 (three_in_a_row init 61 75 100 reachable_init)); lia.
Defined.

(** X3. At hard a passing score, and at easy a failing score, changes
    neither the level nor the progression, whatever the counters are. *)
Theorem level_saturates (st : t) (s : Z) :
  (current_level st = "hard" -> 60 <= s ->
   current_level (step st s) = "hard"
   /\ level_progression (step st s) = level_progression st)
  /\ (current_level st = "easy" -> s < 60 ->
      current_level (step st s) = "easy"
      /\ level_progression (step st s) = level_progression st).
Proof.
  destruct st as [l q cc ci lp sl sp sc si].
  unfold step, determine_next_level, should_promote_level, should_demote_level.
  cbn [current_level level_progression].
  split; intros -> Hs.
  - apply Z.leb_le in Hs. unfold update_counts. rewrite Hs. run_step;
      first [split; reflexivity | discriminate].
  - apply Z.leb_gt in Hs. unfold update_counts. rewrite Hs. run_step;
      first [split; reflexivity | discriminate].
Qed.

Lemma level_saturates_witness :
  current_level init = "easy" /\ 12 < 60
  /\ level_progression (step init 12) = level_progression init.
Proof.
  split; [reflexivity|]. split; [lia|].
  apply (proj2 (level_saturates init 12)); [reflexivity | lia].
Defined.

(** The level moves one step or not at all. *)
Lemma step_adjacent st s :
  is_level (current_level st) ->
  adjacent (current_level st) (current_level (step st s))
  \/ current_level (step st s) = current_level st.
Proof.
  destruct st as [l q cc ci lp sl sp sc si].
  unfold is_level, adjacent, promoted, demoted, step, determine_next_level,
    should_promote_level, should_demote_level.
  cbn [current_level].
  intros Hl.
  destruct (60 <=? s) eqn:Hs; unfold update_counts; rewrite ?Hs;
    destruct Hl as [-> | [-> | ->]]; run_step; auto 7.
Qed.

Lemma last_snoc {A : Type} (l : list A) (x d : A) : List.last (l ++ [x]) d = x.
Proof.
  induction l as [|a l IH]; [reflexivity|].
  cbn [app]. destruct (l ++ [x]) eqn:E; [destruct l; discriminate|].
  cbn [List.last]. exact IH.
Qed.

Lemma chain_snoc (l : list string) (x : string) :
  chain l -> adjacent (List.last l "") x -> l <> [] -> chain (l ++ [x]).
Proof.
  induction l as [|a l IH]; [congruence|].
  intros Hc Hadj _. destruct l as [|b l].
  - cbn in *. auto.
  - cbn [app chain] in *. destruct Hc as [Hab Hc].
    split; [exact Hab|]. apply IH; [exact Hc | exact Hadj | discriminate].
Qed.

Lemma step_progression_ok st s :
  is_level (current_level st) -> progression_ok st ->
  progression_ok (step st s).
Proof.
  intros Hl (Hhd & Hlast & Hchain). unfold progression_ok.
  rewrite step_progression.
  destruct (step_adjacent st s Hl) as [Hadj | Hsame].
  - destruct (String.eqb_spec (current_level (step st s)) (current_level st))
      as [E | _].
    + repeat split; auto. now rewrite E.
    + assert (Hne : level_progression st <> [])
        by (intros E; rewrite E in Hhd; discriminate).
      repeat split.
      * destruct (level_progression st); [congruence | exact Hhd].
      * apply last_snoc.
      * apply chain_snoc; [exact Hchain | now rewrite Hlast | exact Hne].
  - rewrite Hsame, String.eqb_refl. repeat split; auto.
Qed.

Lemma reachable_progression_ok st : reachable st -> progression_ok st.
Proof.
  induction 1 as [|st s Hreach IH].
  - repeat split.
  - apply step_progression_ok; [now apply reachable_is_level | exact IH].
Qed.

(** X4. In every reachable tracker the level progression starts with easy,
    ends with the current level, and any two neighbours in it are one step
    apart on the scale easy, medium, hard. *)
Theorem progression_is_a_walk (st : t) :
  reachable st ->
  hd_error (level_progression st) = Some "easy"
  /\ List.last (level_progression st) "" = current_level st
  /\ chain (level_progression st).
Proof. exact (reachable_progression_ok st). Qed.

Lemma progression_is_a_walk_witness :
  reachable (step (step (step (step init 70) 70) 10) 10)
  /\ List.last (level_progression (step (step (step (step init 70) 70) 10) 10)) ""
     = current_level (step (step (step (step init 70) 70) 10) 10).
Proof.
  assert (Hr : reachable (step (step (step (step init 70) 70) 10) 10))
    by (repeat constructor).
  split; [exact Hr|].
  exact (proj1 (proj2 (progression_is_a_walk _ Hr))).
Defined.

Lemma step_mirrored st s :
  sd_level_progression st = level_progression st -> mirrored (step st s).
Proof.
  destruct st as [l q cc ci lp sl sp sc si].
  unfold mirrored, step, determine_next_level, should_promote_level,
    should_demote_level.
  cbn [sd_level_progression level_progression]. intros ->.
  destruct (60 <=? s) eqn:Hs; unfold update_counts; rewrite ?Hs;
    cbn [current_level consecutive_correct consecutive_incorrect];
    repeat match goal with
           | |- context [if ?b then _ else _] => destruct b
           end;
    cbn; repeat split; reflexivity.
Qed.

(** X5. In every reachable tracker the entries of [session_data] for the
    level, both streak counters and the progression equal the attributes of
    the manager. *)
Theorem session_data_mirrors_tracker (st : t) :
  reachable st ->
  sd_current_level st = current_level st
  /\ sd_consecutive_correct st = consecutive_correct st
  /\ sd_consecutive_incorrect st = consecutive_incorrect st
  /\ sd_level_progression st = level_progression st.
Proof.
  induction 1 as [|st s Hreach IH].
  - repeat split.
  - apply step_mirrored. exact (proj2 (proj2 (proj2 IH))).
Qed.

Lemma session_data_mirrors_tracker_witness :
  reachable (step (step init 70) 70)
  /\ sd_level_progression (step (step init 70) 70) = ["easy"; "medium"].
Proof.
  assert (Hr : reachable (step (step init 70) 70)) by (repeat constructor).
  split; [exact Hr|].
  rewrite (proj2 (proj2 (proj2 (session_data_mirrors_tracker _ Hr)))).
  reflexivity.
Defined.

End TrackerMore.

(** ** The retry loop of [LLMRunner] *)

Module RetryMore.

Import LLMRunner RetrySpec.


Lemma generate_text_loop_decides m prompt max_retries n : forall k w,
  (0 < n)%nat -> Z.of_nat (k + n) = max_retries ->
  exists s w' j,
    generate_text_loop m prompt max_retries (map Z.of_nat (seq k n)) w
      = (Some s, w')
    /\ (j < n)%nat
    /\ calls w' = (calls w + j + 1)%nat
    /\ slept w' = slept w + 2 * Z.of_nat j
    /\ (forall i, (i < j)%nat -> m (calls w + i)%nat prompt = Fails)
    /\ decided_by m prompt max_retries (calls w + j)%nat (k + j) s.
Proof.
  induction n as [|n IH]; intros k w Hn Hmax; [lia|].
  cbn [seq map generate_text_loop].
  destruct (m (calls w) prompt) as [[text|]|] eqn:Hm.
  - destruct (Text.truthy text) eqn:Htext.
    + exists (Text.strip text), (tick w), 0%nat.
      rewrite !Nat.add_0_r. cbn [calls slept tick].
      repeat split; try lia.
      left. exists text. auto.
    + exists fallback_text, (tick w), 0%nat.
      rewrite !Nat.add_0_r. cbn [calls slept tick].
      repeat split; try lia.
      right; left. split; [|reflexivity]. right.
      destruct text; [exact Hm | discriminate].
  - exists fallback_text, (tick w), 0%nat.
    rewrite !Nat.add_0_r. cbn [calls slept tick].
    repeat split; try lia.
    right; left. auto.
  - destruct (Z.of_nat k <? max_retries - 1) eqn:Hlast.
    + apply Z.ltb_lt in Hlast.
      destruct (IH (S k) (sleep 2 (tick w)) ltac:(lia) ltac:(lia))
        as (s & w' & j & Hrun & Hj & Hcalls & Hslept & Hfails & Hdec).
      cbn [calls slept sleep tick] in *.
      exists s, w', (S j). split; [exact Hrun|].
      split; [lia|]. split; [lia|]. split; [lia|].
      split.
      * intros [|i] Hi; [now rewrite Nat.add_0_r|].
        replace (calls w + S i)%nat with (S (calls w) + i)%nat by lia.
        apply Hfails. lia.
      * replace (calls w + S j)%nat with (S (calls w) + j)%nat by lia.
        replace (k + S j)%nat with (S k + j)%nat by lia. exact Hdec.
    + apply Z.ltb_ge in Hlast.
      exists fallback_text, (tick w), 0%nat.
      rewrite !Nat.add_0_r. cbn [calls slept tick].
      repeat split; try lia.
      right; right. repeat split; auto. lia.
Qed.

(** X6. With [max_retries >= 1], [generate_text] returns a string: the
    attempts before the deciding one [j] all raised, each followed by two
    seconds of sleep; attempt [j < max_retries] either gave a non-empty text
    (returned stripped), or an empty or missing text (the fixed text is
    returned at once, without a retry), or was the last attempt allowed and
    raised (the fixed text again).  The model is called [j + 1] times. *)
Theorem generate_text_first_reply_decides (m : model) (prompt : string)
    (max_retries : Z) (w : world) :
  1 <= max_retries ->
  exists s w' j,
    generate_text m prompt max_retries w = (Some s, w')
    /\ Z.of_nat j < max_retries
    /\ calls w' = (calls w + j + 1)%nat
    /\ slept w' = slept w + 2 * Z.of_nat j
    /\ (forall i, (i < j)%nat -> m (calls w + i)%nat prompt = Fails)
    /\ decided_by m prompt max_retries (calls w + j)%nat j s.
Proof.
  intros Hmax. unfold generate_text, range.
  destruct (generate_text_loop_decides m prompt max_retries
              (Z.to_nat max_retries) 0 w ltac:(lia) ltac:(lia))
    as (s & w' & j & Hrun & Hj & Hrest).
  exists s, w', j. split; [exact Hrun|]. split; [lia|]. exact Hrest.
Qed.


Lemma generate_text_first_reply_decides_witness :
  1 <= 3
  /\ exists s w' j,
       generate_text second_try "p" 3 {| calls := 0; slept := 0 |} = (Some s, w')
       /\ Z.of_nat j < 3
       /\ calls w' = (0 + j + 1)%nat
       /\ slept w' = 0 + 2 * Z.of_nat j
       /\ (forall i, (i < j)%nat -> second_try (0 + i)%nat "p" = Fails)
       /\ decided_by second_try "p" 3 (0 + j)%nat j s.
Proof.
  split; [lia|].
  apply (generate_text_first_reply_decides second_try "p" 3
           {| calls := 0; slept := 0 |}). lia.
Defined.

(** X7. With [max_retries <= 0] the loop has no turn: [generate_text]
    returns [None] without calling the model or sleeping. *)
Theorem generate_text_without_attempts (m : model) (prompt : string)
    (max_retries : Z) (w : world) :
  max_retries <= 0 ->
  generate_text m prompt max_retries w = (None, w).
Proof.
  intros Hmax. unfold generate_text, range.
  replace (Z.to_nat max_retries) with 0%nat by lia. reflexivity.
Qed.

Lemma generate_text_without_attempts_witness :
  0 <= 0
  /\ generate_text Deployed.always_fails "p" 0 {| calls := 0; slept := 0 |}
     = (None, {| calls := 0; slept := 0 |}).
Proof.
  split; [lia|].
  apply (generate_text_without_attempts Deployed.always_fails "p" 0). lia.
Defined.

(** X8. A text of white space only is not empty, so it is returned stripped:
    [generate_text] can return the empty string. *)
Theorem generate_text_blank_reply (m : model) (prompt text : string)
    (w : world) :
  m (calls w) prompt = Reply (Some text) ->
  text <> "" -> Text.all_chars Text.is_space text = true ->
  generate_text m prompt 3 w = (Some "", tick w).
Proof.
  intros Hm Hne Hblank. unfold generate_text.
  change (range 3) with [0; 1; 2]. cbn [generate_text_loop]. rewrite Hm.
  destruct text as [|c text]; [congruence|]. cbn [Text.truthy].
  do 2 f_equal. unfold Text.strip.
  assert (Hl : forall s, Text.all_chars Text.is_space s = true ->
                         Text.lstrip s = "").
  { induction s as [|a s IH]; [reflexivity|].
    cbn [Text.all_chars Text.lstrip]. intros Ha.
    apply andb_true_iff in Ha as [-> Hs]. auto. }
  now rewrite Hl.
Qed.


Lemma generate_text_blank_reply_witness :
  generate_text blank_model "p" 3 {| calls := 0; slept := 0 |}
  = (Some "", {| calls := 1; slept := 0 |}).
Proof.
  apply (generate_text_blank_reply blank_model "p" "   ");
    [reflexivity | discriminate | reflexivity].
Defined.

End RetryMore.

(** ** Turns of the interview manager *)

Module ManagerMore.

Import InterviewManager ManagerFacts SessionShape.

Lemma config_prompts_levels key level :
  Tracker.is_level level ->
  is_Some (Config.level_context
             (default Config.default_prompts (Config.JOB_ROLE_PROMPTS !! key))
           !! level).
Proof.
  intros Hl. unfold Config.JOB_ROLE_PROMPTS.
  rewrite !lookup_insert, lookup_empty.
  repeat case_decide; cbn [default];
    destruct Hl as [-> | [-> | ->]]; eexists; vm_compute; reflexivity.
Qed.

Lemma length_append (s t : string) :
  String.length (s +:+ t) = (String.length s + String.length t)%nat.
Proof.
  induction s as [|c s IH]; [reflexivity|].
  rewrite TokenFacts.append_cons. cbn [String.length]. now rewrite IH.
Qed.

(** Every fallback question has at least ten characters. *)
Lemma level_questions_long st question :
  In question (Deployed.level_questions st) -> 10 <= Text.len question.
Proof.
  unfold Deployed.level_questions, fallback_questions.
  rewrite !lookup_insert, ?lookup_empty.
  repeat case_decide; try congruence; cbn [default In];
    intros Hin; repeat destruct Hin as [Hin | Hin]; try contradiction;
    subst question; unfold Text.len; rewrite !length_append;
    cbn [String.length]; lia.
Qed.

Section WithCollaborators.

Context {W : Type}.
Variable llm_ask : string -> W -> outcome (option string) * W.
Variable draw : W -> nat * W.

Lemma analyze_same_records question answer st w :
  same_records st
    (snd (fst (analyze_answer_and_generate_question llm_ask draw question
                 answer st w))).
Proof.
  unfold analyze_answer_and_generate_question, analysis_done, same_records.
  split_matches; cbn; auto 6.
Qed.

(** With a context for the level, the analysis returns. *)
Lemma analyze_returns question answer st w level_context :
  Config.level_context (prompts st) !! current_level st = Some level_context ->
  exists analysis next_question,
    fst (fst (analyze_answer_and_generate_question llm_ask draw question
                answer st w))
    = Returned (analysis, next_question).
Proof.
  intros Hlevel. unfold analyze_answer_and_generate_question, analysis_done.
  cbv zeta. unfold current_level in *.
  cbn [prompts set_last set_context tracker]. rewrite Hlevel.
  split_matches; cbn [fst]; eauto.
Qed.

Lemma reachable_prompts_ok st : reachable llm_ask draw st -> prompts_ok st.
Proof.
  induction 1 as [job candidate | st _ IH
                 | st question answer w _ IH
                 | st current_question w _ IH].
  - intros level Hl. apply config_prompts_levels, Hl.
  - exact IH.
  - destruct (process_answer_scores llm_ask draw question answer st w)
      as (_ & _ & _ & Hp). cbv zeta in Hp.
    unfold prompts_ok. rewrite Hp. exact IH.
  - destruct (skip_same_scores llm_ask draw current_question st w)
      as (_ & _ & _ & Hp).
    unfold prompts_ok. rewrite Hp. exact IH.
Qed.

Lemma reachable_level_context st :
  reachable llm_ask draw st ->
  is_Some (Config.level_context (prompts st) !! current_level st).
Proof.
  intros Hreach. apply (reachable_prompts_ok st Hreach).
  apply TrackerFacts.reachable_is_level.
  exact (proj1 (reachable_session_ok llm_ask draw st Hreach)).
Qed.

(** What [process_answer] does to a session whose prompts have a context
    for every level. *)
Lemma process_answer_turn question answer st w :
  prompts_ok st -> Tracker.is_level (current_level st) ->
  exists record next_question,
    fst (fst (process_answer llm_ask draw question answer st w))
    = Returned (record, next_question)
    /\ (let st' := snd (fst (process_answer llm_ask draw question answer st w)) in
        qa_question record = question
        /\ qa_answer record = answer
        /\ qa_next_question record = next_question
        /\ qa_technical_score record
           = fst (evaluate_answer_quality llm_ask answer question st w)
        /\ qa_level record = current_level st'
        /\ questions_asked st' = questions_asked st ++ [next_question]
        /\ candidate_answers st' = candidate_answers st ++ [record]
        /\ answer_analysis st' = answer_analysis st ++ [qa_analysis record]
        /\ technical_scores st'
           = technical_scores st ++ [qa_technical_score record]
        /\ current_question_index st' = current_question_index st + 1
        /\ conversation_history st'
           = conversation_history st
             ++ [("Candidate", answer); ("AI Interviewer", next_question)]).
Proof.
  intros Hprompts Hlevel. unfold process_answer.
  destruct (evaluate_answer_quality llm_ask answer question st w)
    as [score w1].
  cbn [fst].
  destruct (Tracker.determine_next_level score (tracker (add_score score st)))
    as [next_level tr] eqn:Hnext.
  set (st1 := set_tracker tr (add_score score st)).
  assert (Htr : tr = Tracker.step (tracker st) score)
    by (unfold Tracker.step; cbn [tracker add_score] in Hnext;
        now rewrite Hnext).
  assert (Hnl : next_level = Tracker.current_level tr).
  { cbn [tracker add_score] in Hnext.
    unfold Tracker.determine_next_level in Hnext.
    injection Hnext as <- <-. reflexivity. }
  assert (Hl1 : Tracker.is_level (current_level st1)).
  { unfold current_level, st1. cbn [tracker set_tracker]. rewrite Htr.
    apply TrackerFacts.step_is_level, Hlevel. }
  destruct (Hprompts _ Hl1) as [lc Hlc].
  destruct (analyze_returns question answer st1 w1 lc Hlc)
    as (analysis & next_question & Hret).
  pose proof (analyze_same_records question answer st1 w1)
    as (Hq & Ha & Hi & Han & Hh).
  pose proof (analyze_same_scores llm_ask draw question answer st1 w1)
    as (Ht & Hs & _ & _).
  destruct (analyze_answer_and_generate_question llm_ask draw question answer
              st1 w1) as [[out st2] w2].
  cbn [fst snd] in *. subst out.
  eexists _, next_question. split; [reflexivity|].
  cbn [snd fst qa_question qa_answer qa_next_question qa_technical_score
       qa_level qa_analysis questions_asked candidate_answers answer_analysis
       technical_scores current_question_index conversation_history
       add_question add_answer].
  unfold current_level.
  cbn [tracker add_question add_answer].
  rewrite Hq, Ha, Hi, Han, Hh, Ht, Hs.
  unfold st1.
  cbn [tracker set_tracker add_score questions_asked candidate_answers
       answer_analysis technical_scores current_question_index
       conversation_history].
  repeat split; auto.
Qed.

Lemma skip_records current_question st w :
  let st' := snd (fst (get_next_question_without_answer llm_ask draw
                         current_question st w)) in
  candidate_answers st' = candidate_answers st
  /\ answer_analysis st' = answer_analysis st
  /\ ((questions_asked st' = questions_asked st
       /\ current_question_index st' = current_question_index st)
      \/ exists q, questions_asked st' = questions_asked st ++ [q]
                   /\ current_question_index st'
                      = current_question_index st + 1).
Proof.
  cbv zeta. unfold get_next_question_without_answer.
  split_matches; cbn; repeat split; eauto.
Qed.

Lemma reachable_records_ok st : reachable llm_ask draw st -> records_ok st.
Proof.
  induction 1 as [job candidate | st Hreach IH
                 | st question answer w Hreach IH
                 | st current_question w Hreach IH].
  - repeat split; cbn; lia.
  - destruct IH as (Hs & Ha & Hlen & Hidx).
    unfold records_ok. cbn. rewrite length_app. cbn. repeat split; auto; lia.
  - destruct IH as (Hs & Ha & Hlen & Hidx).
    pose proof (reachable_prompts_ok st Hreach) as Hp.
    pose proof (TrackerFacts.reachable_is_level _
                  (proj1 (reachable_session_ok llm_ask draw st Hreach))) as Hl.
    destruct (process_answer_turn question answer st w Hp Hl)
      as (record & next & _ & Hturn).
    cbv zeta in Hturn.
    destruct Hturn as (_ & _ & _ & _ & _ & Hq & Hc & Han & Hts & Hi & _).
    unfold records_ok. rewrite Hq, Hc, Han, Hts, Hi, !map_app, !length_app.
    cbn [map length]. rewrite Hs, Ha. repeat split; auto; lia.
  - destruct IH as (Hs & Ha & Hlen & Hidx).
    destruct (skip_records current_question st w) as (Hc & Han & Hq).
    destruct (skip_same_scores llm_ask draw current_question st w)
      as (_ & Hts & _).
    cbv zeta in Hc, Han, Hq. unfold records_ok.
    rewrite Hc, Han, Hts.
    destruct Hq as [[-> ->] | (q & -> & ->)];
      rewrite ?length_app; cbn [length]; repeat split; auto; lia.
Qed.

(** X9. In a reachable session [process_answer] does not raise, whatever
    the collaborator does.  It returns a record of the question, the answer,
    the score of [evaluate_answer_quality] and the level after the turn,
    together with the next question, and appends one question, one answer
    record, one analysis and one score, advances the question index by one
    and appends the answer and the next question to the history. *)
Theorem process_answer_completes_turn (question answer : string) (st : t)
    (w : W) :
  reachable llm_ask draw st ->
  exists record next_question,
    fst (fst (process_answer llm_ask draw question answer st w))
    = Returned (record, next_question)
    /\ (let st' := snd (fst (process_answer llm_ask draw question answer st w)) in
        qa_question record = question
        /\ qa_answer record = answer
        /\ qa_next_question record = next_question
        /\ qa_technical_score record
           = fst (evaluate_answer_quality llm_ask answer question st w)
        /\ qa_level record = current_level st'
        /\ questions_asked st' = questions_asked st ++ [next_question]
        /\ candidate_answers st' = candidate_answers st ++ [record]
        /\ answer_analysis st' = answer_analysis st ++ [qa_analysis record]
        /\ technical_scores st'
           = technical_scores st ++ [qa_technical_score record]
        /\ current_question_index st' = current_question_index st + 1
        /\ conversation_history st'
           = conversation_history st
             ++ [("Candidate", answer); ("AI Interviewer", next_question)]).
Proof.
  intros Hreach. apply process_answer_turn.
  - exact (reachable_prompts_ok st Hreach).
  - exact (TrackerFacts.reachable_is_level _
             (proj1 (reachable_session_ok llm_ask draw st Hreach))).
Qed.

(** X10. In every reachable session the recorded technical scores are the
    scores of the answer records, in order, and the recorded analyses their
    analyses; there are no more answer records than questions asked; and the
    question index lies between 0 and the number of questions asked. *)
Theorem session_records_fit (st : t) :
  reachable llm_ask draw st ->
  map qa_technical_score (candidate_answers st) = technical_scores st
  /\ map qa_analysis (candidate_answers st) = answer_analysis st
  /\ (length (candidate_answers st) <= length (questions_asked st))%nat
  /\ 0 <= current_question_index st
     <= Z.of_nat (length (questions_asked st)).
Proof. exact (reachable_records_ok st). Qed.

(** X11. A fallback question is one of the three questions of the current
    level (of easy, when the level has no entry of its own), whatever the
    random draw; it has at least ten characters. *)
Theorem fallback_question_from_level (st : t) (w : W) :
  let question := fst (_generate_fallback_question draw st w) in
  let table := fallback_questions (job_role st) in
  In question (default (default [] (table !! "easy"))
                       (table !! current_level st))
  /\ length (default (default [] (table !! "easy"))
                     (table !! current_level st)) = 3%nat
  /\ is_Some (table !! "easy")
  /\ is_Some (table !! "medium")
  /\ is_Some (table !! "hard")
  /\ 10 <= Text.len question.
Proof.
  cbv zeta.
  pose proof (DeployedFacts.fallback_question_of_level draw st w) as Hin.
  split; [exact Hin|].
  split; [exact (DeployedFacts.level_questions_length st)|].
  split; [eexists; vm_compute; reflexivity|].
  split; [unfold fallback_questions; rewrite lookup_insert_ne by discriminate;
          rewrite lookup_insert_eq; eauto|].
  split; [unfold fallback_questions;
          rewrite !lookup_insert_ne by discriminate;
          rewrite lookup_insert_eq; eauto|].
  exact (level_questions_long st _ Hin).
Qed.

(** X12. In a reachable session [get_next_question_without_answer] does not
    raise, whatever the collaborator does, and the question it returns has
    at least ten characters: it is a fallback question of the level, or a
    text of 10 to 500 characters. *)
Theorem skipped_turn_question_length (current_question : string) (st : t)
    (w : W) :
  reachable llm_ask draw st ->
  exists question,
    fst (fst (get_next_question_without_answer llm_ask draw current_question
                st w))
    = Returned question
    /\ 10 <= Text.len question
    /\ (In question (Deployed.level_questions st)
        \/ Text.len question <= 500).
Proof.
  intros Hreach.
  destruct (reachable_level_context st Hreach) as [lc Hlc].
  unfold get_next_question_without_answer. rewrite Hlc. cbv zeta.
  destruct (llm_ask _ w) as [[[response|]|] w1].
  - match goal with
    | |- context [if ?c then _generate_fallback_question draw st w1 else (?q, w1)] =>
        destruct c eqn:Hcheck; set (candidate := q) in *
    end.
    + pose proof (DeployedFacts.fallback_question_of_level draw st w1) as Hin.
      destruct (_generate_fallback_question draw st w1) as [q w2].
      cbn [fst] in *. exists q.
      split; [reflexivity|].
      split; [exact (level_questions_long st q Hin) | left; exact Hin].
    + apply orb_false_iff in Hcheck as [Hlo Hhi].
      apply Z.ltb_ge in Hlo. apply Z.ltb_ge in Hhi.
      exists candidate. cbn [fst]. split; [reflexivity|].
      split; [exact Hlo | right; exact Hhi].
  - pose proof (DeployedFacts.fallback_question_of_level draw st w1) as Hin.
    destruct (_generate_fallback_question draw st w1) as [q w2].
    cbn [fst] in *. exists q. split; [reflexivity|].
    split; [exact (level_questions_long st q Hin) | left; exact Hin].
  - pose proof (DeployedFacts.fallback_question_of_level draw st w1) as Hin.
    destruct (_generate_fallback_question draw st w1) as [q w2].
    cbn [fst] in *. exists q. split; [reflexivity|].
    split; [exact (level_questions_long st q Hin) | left; exact Hin].
Qed.

End WithCollaborators.

(** One more turn of the session with one answer. *)
Lemma process_answer_completes_turn_witness :
  reachable (Examples.fixed_reply "75") Examples.no_draw Examples.session_75
  /\ exists record next_question,
       fst (fst (process_answer (Examples.fixed_reply "75") Examples.no_draw
                   "Why?" "Because it is fast." Examples.session_75 tt))
       = Returned (record, next_question).
Proof.
  split; [exact FinalTheorems.session_75_reachable|].
  destruct (process_answer_completes_turn (Examples.fixed_reply "75")
              Examples.no_draw "Why?" "Because it is fast."
              Examples.session_75 tt FinalTheorems.session_75_reachable)
    as (record & next_question & Hret & _).
  exists record, next_question. exact Hret.
Defined.

Lemma session_records_fit_witness :
  reachable (Examples.fixed_reply "75") Examples.no_draw Examples.session_75
  /\ map qa_technical_score (candidate_answers Examples.session_75)
     = technical_scores Examples.session_75.
Proof.
  split; [exact FinalTheorems.session_75_reachable|].
  exact (proj1 (session_records_fit (Examples.fixed_reply "75")
                  Examples.no_draw Examples.session_75
                  FinalTheorems.session_75_reachable)).
Defined.

Lemma skipped_turn_question_length_witness :
  reachable (Examples.fixed_reply "75") Examples.no_draw Examples.session_75
  /\ exists question,
       fst (fst (get_next_question_without_answer (Examples.fixed_reply "75")
                   Examples.no_draw "Why?" Examples.session_75 tt))
       = Returned question
       /\ 10 <= Text.len question.
Proof.
  split; [exact FinalTheorems.session_75_reachable|].
  destruct (skipped_turn_question_length (Examples.fixed_reply "75")
              Examples.no_draw "Why?" Examples.session_75 tt
              FinalTheorems.session_75_reachable)
    as (question & Hret & Hlen & _).
  exists question. split; [exact Hret | exact Hlen].
Defined.

(** ** Scoring through [LLMRunner] *)

Section Deployed.

Import Deployed TokenSpec AnswerScoreSpec.



End Deployed.

End ManagerMore.

(** ** More on the proctoring penalty *)

Module PenaltyMore.

Import Proctoring PenaltyFacts StatsSpec.

Ltac six_keys H :=
  unfold counts_le, counts_agree, no_violation, penalty_keys in H;
  repeat match type of H with
         | Forall _ (_ :: _) =>
             let Hhead := fresh "Hkey" in
             apply Forall_cons_iff in H as [Hhead H]
         end;
  clear H.

Lemma when_pos_min_mono n n' p cap :
  0 <= p -> 0 <= cap -> n <= n' ->
  when_pos n (Z.min (n * p) cap) <= when_pos n' (Z.min (n' * p) cap).
Proof.
  intros Hp Hcap Hn. unfold when_pos.
  destruct (0 <? n) eqn:H0; destruct (0 <? n') eqn:H0';
    repeat match goal with
           | H : (_ <? _) = true |- _ => apply Z.ltb_lt in H
           | H : (_ <? _) = false |- _ => apply Z.ltb_ge in H
           end; try lia.
  all: assert (n * p <= n' * p) by nia; assert (0 <= n' * p) by nia; lia.
Qed.

Lemma when_pos_mul_mono n n' p :
  0 <= p -> n <= n' -> when_pos n (p * n) <= when_pos n' (p * n').
Proof.
  intros Hp Hn. unfold when_pos.
  destruct (0 <? n) eqn:H0; destruct (0 <? n') eqn:H0';
    repeat match goal with
           | H : (_ <? _) = true |- _ => apply Z.ltb_lt in H
           | H : (_ <? _) = false |- _ => apply Z.ltb_ge in H
           end; try lia; nia.
Qed.

Lemma penalty_body_mono d d' :
  counts_le d d' -> fst (penalty_body d) <= fst (penalty_body d').
Proof.
  intros H. six_keys H. rewrite !penalty_body_total.
  pose proof (when_pos_min_mono _ _ 2 20 ltac:(lia) ltac:(lia) Hkey).
  pose proof (when_pos_mul_mono _ _ 15 ltac:(lia) Hkey0).
  pose proof (when_pos_min_mono _ _ 5 25 ltac:(lia) ltac:(lia) Hkey1).
  pose proof (when_pos_min_mono _ _ 5 25 ltac:(lia) ltac:(lia) Hkey2).
  pose proof (when_pos_min_mono _ _ 2 15 ltac:(lia) ltac:(lia) Hkey3).
  pose proof (when_pos_min_mono _ _ 1 10 ltac:(lia) ltac:(lia) Hkey4).
  lia.
Qed.

(** X14. More violations never cost less: when a dict counts at least as
    much as another under each of the six keys, its penalty is at least as
    high, in both penalty methods. *)
Theorem penalty_monotone (d d' : stats) :
  counts_le d d' ->
  fst (InterviewManager._calculate_proctoring_penalty d)
  <= fst (InterviewManager._calculate_proctoring_penalty d')
  /\ fst (ScoringService.calculate_proctoring_penalty d)
     <= fst (ScoringService.calculate_proctoring_penalty d').
Proof.
  intros H. rewrite !manager_penalty_fst, !service_penalty_fst.
  pose proof (penalty_body_mono d d' H). lia.
Qed.

Lemma penalty_monotone_witness :
  counts_le (of_counts 1 0 2 0 0 3) (of_counts 4 1 2 0 9 3)
  /\ fst (InterviewManager._calculate_proctoring_penalty (of_counts 1 0 2 0 0 3))
     <= fst (InterviewManager._calculate_proctoring_penalty
               (of_counts 4 1 2 0 9 3)).
Proof.
  assert (H : counts_le (of_counts 1 0 2 0 0 3) (of_counts 4 1 2 0 9 3))
    by (repeat constructor; vm_compute; discriminate).
  split; [exact H|].
  exact (proj1 (penalty_monotone _ _ H)).
Defined.

Lemma when_pos_min_zero n p cap :
  0 < p -> 0 < cap -> (when_pos n (Z.min (n * p) cap) = 0 <-> n <= 0).
Proof.
  intros Hp Hcap. unfold when_pos.
  destruct (0 <? n) eqn:H0;
    [apply Z.ltb_lt in H0 | apply Z.ltb_ge in H0]; [|lia].
  assert (0 < n * p) by nia. lia.
Qed.

Lemma when_pos_mul_zero n p :
  0 < p -> (when_pos n (p * n) = 0 <-> n <= 0).
Proof.
  intros Hp. unfold when_pos.
  destruct (0 <? n) eqn:H0;
    [apply Z.ltb_lt in H0 | apply Z.ltb_ge in H0]; [|lia].
  assert (0 < p * n) by nia. lia.
Qed.

(** X15. The penalty is 0 exactly when no key of the six has a positive
    count, in both penalty methods. *)
Theorem penalty_zero_iff (d : stats) :
  (fst (InterviewManager._calculate_proctoring_penalty d) = 0
   <-> no_violation d)
  /\ (fst (ScoringService.calculate_proctoring_penalty d) = 0
      <-> no_violation d).
Proof.
  rewrite manager_penalty_fst, service_penalty_fst, penalty_body_total.
  pose proof (when_pos_min_zero (get d "tab_switch_count") 2 20
                ltac:(lia) ltac:(lia)) as Ha.
  pose proof (when_pos_mul_zero (get d "multiple_faces") 15 ltac:(lia)) as Hb.
  pose proof (when_pos_min_zero (get d "face_coverings") 5 25
                ltac:(lia) ltac:(lia)) as Hc.
  pose proof (when_pos_min_zero (get d "eye_coverings") 5 25
                ltac:(lia) ltac:(lia)) as He.
  pose proof (when_pos_min_zero (get d "no_face_count") 2 15
                ltac:(lia) ltac:(lia)) as Hf.
  pose proof (when_pos_min_zero (get d "total_alerts") 1 10
                ltac:(lia) ltac:(lia)) as Hg.
  pose proof (when_pos_capped (get d "tab_switch_count") 2 20
                ltac:(lia) ltac:(lia)).
  pose proof (when_pos_nonneg (get d "multiple_faces") 15 ltac:(lia)).
  pose proof (when_pos_capped (get d "face_coverings") 5 25
                ltac:(lia) ltac:(lia)).
  pose proof (when_pos_capped (get d "eye_coverings") 5 25
                ltac:(lia) ltac:(lia)).
  pose proof (when_pos_capped (get d "no_face_count") 2 15
                ltac:(lia) ltac:(lia)).
  pose proof (when_pos_capped (get d "total_alerts") 1 10
                ltac:(lia) ltac:(lia)).
  unfold no_violation, penalty_keys.
  rewrite !Forall_cons_iff, Forall_nil_iff.
  split; (split; [intros Hz | intros (? & ? & ? & ? & ? & ? & _)]);
    try (repeat split; lia); lia.
Qed.

Lemma penalty_body_agree d d' :
  counts_agree d d' -> penalty_body d = penalty_body d'.
Proof.
  intros H. six_keys H. unfold penalty_body.
  now rewrite Hkey, Hkey0, Hkey1, Hkey2, Hkey3, Hkey4.
Qed.

(** X16. Both penalty methods read the six keys only: dicts that count the
    same under them get the same penalty, whatever other keys they hold and
    whatever is stored under ["penalty_details"]. *)
Theorem penalty_reads_six_keys (d d' : stats) :
  counts_agree d d' ->
  fst (InterviewManager._calculate_proctoring_penalty d)
  = fst (InterviewManager._calculate_proctoring_penalty d')
  /\ fst (ScoringService.calculate_proctoring_penalty d)
     = fst (ScoringService.calculate_proctoring_penalty d').
Proof.
  intros H. rewrite !manager_penalty_fst, !service_penalty_fst.
  now rewrite (penalty_body_agree d d' H).
Qed.

Lemma penalty_reads_six_keys_witness :
  counts_agree (of_counts 3 1 0 0 2 4)
    {| counts := <["last_face_time" := 1700000000]> (counts (of_counts 3 1 0 0 2 4));
       penalty_details := Some {| penalties_applied := []; total_penalty := 99 |} |}
  /\ fst (InterviewManager._calculate_proctoring_penalty (of_counts 3 1 0 0 2 4))
     = fst (InterviewManager._calculate_proctoring_penalty
              {| counts := <["last_face_time" := 1700000000]>
                             (counts (of_counts 3 1 0 0 2 4));
                 penalty_details :=
                   Some {| penalties_applied := []; total_penalty := 99 |} |}).
Proof.
  match goal with
  | |- ?A /\ _ => assert (H : A) by (repeat constructor)
  end.
  split; [exact H|].
  exact (proj1 (penalty_reads_six_keys _ _ H)).
Defined.

Lemma counts_agree_same_counts d d' :
  counts d' = counts d -> counts_agree d' d.
Proof.
  intros Hc. unfold counts_agree, get. rewrite Hc.
  apply Forall_forall. reflexivity.
Qed.

(** X17. [ScoringService.calculate_proctoring_penalty] leaves every count of
    the dict as it is and stores the returned penalty with its line items
    under ["penalty_details"]; a second call on the dict so changed, by
    either penalty method, returns the same penalty and changes nothing
    more.  [InterviewManager._calculate_proctoring_penalty] leaves a dict
    without ["penalty_details"] untouched. *)
Theorem penalty_call_is_repeatable (d : stats) :
  let p := fst (ScoringService.calculate_proctoring_penalty d) in
  let d' := snd (ScoringService.calculate_proctoring_penalty d) in
  counts d' = counts d
  /\ penalty_details d'
     = Some {| penalties_applied := snd (penalty_body d); total_penalty := p |}
  /\ ScoringService.calculate_proctoring_penalty d' = (p, d')
  /\ InterviewManager._calculate_proctoring_penalty d' = (p, d')
  /\ (penalty_details d = None ->
      snd (InterviewManager._calculate_proctoring_penalty d) = d).
Proof.
  cbv zeta.
  unfold ScoringService.calculate_proctoring_penalty,
    InterviewManager._calculate_proctoring_penalty.
  destruct (penalty_body d) as [p items] eqn:Hbody. cbn [fst snd].
  set (d' := {| counts := counts d;
                penalty_details :=
                  Some {| penalties_applied := items;
                          total_penalty := Z.min p 70 |} |}).
  assert (Hbody' : penalty_body d' = (p, items)).
  { rewrite <- Hbody. apply penalty_body_agree.
    apply counts_agree_same_counts. reflexivity. }
  rewrite Hbody'. cbn [penalty_details counts].
  repeat split. intros ->. reflexivity.
Qed.

Lemma penalty_call_is_repeatable_witness :
  penalty_details (of_counts 3 1 0 0 2 4) = None
  /\ snd (InterviewManager._calculate_proctoring_penalty (of_counts 3 1 0 0 2 4))
     = of_counts 3 1 0 0 2 4.
Proof.
  split; [reflexivity|].
  apply (proj2 (proj2 (proj2 (proj2
           (penalty_call_is_repeatable (of_counts 3 1 0 0 2 4)))))).
  reflexivity.
Defined.

End PenaltyMore.

(** ** More on the final evaluations *)

Module FinalMore.

Import Num NumSpec NumFacts FinalSpec.

Local Open Scope Q_scope.

Lemma round_half_even_mono (x y : Q) :
  x <= y -> (round_half_even x <= round_half_even y)%Z.
Proof.
  intros Hxy.
  pose proof (Qfloor_resp_le x y Hxy) as Hf.
  pose proof (Qfloor_le x) as Hx1. pose proof (Qlt_floor x) as Hx2.
  pose proof (Qfloor_le y) as Hy1. pose proof (Qlt_floor y) as Hy2.
  rewrite inject_Z_plus in Hx2, Hy2.
  change (inject_Z 1) with 1 in Hx2, Hy2.
  unfold round_half_even.
  destruct (Qcompare_spec (x - inject_Z (Qfloor x)) (1 # 2)) as [Ex | Lx | Gx];
    destruct (Qcompare_spec (y - inject_Z (Qfloor y)) (1 # 2)) as [Ey | Ly | Gy];
    try destruct (Z.even (Qfloor x)) eqn:Evx;
    try destruct (Z.even (Qfloor y)) eqn:Evy;
    try lia;
    destruct (Z.eq_dec (Qfloor x) (Qfloor y)) as [E | NE]; try lia;
    rewrite E in *; first [congruence | exfalso; lra].
Qed.

Lemma round1_mono (x y : Q) : x <= y -> round1 x <= round1 y.
Proof.
  intros Hxy. unfold round1.
  assert (H : (round_half_even (x * 10) <= round_half_even (y * 10))%Z)
    by (apply round_half_even_mono; lra).
  rewrite Zle_Qle in H.
  apply Qmult_le_compat_r; [exact H | discriminate].
Qed.

Lemma round1_close (x : Q) : - (1 # 20) <= round1 x - x <= 1 # 20.
Proof. exact (proj2 (round1_rounded x)). Qed.

Lemma max0_between (b : Q) (p : Z) :
  0 <= b -> (0 <= p <= 70)%Z ->
  b - 70 <= max0 (b - inject_Z p) /\ max0 (b - inject_Z p) <= b.
Proof.
  intros Hb [Hlo Hhi]. rewrite Zle_Qle in Hlo, Hhi.
  change (inject_Z 0) with 0 in Hlo. change (inject_Z 70) with 70 in Hhi.
  unfold max0. destruct (Qlt_le_dec 0 (b - inject_Z p)); lra.
Qed.

Section WithCollaborators.

Context {W : Type}.
Variable llm_ask : string -> W -> outcome (option string) * W.
Variable draw : W -> nat * W.

Import InterviewManager.

(** X18. In a reachable session proctoring never raises the overall score
    and lowers it by 70.1 at most: the score reported with statistics is at
    most the score reported without, and at least that score minus 70.1. *)
Theorem penalty_only_lowers_score (stats : option Proctoring.stats) (st : t) :
  reachable llm_ask draw st ->
  overall_score (fst (calculate_final_evaluation stats st))
  <= overall_score (fst (calculate_final_evaluation None st))
  /\ overall_score (fst (calculate_final_evaluation None st)) - 70 - (1 # 10)
     <= overall_score (fst (calculate_final_evaluation stats st)).
Proof.
  intros Hreach.
  destruct (FinalFacts.final_evaluation_fields stats st)
    as (_ & Hls & _ & _ & Ho).
  destruct (FinalFacts.final_evaluation_fields None st)
    as (_ & Hls0 & _ & _ & Ho0).
  cbv zeta in Hls, Ho, Hls0, Ho0.
  destruct (FinalTheorems.reachable_base_bounds llm_ask draw st Hreach)
    as (_ & _ & Hbase).
  cbv zeta in Hbase. rewrite Hls in Ho. rewrite Hls0 in Ho0.
  rewrite Ho, Ho0. clear Ho Ho0 Hls Hls0.
  set (base := blend_60_40 _ _) in *.
  destruct stats as [d|]; [destruct (Proctoring.truthy d)|];
    try (split; [apply Qle_refl|];
         pose proof (round1_close base); lra).
  unfold after_penalty.
  assert (Hb0 : 0 <= base) by lra.
  destruct (max0_between base
              (fst (_calculate_proctoring_penalty d)) Hb0
              (PenaltyFacts.manager_penalty_bounds d)) as [Hlo Hhi].
  split; [apply round1_mono; exact Hhi|].
  pose proof (round1_close base).
  pose proof (round1_close
                (max0 (base - inject_Z (fst (_calculate_proctoring_penalty d))))).
  lra.
Qed.

End WithCollaborators.

Lemma penalty_only_lowers_score_witness :
  InterviewManager.reachable (Examples.fixed_reply "75") Examples.no_draw
    Examples.session_75
  /\ InterviewManager.overall_score
       (fst (InterviewManager.calculate_final_evaluation
               (Some (Proctoring.of_counts 4 1 0 0 0 2)) Examples.session_75))
     <= InterviewManager.overall_score
          (fst (InterviewManager.calculate_final_evaluation None
                  Examples.session_75)).
Proof.
  split; [exact FinalTheorems.session_75_reachable|].
  exact (proj1 (penalty_only_lowers_score (Examples.fixed_reply "75")
                  Examples.no_draw (Some (Proctoring.of_counts 4 1 0 0 0 2))
                  Examples.session_75 FinalTheorems.session_75_reachable)).
Defined.

Import ManagerEnd FeedbackSpec.

(** X19. The final evaluation of the interview manager always reports
    [total_penalty] 0 and no line items, also when a penalty was computed
    and subtracted (then reported under [proctoring_penalty]).  So the
    feedback of [end_interview] is the sentence on level and score followed
    by the proctoring notes: its part on base score and penalties is never
    written. *)
Theorem feedback_never_reports_penalty (show : Q -> string)
    (stats before : option Proctoring.stats) (st : InterviewManager.t) :
  let result := end_interview show stats before st in
  let feedback := fst (fst result) in
  let evaluation := stored_evaluation (snd (fst result)) in
  evaluation = fst (InterviewManager.calculate_final_evaluation stats st)
  /\ status (snd (fst result)) = "completed"
  /\ InterviewManager.pr_total_penalty
       (InterviewManager.penalty_details evaluation) = 0%Z
  /\ InterviewManager.pr_penalties_applied
       (InterviewManager.penalty_details evaluation) = []
  /\ InterviewManager.pr_proctoring_penalty
       (InterviewManager.penalty_details evaluation)
     = match stats with
       | Some d =>
           if Proctoring.truthy d
           then Some (inject_Z
                        (fst (InterviewManager._calculate_proctoring_penalty d)))
           else None
       | None => None
       end
  /\ feedback
     = score_sentence show (InterviewManager.current_level st)
         (InterviewManager.overall_score evaluation)
       +:+ notes_sentence (snd result).
Proof.
  cbv zeta. unfold end_interview, InterviewManager.calculate_final_evaluation,
    _generate_final_feedback, score_sentence, notes_sentence.
  destruct stats as [d|]; [destruct (Proctoring.truthy d) eqn:Hd|].
  - destruct (InterviewManager._calculate_proctoring_penalty d) as [p d']
      eqn:Hp.
    assert (Hd' : Proctoring.truthy d' = true).
    { unfold InterviewManager._calculate_proctoring_penalty in Hp.
      destruct (Proctoring.penalty_body d) as [b items].
      injection Hp as _ <-.
      destruct (Proctoring.penalty_details d) eqn:Hn; [|exact Hd].
      unfold Proctoring.truthy. cbn. apply orb_true_r. }
    cbn [fst snd stored_evaluation status InterviewManager.penalty_details
         InterviewManager.pr_total_penalty
         InterviewManager.pr_penalties_applied
         InterviewManager.pr_proctoring_penalty
         InterviewManager.overall_score Z.ltb Z.compare].
    rewrite Hd'.
    repeat split.
    destruct (proctoring_feedback d');
      [now rewrite TokenFacts.append_nil_r | reflexivity].
  - cbn [fst snd stored_evaluation status InterviewManager.penalty_details
         InterviewManager.pr_total_penalty
         InterviewManager.pr_penalties_applied
         InterviewManager.pr_proctoring_penalty
         InterviewManager.overall_score Z.ltb Z.compare].
    rewrite Hd. repeat split. now rewrite TokenFacts.append_nil_r.
  - cbn [fst snd stored_evaluation status InterviewManager.penalty_details
         InterviewManager.pr_total_penalty
         InterviewManager.pr_penalties_applied
         InterviewManager.pr_proctoring_penalty
         InterviewManager.overall_score Z.ltb Z.compare].
    repeat split. now rewrite TokenFacts.append_nil_r.
Qed.

Import ScoringService.

Lemma service_weight_bounds (level : string) :
  3 # 10 <= service_weight level /\ service_weight level <= 1.
Proof.
  unfold service_weight.
  destruct (String.eqb level "easy"), (String.eqb level "medium"),
    (String.eqb level "hard"); split; discriminate.
Qed.

Lemma current_average_bounds (st : ScoringService.t) :
  Forall (fun s => 0 <= s <= 100)%Z (scores_technical st) ->
  0 <= calculate_current_average st <= 100.
Proof.
  intros Hs. unfold calculate_current_average.
  destruct (scores_technical st) as [|s rest] eqn:Hl; [lra|].
  rewrite <- Hl in *. apply mean_bounds; [rewrite Hl; discriminate | exact Hs].
Qed.

(** X20. For a ledger with questions whose scores all lie between 0 and 100
    [ScoringService.calculate_final_evaluation] reports a technical average
    and an overall score between 0 and 100, for every final level and
    whatever statistics are passed. *)
Theorem service_score_bounds (final_level : string)
    (stats : option Proctoring.stats) (st : ScoringService.t) :
  questions st <> [] ->
  Forall (fun s => 0 <= s <= 100)%Z (scores_technical st) ->
  let r := fst (fst (calculate_final_evaluation final_level stats st)) in
  (0 <= technical_avg r /\ technical_avg r <= 100)
  /\ (0 <= overall_score r /\ overall_score r <= 100).
Proof.
  intros Hq Hs. cbv zeta.
  destruct (ServiceFacts.service_evaluation_fields final_level stats st Hq)
    as (Ht & Ho & _ & _).
  cbv zeta in Ht, Ho. rewrite Ht, Ho.
  pose proof (current_average_bounds st Hs) as Havg.
  pose proof (service_weight_bounds final_level) as Hw.
  set (avg := calculate_current_average st) in *.
  assert (Hbase : 0 <= blend_70_30 avg (service_weight final_level)
                  /\ blend_70_30 avg (service_weight final_level) <= 100)
    by (unfold blend_70_30; lra).
  set (base := blend_70_30 avg (service_weight final_level)) in *.
  change 0 with (inject_Z 0). change 100 with (inject_Z 100).
  split; apply round1_between;
    change (inject_Z 0) with 0; change (inject_Z 100) with 100; try lra.
  - destruct stats as [d|]; [destruct (Proctoring.truthy d)|]; try lra.
    apply max0_nonneg.
  - destruct stats as [d|]; [destruct (Proctoring.truthy d)|]; try lra.
    apply max0_le; [lra|].
    pose proof (PenaltyFacts.service_penalty_bounds d) as [Hp _].
    rewrite Zle_Qle in Hp. change (inject_Z 0) with 0 in Hp. lra.
Qed.

Lemma service_score_bounds_witness :
  questions Examples.ledger_75 <> []
  /\ Forall (fun s => 0 <= s <= 100)%Z (scores_technical Examples.ledger_75)
  /\ overall_score
       (fst (fst (calculate_final_evaluation "hard"
                    (Some (Proctoring.of_counts 1 0 0 0 0 1))
                    Examples.ledger_75))) <= 100.
Proof.
  assert (Hq : questions Examples.ledger_75 <> [])
    by (vm_compute; discriminate).
  assert (Hs : Forall (fun s => 0 <= s <= 100)%Z
                 (scores_technical Examples.ledger_75))
    by (repeat constructor; vm_compute; discriminate).
  split; [exact Hq|]. split; [exact Hs|].
  exact (proj2 (proj2 (service_score_bounds "hard"
                         (Some (Proctoring.of_counts 1 0 0 0 0 1))
                         Examples.ledger_75 Hq Hs))).
Defined.

End FinalMore.

(** ** The ledger of the scoring service *)

Module LedgerMore.

Import ScoringService ServiceSummary LedgerSpec.

Lemma numbers_snoc (n : nat) :
  numbers (S n) = numbers n ++ [(Z.of_nat n + 1)%Z].
Proof.
  unfold numbers. rewrite seq_S, map_app. cbn [map]. do 2 f_equal. lia.
Qed.

Lemma running_means_snoc (l : list Z) (x : Z) :
  running_means (l ++ [x]) = running_means l ++ [Num.mean (l ++ [x])].
Proof.
  unfold running_means. rewrite length_app. cbn [length].
  rewrite Nat.add_1_r, seq_S, map_app. cbn [map]. f_equal.
  - apply map_ext_in. intros k Hk. apply in_seq in Hk.
    rewrite firstn_app.
    replace (k - length l)%nat with 0%nat by lia.
    cbn [firstn]. now rewrite app_nil_r.
  - do 2 f_equal. apply firstn_all2. rewrite length_app. cbn [length]. lia.
Qed.

Lemma add_question_score_ledger_ok question answer technical_score level
    analysis st :
  ledger_ok st ->
  ledger_ok (snd (add_question_score question answer technical_score level
                    analysis st)).
Proof.
  intros (Ht & Hl & Hn & Ho). unfold ledger_ok, add_question_score.
  cbn [snd questions scores_technical scores_overall sd_level_progression
       ScoringService.technical_score ScoringService.level
       ScoringService.question_number].
  rewrite !map_app, length_app. cbn [map length].
  cbn [ScoringService.technical_score ScoringService.level
       ScoringService.question_number].
  rewrite Ht, Hl, Hn, Ho. repeat split.
  - rewrite Nat.add_1_r. now rewrite numbers_snoc.
  - rewrite running_means_snoc. f_equal. unfold calculate_current_average.
    cbn [scores_technical].
    destruct (scores_technical st ++ [technical_score]) eqn:E; [|reflexivity].
    now destruct (scores_technical st).
Qed.

Lemma final_evaluation_keeps_lists final_level stats st :
  let st' := snd (fst (calculate_final_evaluation final_level stats st)) in
  questions st' = questions st
  /\ scores_technical st' = scores_technical st
  /\ scores_overall st' = scores_overall st
  /\ sd_level_progression st' = sd_level_progression st.
Proof.
  cbv zeta. unfold calculate_final_evaluation.
  destruct (questions st) as [|q rest] eqn:Hq;
    [cbn; rewrite ?Hq; auto|].
  destruct stats as [d|]; [destruct (Proctoring.truthy d)|];
    try (cbn; rewrite ?Hq; now auto).
  destruct (calculate_proctoring_penalty d) as [p d']. cbn. rewrite ?Hq.
  auto.
Qed.

(** X21. The lists of a ledger always fit together: after any sequence of
    [add_question_score] and [calculate_final_evaluation] calls on a new
    scoring service, the technical scores and the level progression are the
    scores and levels of the recorded questions in order, the questions are
    numbered 1, 2, 3, ..., and the k-th entry of the overall scores is the
    mean of the first k technical scores. *)
Theorem ledger_lists_fit (st : ScoringService.t) :
  ScoringService.reachable st -> ledger_ok st.
Proof.
  induction 1 as [|st question answer technical_score level analysis _ IH
                  |st final_level stats _ IH].
  - repeat split.
  - now apply add_question_score_ledger_ok.
  - destruct (final_evaluation_keeps_lists final_level stats st)
      as (Hq & Ht & Ho & Hl).
    cbv zeta in Hq, Ht, Ho, Hl. unfold ledger_ok.
    rewrite Hq, Ht, Ho, Hl. exact IH.
Qed.

Lemma ledger_lists_fit_witness :
  ScoringService.reachable Examples.ledger_75 /\ ledger_ok Examples.ledger_75.
Proof.
  assert (H : ScoringService.reachable Examples.ledger_75)
    by (apply reach_add, reach_init).
  split; [exact H | exact (ledger_lists_fit Examples.ledger_75 H)].
Defined.

(** X22. The recent scores of [get_scores_summary] are the last five
    technical scores, and all of them when there are fewer than five: the
    list is a suffix of the technical scores of length min(5, number of
    scores).  The test on the length in the source changes nothing. *)
Theorem recent_scores_are_the_last_five (st : ScoringService.t) :
  let s := get_scores_summary st in
  recent_scores s = InterviewManager.last_n 5 (scores_technical st)
  /\ length (recent_scores s) = Nat.min 5 (length (scores_technical st))
  /\ exists older, scores_technical st = older ++ recent_scores s.
Proof.
  cbv zeta.
  assert (E : recent_scores (get_scores_summary st)
              = InterviewManager.last_n 5 (scores_technical st)).
  { unfold get_scores_summary. cbn [recent_scores].
    unfold InterviewManager.last_n.
    destruct (5 <? Z.of_nat (length (scores_technical st)))%Z eqn:H5;
      [reflexivity|].
    apply Z.ltb_ge in H5.
    replace (length (scores_technical st) - 5)%nat with 0%nat by lia.
    reflexivity. }
  rewrite E. unfold InterviewManager.last_n. split; [reflexivity|]. split.
  - rewrite length_skipn. lia.
  - exists (firstn (length (scores_technical st) - 5) (scores_technical st)).
    symmetry. apply firstn_skipn.
Qed.

End LedgerMore.

(** ** The proctoring of a session in [main.py] *)

Module SessionMore.

Import Session SessionSpec.

Lemma add_to_some key n s old :
  proctoring_stats s !! key = Some old ->
  add_to key n s
  = (Returned tt, set_stats (<[key := old + n]> (proctoring_stats s)) s).
Proof. intros H. unfold add_to. now rewrite H. Qed.

Lemma count_alert_hit token key s :
  count_alert token key [token] s = add_to key 1 s.
Proof.
  unfold count_alert. cbn [existsb]. now rewrite String.eqb_refl.
Qed.

Lemma count_alert_miss token other key s :
  String.eqb token other = false ->
  count_alert token key [other] s = (Returned tt, s).
Proof. intros H. unfold count_alert. cbn [existsb]. now rewrite H. Qed.

Ltac lookups :=
  cbn [proctoring_stats set_stats tab_switch_count];
  rewrite ?lookup_insert;
  repeat case_decide; try congruence; try discriminate.

Ltac lookup_goal :=
  rewrite ?lookup_insert; repeat case_decide;
  try congruence; try assumption; try (f_equal; cbn; lia).

Lemma video_frame_stats_ok n late detected s :
  stats_ok s ->
  fst (video_frame detected (frame_alerts n late) s) = Returned tt
  /\ stats_ok (snd (video_frame detected (frame_alerts n late) s)).
Proof.
  intros (m & k & Ht & Hm & Hk & Etab & Emf & Efc & Eec & Enf & Eta).
  unfold video_frame.
  set (s0 := {| proctoring_stats := proctoring_stats s;
                proctoring_alerts := proctoring_alerts s;
                tab_switch_count := tab_switch_count s;
                face_detected := detected |}).
  assert (Hs0 : proctoring_stats s0 = proctoring_stats s) by reflexivity.
  assert (Ht0 : tab_switch_count s0 = tab_switch_count s) by reflexivity.
  clearbody s0.
  rewrite <- Hs0 in Etab, Emf, Efc, Eec, Enf, Eta. rewrite <- Ht0 in Ht, Etab.
  clear Hs0 Ht0 s.
  destruct n as [|[|n]]; [destruct late| |]; cbn [frame_alerts].
  - unfold update_proctoring_stats, and_then.
    rewrite !count_alert_miss by reflexivity.
    rewrite count_alert_hit, (add_to_some _ _ _ _ Enf).
    rewrite (add_to_some "total_alerts" _ _ (m + k)) by (lookups; exact Eta).
    cbn [fst snd]. split; [reflexivity|].
    exists m, (k + 1). cbn [proctoring_stats set_stats tab_switch_count].
    repeat split; try assumption; try lia; lookup_goal.
  - split; [reflexivity|]. exists m, k. repeat split; assumption.
  - split; [reflexivity|]. exists m, k. repeat split; assumption.
  - unfold update_proctoring_stats, and_then.
    rewrite count_alert_hit, (add_to_some _ _ _ _ Emf).
    rewrite !count_alert_miss by reflexivity.
    rewrite (add_to_some "total_alerts" _ _ (m + k)) by (lookups; exact Eta).
    cbn [fst snd]. split; [reflexivity|].
    exists (m + 1), k. cbn [proctoring_stats set_stats tab_switch_count].
    repeat split; try assumption; try lia; lookup_goal.
Qed.

Lemma init_stats_ok : stats_ok init.
Proof.
  exists 0, 0. unfold init. cbn [proctoring_stats tab_switch_count].
  repeat split; try lia; reflexivity.
Qed.

Lemma tab_switch_stats_ok s : stats_ok s -> stats_ok (snd (tab_switch s)).
Proof.
  intros (m & k & Ht & Hm & Hk & Etab & Emf & Efc & Eec & Enf & Eta).
  exists m, k. unfold tab_switch. cbn [snd proctoring_stats tab_switch_count].
  rewrite ?lookup_insert. repeat case_decide; try congruence.
  repeat split; try assumption; lia.
Qed.

Lemma collect_stats_get s key :
  In key ["multiple_faces"; "face_coverings"; "eye_coverings";
          "no_face_count"; "total_alerts"] ->
  Proctoring.get (collect_stats s) key = get s key.
Proof.
  unfold Proctoring.get, collect_stats, Proctoring.of_counts, get.
  cbn [Proctoring.counts In].
  intros [<- | [<- | [<- | [<- | [<- | []]]]]];
    rewrite ?lookup_insert; repeat case_decide; try congruence; reflexivity.
Qed.

Lemma collect_stats_tab s :
  Proctoring.get (collect_stats s) "tab_switch_count" = tab_switch_count s.
Proof.
  unfold Proctoring.get, collect_stats, Proctoring.of_counts.
  cbn [Proctoring.counts]. rewrite lookup_insert. now case_decide.
Qed.

Section Vision.

Variables (frame landmarks memory : Type).
Variable covering :
  frame -> landmarks -> FaceProctor.t memory -> FaceProctor.t memory.
Variable no_memory : memory.

Lemma detect_frame_alerts now0 (v : FaceProctor.view frame landmarks) :
  FaceProctor.detect_face_proctoring covering no_memory now0 (Some v)
  = (negb (Nat.eqb (FaceProctor.detections v) 0),
     frame_alerts (FaceProctor.detections v)
       (if Qlt_le_dec 3 (FaceProctor.now v - now0) then true else false)).
Proof.
  unfold FaceProctor.detect_face_proctoring, FaceProctor.check_rules,
    FaceProctor.init.
  destruct (FaceProctor.detections v) as [|[|n]];
    cbn [Nat.ltb Nat.leb FaceProctor.face_present FaceProctor.alerts
         FaceProctor.last_face_time negb Nat.eqb frame_alerts
         FaceProctor.add_alert FaceProctor.calibration_complete app].
  - now destruct (Qlt_le_dec 3 (FaceProctor.now v - now0)).
  - now destruct (FaceProctor.multi_face_landmarks v).
  - now destruct (FaceProctor.multi_face_landmarks v).
Qed.

Lemma detect_some_frame_alerts now0 seen :
  exists n late,
    snd (FaceProctor.detect_face_proctoring covering no_memory now0 seen)
    = frame_alerts n late.
Proof.
  destruct seen as [v|].
  - rewrite detect_frame_alerts. eauto.
  - exists 1%nat, false. reflexivity.
Qed.

Lemma receive_stats_ok m s :
  stats_ok s ->
  fst (Streams.receive covering no_memory m s) = Returned tt
  /\ stats_ok (snd (Streams.receive covering no_memory m s)).
Proof.
  intros Hs. destruct m as [|now0 seen]; cbn [Streams.receive fst snd].
  - split; [reflexivity | now apply tab_switch_stats_ok].
  - destruct (detect_some_frame_alerts now0 seen) as (n & late & E).
    destruct (FaceProctor.detect_face_proctoring covering no_memory now0 seen)
      as [detected alerts].
    cbn [snd] in E. subst alerts. now apply video_frame_stats_ok.
Qed.

Lemma reachable_stats_ok s :
  Streams.reachable covering no_memory s -> stats_ok s.
Proof.
  induction 1 as [|s m _ IH]; [exact init_stats_ok|].
  now apply receive_stats_ok.
Qed.

(** X23. [detect_face_proctoring] makes a new proctor for every frame, so
    its calibration is never complete and the covering check is never
    reached: whatever that check does, the alerts of a frame are
    ["MULTIPLE PEOPLE DETECTED"] when the detector finds more than one face,
    ["NO FACE DETECTED"] when it finds none and more than 3 seconds have
    passed since the proctor was made, and nothing otherwise; never
    ["FACE COVERED"] or ["EYES COVERED"].  A frame that cannot be read gives
    no face and no alert. *)
Theorem fresh_proctor_alerts (now0 : Q)
    (seen : option (FaceProctor.view frame landmarks)) :
  let result :=
    FaceProctor.detect_face_proctoring covering no_memory now0 seen in
  result
  = match seen with
    | None => (false, [])
    | Some v =>
        match FaceProctor.detections v with
        | O => (false,
                if Qlt_le_dec 3 (FaceProctor.now v - now0)
                then [NO_FACE] else [])
        | S O => (true, [])
        | S (S _) => (true, [MULTIPLE_PEOPLE])
        end
    end
  /\ ~ In FACE_COVERED (snd result)
  /\ ~ In EYES_COVERED (snd result)
  /\ (length (snd result) <= 1)%nat.
Proof.
  cbv zeta. destruct seen as [v|].
  - rewrite detect_frame_alerts.
    destruct (FaceProctor.detections v) as [|[|n]];
      [destruct (Qlt_le_dec 3 (FaceProctor.now v - now0))| |];
      cbn [snd frame_alerts negb Nat.eqb length In];
      (split; [reflexivity|]);
      repeat split; try lia; intros [E|[]]; discriminate E.
  - cbn. repeat split; try lia; intros [].
Qed.

(** X24. The statistics of a session keep their shape: after any sequence
    of tab switches and video frames on a new session, handling the next
    message does not raise, the dict entry for tab switches is the tab count
    of the session, the counts of face and eye coverings are still 0, and
    the total of alerts is the number of frames with several people plus the
    number of frames without a face. *)
Theorem session_statistics_shape (s : Session.t)
    (m : Streams.message frame landmarks) :
  Streams.reachable covering no_memory s ->
  fst (Streams.receive covering no_memory m s) = Returned tt
  /\ proctoring_stats s !! "tab_switch_count" = Some (tab_switch_count s)
  /\ get s "face_coverings" = 0
  /\ get s "eye_coverings" = 0
  /\ get s "total_alerts" = get s "multiple_faces" + get s "no_face_count"
  /\ 0 <= tab_switch_count s
  /\ 0 <= get s "multiple_faces"
  /\ 0 <= get s "no_face_count".
Proof.
  intros Hreach. pose proof (reachable_stats_ok s Hreach) as Hs.
  split; [apply (receive_stats_ok m s Hs)|].
  destruct Hs as (mf & nf & Ht & Hm & Hk & Etab & Emf & Efc & Eec & Enf & Eta).
  unfold get. rewrite Emf, Efc, Eec, Enf, Eta. cbn [default from_option id].
  repeat split; assumption.
Qed.

(** X25. For a session reached by tab switches and video frames, the
    estimate of [get_proctoring_stats] is never more than the penalty that
    [end_interview] subtracts for the statistics of the session, and the two
    are equal when several people were seen in at most two frames: the
    estimate caps that item at 30, the penalty does not. *)
Theorem estimate_at_most_penalty (s : Session.t) :
  Streams.reachable covering no_memory s ->
  let penalty :=
    fst (InterviewManager._calculate_proctoring_penalty (collect_stats s)) in
  estimated_penalty s <= penalty
  /\ (get s "multiple_faces" <= 2 -> estimated_penalty s = penalty).
Proof.
  intros Hreach. cbv zeta.
  destruct (reachable_stats_ok s Hreach)
    as (mf & nf & Ht & Hm & Hk & Etab & Emf & Efc & Eec & Enf & Eta).
  rewrite PenaltyFacts.manager_penalty_fst, PenaltyFacts.penalty_body_total.
  rewrite collect_stats_tab, !collect_stats_get by (cbn; tauto).
  unfold estimated_penalty, get. rewrite Emf, Efc, Eec, Enf, Eta.
  cbn [default from_option id]. unfold Proctoring.when_pos.
  destruct (0 <? tab_switch_count s) eqn:H1, (0 <? mf) eqn:H2,
    (0 <? nf) eqn:H3, (0 <? mf + nf) eqn:H4;
    change (0 <? 0) with false; cbv iota;
    rewrite ?Z.ltb_lt, ?Z.ltb_ge in *; lia.
Qed.

(** X26. The penalty that the tab warning announces is the tab item of the
    penalty, [min(2 * count, 20)] at the new count: it is never more than
    the penalty that [end_interview] would subtract for the session at that
    moment, and it is that penalty while no alert has been counted. *)
Theorem tab_warning_announces_tab_item (s : Session.t) :
  Streams.reachable covering no_memory s ->
  let announced := fst (tab_switch s) in
  let s' := snd (tab_switch s) in
  let penalty :=
    fst (InterviewManager._calculate_proctoring_penalty (collect_stats s')) in
  tab_switch_count s' = tab_switch_count s + 1
  /\ announced = Z.min (2 * tab_switch_count s') 20
  /\ announced <= penalty
  /\ (get s "total_alerts" = 0 -> announced = penalty).
Proof.
  intros Hreach. cbv zeta.
  pose proof (tab_switch_stats_ok s (reachable_stats_ok s Hreach)) as Hs'.
  destruct (reachable_stats_ok s Hreach)
    as (mf0 & nf0 & _ & Hm0 & Hk0 & _ & _ & _ & _ & _ & Eta0).
  destruct Hs' as (mf & nf & Ht & Hm & Hk & Etab & Emf & Efc & Eec & Enf & Eta).
  assert (Esame : Some (mf + nf) = Some (mf0 + nf0)).
  { rewrite <- Eta, <- Eta0. unfold tab_switch.
    cbn [snd proctoring_stats]. rewrite lookup_insert. now case_decide. }
  injection Esame as Esame.
  rewrite PenaltyFacts.manager_penalty_fst, PenaltyFacts.penalty_body_total.
  rewrite collect_stats_tab, !collect_stats_get by (cbn; tauto).
  unfold get. rewrite Emf, Efc, Eec, Enf, Eta, Eta0.
  cbn [default from_option id]. unfold Proctoring.when_pos.
  unfold tab_switch in *. cbn [fst snd tab_switch_count] in *.
  destruct (0 <? tab_switch_count s + 1) eqn:H1, (0 <? mf) eqn:H2,
    (0 <? nf) eqn:H3, (0 <? mf + nf) eqn:H4;
    change (0 <? 0) with false; cbv iota;
    rewrite ?Z.ltb_lt, ?Z.ltb_ge in *; lia.
Qed.

End Vision.

Lemma tab_warning_announces_tab_item_witness :
  Streams.reachable (fun (_ _ : unit) p => p) tt init
  /\ fst (tab_switch init) = 2.
Proof.
  split; [apply Streams.reach_init|].
  rewrite (proj1 (proj2 (tab_warning_announces_tab_item unit unit unit
                           (fun (_ _ : unit) p => p) tt init
                           (Streams.reach_init _ tt)))).
  reflexivity.
Defined.

Lemma session_statistics_shape_witness :
  Streams.reachable (fun (_ _ : unit) p => p) tt
    (snd (Streams.receive (fun (_ _ : unit) p => p) tt
            Streams.tab_switch_message init))
  /\ fst (Streams.receive (fun (_ _ : unit) p => p) tt
            (Streams.video_frame_message 0
               (Some (FaceProctor.mk_view tt 2 [tt] 1)))
            (snd (Streams.receive (fun (_ _ : unit) p => p) tt
                    Streams.tab_switch_message init)))
     = Returned tt.
Proof.
  assert (H : Streams.reachable (fun (_ _ : unit) p => p) tt
                (snd (Streams.receive (fun (_ _ : unit) p => p) tt
                        Streams.tab_switch_message init)))
    by (apply Streams.reach_receive, Streams.reach_init).
  split; [exact H|].
  exact (proj1 (session_statistics_shape unit unit unit
                  (fun (_ _ : unit) p => p) tt _
                  (Streams.video_frame_message 0
                     (Some (FaceProctor.mk_view tt 2 [tt] 1))) H)).
Defined.

Lemma estimate_at_most_penalty_witness :
  Streams.reachable (fun (_ _ : unit) p => p) tt
    (snd (Streams.receive (fun (_ _ : unit) p => p) tt
            Streams.tab_switch_message init))
  /\ estimated_penalty
       (snd (Streams.receive (fun (_ _ : unit) p => p) tt
               Streams.tab_switch_message init))
     <= fst (InterviewManager._calculate_proctoring_penalty
               (collect_stats
                  (snd (Streams.receive (fun (_ _ : unit) p => p) tt
                          Streams.tab_switch_message init)))).
Proof.
  assert (H : Streams.reachable (fun (_ _ : unit) p => p) tt
                (snd (Streams.receive (fun (_ _ : unit) p => p) tt
                        Streams.tab_switch_message init)))
    by (apply Streams.reach_receive, Streams.reach_init).
  split; [exact H|].
  exact (proj1 (estimate_at_most_penalty unit unit unit
                  (fun (_ _ : unit) p => p) tt _ H)).
Defined.

End SessionMore.
